(** * goskills: the subagents, the skill runner's tool loop and the python tool

    A shallow embedding of

    - [tool/python_tool.go]        ([RunPythonScript]),
    - the two listings of the agent package's subagents (an English-language
      one, module [AgentEN], and a Chinese-language one in which every
      subagent has an interaction handler, module [AgentZH]),
    - the skill runner ([executeSkillWithTools], [executeToolCall]),

    together with the properties the specification states about them.

    Go strings are byte strings: a [string] here is the sequence of bytes of
    the Go string, so a non-ASCII literal stands for its UTF-8 bytes and
    [String.length] is Go's [len].  An [error] is represented by the text of
    its [Error()] method; a Go result pair [(T, error)] is a pair whose second
    component is [None] for [nil].

    Everything outside the repository that the code calls (the LLM client,
    the search back-ends, the file system, [os/exec], standard input, the
    interaction handler) is an oracle over an abstract world [W]; every call
    of an oracle is recorded in a trace, so that the theorems can speak about
    which calls were made and in which order.  Diagnostic output written with
    [fmt.Print*] is not part of the model. *)

From Stdlib Require Import String Ascii List ZArith QArith Lia Bool DecimalString.
From stdpp Require Import base gmap strings list.

Local Open Scope Z_scope.

(** ** Go values *)

Definition error := string.

(** The line feed, Go's "\n". *)
Definition LF : string := String "010"%char EmptyString.

(** [fmt.Sprintf("%d", n)] for a length. *)
Definition Itoa (n : nat) : string := NilEmpty.string_of_uint (Nat.to_uint n).

(** A value of type [interface{}] as the code inspects it: by type assertion
    to [string] or to [[]string].  [AnyNil] is the nil interface (what a
    missing map key yields); [AnyOther] stands for a value of any other
    dynamic type. *)
Inductive any : Type :=
| AnyNil
| AnyString (s : string)
| AnyStrings (l : list string)
| AnyOther (tag : nat).

(** [m[k].(string)]: the value and the [ok] flag. *)
Definition assert_string (v : option any) : string * bool :=
  match v with
  | Some (AnyString s) => (s, true)
  | _ => (EmptyString, false)
  end.

(** [m[k].([]string)]. *)
Definition assert_strings (v : option any) : list string * bool :=
  match v with
  | Some (AnyStrings l) => (l, true)
  | _ => ([], false)
  end.

(** ** Package [strings] *)

(** [s[k:]]; the callers below only slice at an index obtained from
    [strings_Index], so the slice is always in range. *)
Fixpoint slice_from (k : nat) (s : string) : string :=
  match k, s with
  | O, _ => s
  | S k', String _ s' => slice_from k' s'
  | S _, EmptyString => EmptyString
  end.

(** [strings.Index]: the byte index of the first instance, or -1. *)
Definition strings_Index (s substr : string) : Z :=
  match String.index 0 substr s with
  | Some n => Z.of_nat n
  | None => -1
  end.

Definition strings_Contains (s substr : string) : bool :=
  0 <=? strings_Index s substr.

Definition strings_HasSuffix (s suffix : string) : bool :=
  (String.length suffix <=? String.length s)%nat
  && String.eqb (slice_from (String.length s - String.length suffix) s) suffix.

Definition strings_Join (elems : list string) (sep : string) : string :=
  String.concat sep elems.

(** [strings.ToLower] on the ASCII letters.  Bytes of other runes are kept:
    the only use below compares the result with "y", and no rune other than
    'y' and 'Y' lower-cases to 'y'. *)
Definition lower_byte (c : ascii) : ascii :=
  let n := nat_of_ascii c in
  if ((65 <=? n) && (n <=? 90))%nat then ascii_of_nat (n + 32) else c.

Fixpoint strings_ToLower (s : string) : string :=
  match s with
  | EmptyString => EmptyString
  | String c s' => String (lower_byte c) (strings_ToLower s')
  end.

(** [strings.TrimSpace] removes leading and trailing white space as defined
    by Unicode.  [space_runes] lists the UTF-8 encodings of the runes with
    [unicode.IsSpace]: tab, LF, VT, FF, CR, space, U+0085, U+00A0, U+1680,
    U+2000..U+200A, U+2028, U+2029, U+202F, U+205F and U+3000. *)
Definition bytes (l : list nat) : string :=
  fold_right (fun n s => String (ascii_of_nat n) s) EmptyString l.

Definition space_runes : list string :=
  map bytes
    ([[9]; [10]; [11]; [12]; [13]; [32]; [194; 133]; [194; 160]; [225; 154; 128]]
     ++ map (fun k => [226; 128; k]) (seq 128 11)
     ++ [[226; 128; 168]; [226; 128; 169]; [226; 128; 175]; [226; 129; 159];
         [227; 128; 128]])%nat.

(** The rest of [s] after one leading white-space rune, if it starts with one. *)
Definition drop_space (s : string) : option string :=
  match filter (fun r => String.prefix r s) space_runes with
  | r :: _ => Some (slice_from (String.length r) s)
  | [] => None
  end.

Fixpoint trim_left (fuel : nat) (s : string) : string :=
  match fuel with
  | O => s
  | S fuel' =>
      match drop_space s with
      | Some s' => trim_left fuel' s'
      | None => s
      end
  end.

(** The string without one trailing white-space rune, if it ends with one. *)
Definition drop_space_end (s : string) : option string :=
  match filter (fun r => strings_HasSuffix s r) space_runes with
  | r :: _ => Some (String.substring 0 (String.length s - String.length r) s)
  | [] => None
  end.

Fixpoint trim_right (fuel : nat) (s : string) : string :=
  match fuel with
  | O => s
  | S fuel' =>
      match drop_space_end s with
      | Some s' => trim_right fuel' s'
      | None => s
      end
  end.

Definition strings_TrimSpace (s : string) : string :=
  let l := trim_left (String.length s) s in
  trim_right (String.length l) l.

(** ** The chat-completion types of the client library (go-openai)

    Only the fields the code reads or writes.  [ToolCalls] is a Go slice:
    [None] is the nil slice, which is what the tool loop tests for. *)

Record FunctionCall := { Name : string; Arguments : string }.

Record ToolCall := { ID : string; Function : FunctionCall }.

Record ChatCompletionMessage := {
  Role : string;
  Content : string;
  ToolCalls : option (list ToolCall);
  ToolCallID : string
}.

Definition ChatMessageRoleSystem : string := "system".
Definition ChatMessageRoleUser : string := "user".
Definition ChatMessageRoleAssistant : string := "assistant".
Definition ChatMessageRoleTool : string := "tool".

Record Tool := { ToolName : string; ToolDescription : string }.

Record ChatCompletionRequest := {
  Model : string;
  Messages : list ChatCompletionMessage;
  Tools : list Tool;
  Temperature : Q
}.

(** [resp.Choices], each choice reduced to its [Message]. *)
Record ChatCompletionResponse := { Choices : list ChatCompletionMessage }.

(** ** The world, its trace and the monad of the embedding *)

(** One entry per call that leaves the program, with the arguments of the
    call and the answer it got. *)
Inductive Event : Type :=
| EvLookPath (file : string) (ans : string * option error)
| EvCmdRun (exe : string) (args : list string)
    (ans : string * string * option error)
| EvStat (name : string) (ans : option error)
| EvReadFile (path : string) (ans : string * option error)
| EvWriteFile (path content : string) (ans : option error)
| EvShellRun (args : gmap string any) (code : string)
    (ans : string * option error)
| EvPythonRun (args : gmap string any) (code : string)
    (ans : string * option error)
| EvRunShellScript (scriptPath : string) (args : list string)
    (ans : string * option error)
| EvTavilySearch (query : string) (ans : string * option error)
| EvTavilySearchWithLimit (query : string) (limit : Z)
    (ans : string * option error)
| EvDuckDuckGoSearch (query : string) (ans : string * option error)
| EvWikipediaSearch (query : string) (ans : string * option error)
| EvWebFetch (url : string) (ans : string * option error)
| EvChat (req : ChatCompletionRequest)
    (ans : ChatCompletionResponse * option error)
| EvScanln (input : string)
| EvLog (line : string)
| EvReviewSearchResults (results : string) (ans : bool * option error).

Section World.

Context {W : Type}.

Record St := mkSt { world : W; trace : list Event }.

(** A computation either returns or panics (a Go run-time panic, [None]);
    in both cases it leaves a state behind. *)
Definition M (A : Type) : Type := St -> option A * St.

Definition ret {A} (a : A) : M A := fun s => (Some a, s).

Definition bind {A B} (m : M A) (k : A -> M B) : M B :=
  fun s => match m s with
           | (Some a, s') => k a s'
           | (None, s') => (None, s')
           end.

Definition panic {A} : M A := fun s => (None, s).

(** An oracle call: the oracle answers and moves the world on, and the call
    is logged with its answer. *)
Definition call {A} (e : A -> Event) (f : W -> A * W) : M A :=
  fun s => let '(a, w) := f (world s) in
           (Some a, {| world := w; trace := trace s ++ [e a] |}).

Definition exec {A} (m : M A) (w : W) : option A * St :=
  m {| world := w; trace := [] |}.

End World.

Arguments St : clear implicits.
Arguments M : clear implicits.

Notation "x <- c ;; k" := (bind c (fun x => k))
  (at level 20, c at level 99, k at level 200, only parsing).
Notation "' pat <- c ;; k" := (bind c (fun x => match x with pat => k end))
  (at level 20, pat pattern, c at level 99, k at level 200, only parsing).

(** ** [tool/python_tool.go] *)

(** What [os/exec] and [os] offer.  [cmd_Run exe args] runs the command and
    answers with what it wrote to stdout and to stderr, and with the error of
    [cmd.Run()]. *)
Record OS (W : Type) := {
  exec_LookPath : string -> W -> (string * option error) * W;
  cmd_Run : string -> list string -> W -> (string * string * option error) * W;
  os_Stat : string -> W -> option error * W
}.

Arguments exec_LookPath {W}.
Arguments cmd_Run {W}.
Arguments os_Stat {W}.

Section PythonTool.

Context {W : Type} (os : OS W).

Definition LookPath (file : string) : M W (string * option error) :=
  call (EvLookPath file) (exec_LookPath os file).

Definition Run (exe : string) (args : list string)
  : M W (string * string * option error) :=
  call (EvCmdRun exe args) (cmd_Run os exe args).

(** The part of [RunPythonScript] after the interpreter is resolved. *)
Definition run_with (pythonExe scriptPath : string) (args : list string)
  : M W (string * option error) :=
  '(stdout, stderr, err) <- Run pythonExe (scriptPath :: args) ;;
  match err with
  | Some e =>
      ret (EmptyString,
           Some ("failed to run python script '" +:+ scriptPath +:+ "' with '"
                 +:+ pythonExe +:+ "': " +:+ e +:+ LF +:+ "Stdout: " +:+ stdout
                 +:+ LF +:+ "Stderr: " +:+ stderr))
  | None => ret (stdout +:+ stderr, None)
  end.

Definition RunPythonScript (scriptPath : string) (args : list string)
  : M W (string * option error) :=
  '(pythonExe, err) <- LookPath "python3" ;;
  match err with
  | Some _ =>
      '(pythonExe, err) <- LookPath "python" ;;
      match err with
      | Some e =>
          ret (EmptyString,
               Some ("failed to find python3 or python in PATH: " +:+ e))
      | None => run_with pythonExe scriptPath args
      end
  | None => run_with pythonExe scriptPath args
  end.

End PythonTool.

(** ** Package [agent]: the data model shared by both listings *)

Inductive TaskType : Type :=
| TaskTypeSearch
| TaskTypeAnalyze
| TaskTypeReport
| TaskTypeRender.

Record Task := {
  Task_Type : TaskType;
  Description : string;
  Parameters : gmap string any
}.

Record Result := {
  Result_TaskType : TaskType;
  Success : bool;
  Output : string;
  Error : string;
  Metadata : gmap string any
}.

(** The functions of package [tool] that the subagents and the runner call
    and whose code is not part of the verified files. *)
Record ToolPkg (W : Type) := {
  TavilySearch : string -> W -> (string * option error) * W;
  TavilySearchWithLimit : string -> Z -> W -> (string * option error) * W;
  DuckDuckGoSearch : string -> W -> (string * option error) * W;
  WikipediaSearch : string -> W -> (string * option error) * W;
  WebFetch : string -> W -> (string * option error) * W;
  ReadFile : string -> W -> (string * option error) * W;
  WriteFile : string -> string -> W -> option error * W;
  RunShellScript : string -> list string -> W -> (string * option error) * W;
  ShellTool_Run : gmap string any -> string -> W -> (string * option error) * W;
  PythonTool_Run : gmap string any -> string -> W -> (string * option error) * W
}.

Arguments TavilySearch {W}.
Arguments TavilySearchWithLimit {W}.
Arguments DuckDuckGoSearch {W}.
Arguments WikipediaSearch {W}.
Arguments WebFetch {W}.
Arguments ReadFile {W}.
Arguments WriteFile {W}.
Arguments RunShellScript {W}.
Arguments ShellTool_Run {W}.
Arguments PythonTool_Run {W}.

(** [*openai.Client]. *)
Record Client (W : Type) := {
  CreateChatCompletion :
    ChatCompletionRequest -> W -> (ChatCompletionResponse * option error) * W
}.

Arguments CreateChatCompletion {W}.

(** The [InteractionHandler] interface, as far as the subagents use it. *)
Record InteractionHandler (W : Type) := {
  Log : string -> W -> W;
  ReviewSearchResults : string -> W -> (bool * option error) * W
}.

Arguments Log {W}.
Arguments ReviewSearchResults {W}.

(** The external Markdown renderers: [markdown.Render content width indent]
    of go-term-markdown, and the gomarkdown parse-and-render pipeline that
    yields a complete HTML page. *)
Record Renderers := {
  markdown_Render : string -> Z -> Z -> string;
  gomarkdown_Render : string -> string
}.

Section AgentCommon.

Context {W : Type}.

(** [if h != nil { h.Log(line) }] *)
Definition LogIfPresent (h : option (InteractionHandler W)) (line : string)
  : M W unit :=
  match h with
  | Some h => call (fun _ => EvLog line) (fun w => (tt, Log h line w))
  | None => ret tt
  end.

(** [task.Parameters["query"].(string)], else the description. *)
Definition query_of (task : Task) : string :=
  let '(query, ok) := assert_string (Parameters task !! "query") in
  if ok then query else Description task.

(** The result of a subagent whose back-end failed with [e]. *)
Definition failed (t : TaskType) (e : error) : Result * option error :=
  ({| Result_TaskType := t; Success := false; Output := EmptyString;
      Error := e; Metadata := ∅ |}, Some e).

(** [resp.Choices[0].Message]; indexing an empty slice panics. *)
Definition first_choice (resp : ChatCompletionResponse)
  : M W ChatCompletionMessage :=
  match Choices resp with
  | m :: _ => ret m
  | [] => panic
  end.

End AgentCommon.

(** ** Package [agent], English-language listing *)

Module AgentEN.

Section Subagents.

Context {W : Type} (tool : ToolPkg W) (md : Renderers).

Record SearchSubagent := {
  search_client : Client W;
  search_model : string;
  search_verbose : bool;
  search_interactionHandler : option (InteractionHandler W)
}.

(** The upper limit of the second search. *)
Definition more_limit : Z := 100.

(** The branch taken when Tavily answered: the human-in-the-loop review. *)
Definition review (s : SearchSubagent) (query searchResult : string)
  : M W string :=
  match search_interactionHandler s with
  | Some h =>
      '(wantMore, err) <- call (EvReviewSearchResults searchResult)
                               (ReviewSearchResults h searchResult) ;;
      match err, wantMore with
      | None, true =>
          '(moreResults, err) <-
             call (EvTavilySearchWithLimit query more_limit)
                  (TavilySearchWithLimit tool query more_limit) ;;
          match err with
          | None => ret moreResults
          | Some _ => ret searchResult
          end
      | _, _ => ret searchResult
      end
  | None => ret searchResult
  end.

(** The first [if]/[else] of [Execute]: either the early return, or the
    search result the function goes on with. *)
Definition web_search (s : SearchSubagent) (query : string)
  : M W ((Result * option error) + string) :=
  '(searchResult, err) <- call (EvTavilySearch query) (TavilySearch tool query) ;;
  match err with
  | Some _ =>
      '(searchResult, err) <-
         call (EvDuckDuckGoSearch query) (DuckDuckGoSearch tool query) ;;
      match err with
      | Some e => ret (inl (failed TaskTypeSearch e))
      | None => ret (inr searchResult)
      end
  | None =>
      searchResult <- review s query searchResult ;;
      ret (inr searchResult)
  end.

(** [if wikiErr == nil && wikiResult != "" { searchResult = Sprintf(...) }] *)
Definition with_wikipedia (searchResult wikiResult : string)
    (wikiErr : option error) : string :=
  match wikiErr with
  | None =>
      if negb (String.eqb wikiResult EmptyString)
      then "Web Search Results:" +:+ LF +:+ searchResult +:+ LF +:+ LF
           +:+ "Wikipedia Results:" +:+ LF +:+ wikiResult
      else searchResult
  | Some _ => searchResult
  end.

Definition SearchSubagent_Execute (s : SearchSubagent) (task : Task)
  : M W (Result * option error) :=
  let query := query_of task in
  r <- web_search s query ;;
  match r with
  | inl early => ret early
  | inr searchResult =>
      '(wikiResult, wikiErr) <-
         call (EvWikipediaSearch query) (WikipediaSearch tool query) ;;
      let searchResult := with_wikipedia searchResult wikiResult wikiErr in
      ret ({| Result_TaskType := TaskTypeSearch; Success := true;
              Output := searchResult; Error := EmptyString;
              Metadata := {[ "query" := AnyString query ]} |}, None)
  end.

Record AnalysisSubagent := {
  analysis_client : Client W;
  analysis_model : string;
  analysis_verbose : bool
}.

(** The user prompt of the analysis request. *)
Definition AnalysisSubagent_prompt (task : Task) : string :=
  let '(context_data, hasContext) :=
    assert_string (Parameters task !! "context") in
  if hasContext
  then "Analyze the following information and " +:+ Description task +:+ ":"
       +:+ LF +:+ LF +:+ context_data
  else Description task.

Definition AnalysisSubagent_request (a : AnalysisSubagent) (task : Task)
  : ChatCompletionRequest :=
  {| Model := analysis_model a;
     Messages :=
       [ {| Role := ChatMessageRoleSystem;
            Content := "You are an analytical assistant that synthesizes and analyzes information. Provide clear, structured analysis.";
            ToolCalls := None; ToolCallID := EmptyString |};
         {| Role := ChatMessageRoleUser;
            Content := AnalysisSubagent_prompt task;
            ToolCalls := None; ToolCallID := EmptyString |} ];
     Tools := [];
     Temperature := 3 # 10 |}.

Definition AnalysisSubagent_Execute (a : AnalysisSubagent) (task : Task)
  : M W (Result * option error) :=
  let req := AnalysisSubagent_request a task in
  '(resp, err) <- call (EvChat req) (CreateChatCompletion (analysis_client a) req) ;;
  match err with
  | Some e => ret (failed TaskTypeAnalyze e)
  | None =>
      msg <- first_choice resp ;;
      let analysis := Content msg in
      ret ({| Result_TaskType := TaskTypeAnalyze; Success := true;
              Output := analysis; Error := EmptyString; Metadata := ∅ |}, None)
  end.

Record RenderSubagent := { render_verbose : bool }.

(** The content that [Execute] renders. *)
Definition RenderSubagent_content (task : Task) : string :=
  let '(content, ok) := assert_string (Parameters task !! "content") in
  if ok then content else Description task.

Definition RenderSubagent_Execute (r : RenderSubagent) (task : Task)
  : M W (Result * option error) :=
  let content := RenderSubagent_content task in
  let result := markdown_Render md content 80 6 in
  ret ({| Result_TaskType := TaskTypeRender; Success := true;
          Output := result; Error := EmptyString; Metadata := ∅ |}, None).

End Subagents.

End AgentEN.

(** ** Package [agent], Chinese-language listing *)

Module AgentZH.

Section Subagents.

Context {W : Type} (tool : ToolPkg W) (md : Renderers).

Record SearchSubagent := {
  search_client : Client W;
  search_model : string;
  search_verbose : bool;
  search_interactionHandler : option (InteractionHandler W)
}.

Definition more_limit : Z := 50.

Definition review (s : SearchSubagent) (query searchResult : string)
  : M W string :=
  match search_interactionHandler s with
  | Some h =>
      '(wantMore, err) <- call (EvReviewSearchResults searchResult)
                               (ReviewSearchResults h searchResult) ;;
      match err, wantMore with
      | None, true =>
          '(moreResults, err) <-
             call (EvTavilySearchWithLimit query more_limit)
                  (TavilySearchWithLimit tool query more_limit) ;;
          match err with
          | None => ret moreResults
          | Some _ => ret searchResult
          end
      | _, _ => ret searchResult
      end
  | None => ret searchResult
  end.

Definition web_search (s : SearchSubagent) (query : string)
  : M W ((Result * option error) + string) :=
  '(searchResult, err) <- call (EvTavilySearch query) (TavilySearch tool query) ;;
  match err with
  | Some _ =>
      '(searchResult, err) <-
         call (EvDuckDuckGoSearch query) (DuckDuckGoSearch tool query) ;;
      match err with
      | Some e => ret (inl (failed TaskTypeSearch e))
      | None => ret (inr searchResult)
      end
  | None =>
      searchResult <- review s query searchResult ;;
      ret (inr searchResult)
  end.

Definition with_wikipedia (searchResult wikiResult : string)
    (wikiErr : option error) : string :=
  match wikiErr with
  | None =>
      if negb (String.eqb wikiResult EmptyString)
      then "网络搜索结果:" +:+ LF +:+ searchResult +:+ LF +:+ LF
           +:+ "维基百科结果:" +:+ LF +:+ wikiResult
      else searchResult
  | Some _ => searchResult
  end.

Definition SearchSubagent_Execute (s : SearchSubagent) (task : Task)
  : M W (Result * option error) :=
  _ <- LogIfPresent (search_interactionHandler s)
         ("> 网络搜索子Agent: " +:+ Description task) ;;
  let query := query_of task in
  r <- web_search s query ;;
  match r with
  | inl early => ret early
  | inr searchResult =>
      '(wikiResult, wikiErr) <-
         call (EvWikipediaSearch query) (WikipediaSearch tool query) ;;
      let searchResult := with_wikipedia searchResult wikiResult wikiErr in
      _ <- LogIfPresent (search_interactionHandler s)
             ("✓ 已检索信息 (" +:+ Itoa (String.length searchResult)
              +:+ " 字节)") ;;
      ret ({| Result_TaskType := TaskTypeSearch; Success := true;
              Output := searchResult; Error := EmptyString;
              Metadata := {[ "query" := AnyString query ]} |}, None)
  end.

Record AnalysisSubagent := {
  analysis_client : Client W;
  analysis_model : string;
  analysis_verbose : bool;
  analysis_interactionHandler : option (InteractionHandler W)
}.

Definition AnalysisSubagent_prompt (task : Task) : string :=
  let '(contextData, hasContext) :=
    assert_strings (Parameters task !! "context") in
  if hasContext && (0 <? length contextData)%nat
  then "分析以下信息并 " +:+ Description task +:+ ":" +:+ LF +:+ LF
       +:+ strings_Join contextData (LF +:+ LF)
  else Description task.

(** The system prompt, with the user's global context appended if any. *)
Definition AnalysisSubagent_systemPrompt (task : Task) : string :=
  let '(globalContext, _) := assert_string (Parameters task !! "global_context") in
  let systemPrompt :=
    "你是一个分析助手，负责综合和分析信息。请提供清晰、结构化的分析。" in
  if negb (String.eqb globalContext EmptyString)
  then systemPrompt +:+ LF +:+ LF +:+ "来自用户的重要上下文/指令：" +:+ LF
       +:+ globalContext
  else systemPrompt.

Definition AnalysisSubagent_request (a : AnalysisSubagent) (task : Task)
  : ChatCompletionRequest :=
  {| Model := analysis_model a;
     Messages :=
       [ {| Role := ChatMessageRoleSystem;
            Content := AnalysisSubagent_systemPrompt task;
            ToolCalls := None; ToolCallID := EmptyString |};
         {| Role := ChatMessageRoleUser;
            Content := AnalysisSubagent_prompt task;
            ToolCalls := None; ToolCallID := EmptyString |} ];
     Tools := [];
     Temperature := 3 # 10 |}.

Definition AnalysisSubagent_Execute (a : AnalysisSubagent) (task : Task)
  : M W (Result * option error) :=
  _ <- LogIfPresent (analysis_interactionHandler a)
         ("> 分析子Agent: " +:+ Description task) ;;
  let req := AnalysisSubagent_request a task in
  '(resp, err) <- call (EvChat req) (CreateChatCompletion (analysis_client a) req) ;;
  match err with
  | Some e => ret (failed TaskTypeAnalyze e)
  | None =>
      msg <- first_choice resp ;;
      let analysis := Content msg in
      _ <- LogIfPresent (analysis_interactionHandler a)
             ("✓ 分析完成 (" +:+ Itoa (String.length analysis) +:+ " 字节)") ;;
      ret ({| Result_TaskType := TaskTypeAnalyze; Success := true;
              Output := analysis; Error := EmptyString; Metadata := ∅ |}, None)
  end.

Record RenderSubagent := {
  render_verbose : bool;
  render_renderHTML : bool;
  render_interactionHandler : option (InteractionHandler W)
}.

(** The body of the [if strings.Contains(ctxContent[i], ...)] branch: the
    entry after its first newline, the whole entry if it has none. *)
Definition after_first_newline (content : string) : string :=
  let idx := strings_Index content LF in
  if negb (idx =? -1) then slice_from (Z.to_nat (idx + 1)) content else content.

(** [for i := len(ctxContent) - 1; i >= 0; i--]: [find_report n ctxContent]
    inspects the entries [n-1], ..., [0] in this order. *)
Fixpoint find_report (n : nat) (ctxContent : list string) : option string :=
  match n with
  | O => None
  | S i =>
      match ctxContent !! i with
      | Some entry =>
          if strings_Contains entry "Output from REPORT task:"
          then Some (after_first_newline entry)
          else find_report i ctxContent
      | None => None
      end
  end.

(** The body of [if !foundReport]: the text after the line on which
    "Output from " first occurs, the whole entry if there is no such line. *)
Definition after_output_header (content : string) : string :=
  let idx := strings_Index content "Output from " in
  if negb (idx =? -1)
  then
    let newlineIdx := strings_Index (slice_from (Z.to_nat idx) content) LF in
    if negb (newlineIdx =? -1)
    then slice_from (Z.to_nat (idx + newlineIdx + 1)) content
    else content
  else content.

Definition RenderSubagent_content (task : Task) : string :=
  let '(content, ok) := assert_string (Parameters task !! "content") in
  if ok then content
  else
    let '(ctxContent, ok) := assert_strings (Parameters task !! "context") in
    if ok && (0 <? length ctxContent)%nat
    then
      let content :=
        match find_report (length ctxContent) ctxContent with
        | Some content => content
        | None => after_output_header (List.last ctxContent EmptyString)
        end in
      strings_TrimSpace content
    else Description task.

Definition RenderSubagent_Execute (r : RenderSubagent) (task : Task)
  : M W (Result * option error) :=
  _ <- LogIfPresent (render_interactionHandler r)
         ("> 渲染子Agent: " +:+ Description task) ;;
  let content := RenderSubagent_content task in
  _ <- LogIfPresent (render_interactionHandler r)
         ("正在渲染 " +:+ Itoa (String.length content) +:+ " 字节的内容") ;;
  let output :=
    if render_renderHTML r
    then gomarkdown_Render md content
    else markdown_Render md content 80 6 in
  ret ({| Result_TaskType := TaskTypeRender; Success := true;
          Output := output; Error := EmptyString; Metadata := ∅ |}, None).

End Subagents.

End AgentZH.

(** ** Package [goskills]: the skill runner *)

Record SkillMeta := {
  meta_Name : string;
  meta_Description : string;
  meta_Model : string;
  meta_AllowedTools : list string
}.

Record SkillResources := {
  Scripts : list string;
  References : list string;
  Assets : list string
}.

Record SkillPackage := {
  Path : string;
  Meta : SkillMeta;
  Body : string;
  Resources : SkillResources
}.

Record RunnerConfig := {
  APIKey : string;
  APIBase : string;
  cfg_Model : string;
  SkillsDir : string;
  Verbose : bool;
  AutoApproveTools : bool;
  AllowedScripts : list string
}.

(** What the runner takes from outside the verified files: [json.Unmarshal]
    into each of the parameter structs of [executeToolCall] (the decoded
    fields, or the error), [path/filepath], [fmt.Scanln] (the token it
    stores, empty if it stores none) and [GenerateToolDefinitions]. *)
Record RunnerEnv (W : Type) := {
  unmarshal_code_args : string -> (string * gmap string any) + error;
  unmarshal_scriptPath_args : string -> (string * list string) + error;
  unmarshal_filePath : string -> string + error;
  unmarshal_filePath_content : string -> (string * string) + error;
  unmarshal_query : string -> string + error;
  unmarshal_url : string -> string + error;
  unmarshal_args : string -> list string + error;
  filepath_IsAbs : string -> bool;
  filepath_Join : string -> string -> string;
  fmt_Scanln : W -> string * W;
  GenerateToolDefinitions : SkillPackage -> list Tool * gmap string string
}.

Arguments unmarshal_code_args {W}.
Arguments unmarshal_scriptPath_args {W}.
Arguments unmarshal_filePath {W}.
Arguments unmarshal_filePath_content {W}.
Arguments unmarshal_query {W}.
Arguments unmarshal_url {W}.
Arguments unmarshal_args {W}.
Arguments filepath_IsAbs {W}.
Arguments filepath_Join {W}.
Arguments fmt_Scanln {W}.
Arguments GenerateToolDefinitions {W}.

Definition denied_content : string := "Error: User denied tool execution.".

Definition exceeded : error := "exceeded maximum tool call iterations".

Section Runner.

Context {W : Type} (os : OS W) (tool : ToolPkg W) (env : RunnerEnv W).

(** The end of [executeToolCall]: the error of the back-end is wrapped. *)
Definition tool_result (name : string) (r : string * option error)
  : string * option error :=
  match r with
  | (_, Some e) =>
      (EmptyString, Some ("tool execution failed for " +:+ name +:+ ": " +:+ e))
  | (toolOutput, None) => (toolOutput, None)
  end.

Definition unmarshal_failed (what : string) (e : error) : string * option error :=
  (EmptyString, Some ("failed to unmarshal " +:+ what +:+ " arguments: " +:+ e)).

(** The path that the [read_file] case hands to [tool.ReadFile]. *)
Definition resolve_read_path (filePath skillPath : string) : M W string :=
  if negb (filepath_IsAbs env filePath) && negb (String.eqb skillPath EmptyString)
  then
    let resolvedPath := filepath_Join env skillPath filePath in
    err <- call (EvStat resolvedPath) (os_Stat os resolvedPath) ;;
    match err with
    | None => ret resolvedPath
    | Some _ => ret filePath
    end
  else ret filePath.

Definition executeToolCall (toolCall : ToolCall)
    (scriptMap : gmap string string) (skillPath : string)
  : M W (string * option error) :=
  let name := Name (Function toolCall) in
  let arguments := Arguments (Function toolCall) in
  if String.eqb name "run_shell_code" then
    match unmarshal_code_args env arguments with
    | inr e => ret (unmarshal_failed "run_shell_code" e)
    | inl (code, args) =>
        r <- call (EvShellRun args code) (ShellTool_Run tool args code) ;;
        ret (tool_result name r)
    end
  else if String.eqb name "run_shell_script" then
    match unmarshal_scriptPath_args env arguments with
    | inr e => ret (unmarshal_failed "run_shell_script" e)
    | inl (scriptPath, args) =>
        r <- call (EvRunShellScript scriptPath args)
                  (RunShellScript tool scriptPath args) ;;
        ret (tool_result name r)
    end
  else if String.eqb name "run_python_code" then
    match unmarshal_code_args env arguments with
    | inr e => ret (unmarshal_failed "run_python_code" e)
    | inl (code, args) =>
        r <- call (EvPythonRun args code) (PythonTool_Run tool args code) ;;
        ret (tool_result name r)
    end
  else if String.eqb name "run_python_script" then
    match unmarshal_scriptPath_args env arguments with
    | inr e => ret (unmarshal_failed "run_python_script" e)
    | inl (scriptPath, args) =>
        r <- RunPythonScript os scriptPath args ;;
        ret (tool_result name r)
    end
  else if String.eqb name "read_file" then
    match unmarshal_filePath env arguments with
    | inr e => ret (unmarshal_failed "read_file" e)
    | inl filePath =>
        path <- resolve_read_path filePath skillPath ;;
        r <- call (EvReadFile path) (ReadFile tool path) ;;
        ret (tool_result name r)
    end
  else if String.eqb name "write_file" then
    match unmarshal_filePath_content env arguments with
    | inr e => ret (unmarshal_failed "write_file" e)
    | inl (filePath, content) =>
        err <- call (EvWriteFile filePath content)
                    (WriteFile tool filePath content) ;;
        match err with
        | None =>
            ret (tool_result name
                   ("Successfully wrote to file: " +:+ filePath, None))
        | Some e => ret (tool_result name (EmptyString, Some e))
        end
    end
  else if String.eqb name "duckduckgo_search" then
    match unmarshal_query env arguments with
    | inr e => ret (unmarshal_failed "duckduckgo_search" e)
    | inl query =>
        r <- call (EvDuckDuckGoSearch query) (DuckDuckGoSearch tool query) ;;
        ret (tool_result name r)
    end
  else if String.eqb name "wikipedia_search" then
    match unmarshal_query env arguments with
    | inr e => ret (unmarshal_failed "wikipedia_search" e)
    | inl query =>
        r <- call (EvWikipediaSearch query) (WikipediaSearch tool query) ;;
        ret (tool_result name r)
    end
  else if String.eqb name "web_fetch" then
    match unmarshal_url env arguments with
    | inr e => ret (unmarshal_failed "web_fetch" e)
    | inl url =>
        r <- call (EvWebFetch url) (WebFetch tool url) ;;
        ret (tool_result name r)
    end
  else
    match scriptMap !! name with
    | Some scriptPath =>
        match (if String.eqb arguments EmptyString then inl []
               else unmarshal_args env arguments) with
        | inr e =>
            ret (EmptyString,
                 Some ("failed to unmarshal script arguments: " +:+ e))
        | inl args =>
            r <- (if strings_HasSuffix scriptPath ".py"
                  then RunPythonScript os scriptPath args
                  else call (EvRunShellScript scriptPath args)
                            (RunShellScript tool scriptPath args)) ;;
            ret (tool_result name r)
        end
    | None => ret (EmptyString, Some ("unknown tool: " +:+ name))
    end.

(** The tool-role message appended for the call [tc]. *)
Definition tool_message (tc : ToolCall) (content : string)
  : ChatCompletionMessage :=
  {| Role := ChatMessageRoleTool; Content := content;
     ToolCalls := None; ToolCallID := ID tc |}.

(** The call itself, once it is approved: one tool-role message with the
    output, or with ["Error: " + err]. *)
Definition run_tool_call (scriptMap : gmap string string) (skill : SkillPackage)
    (messages : list ChatCompletionMessage) (tc : ToolCall)
  : M W (list ChatCompletionMessage) :=
  '(toolOutput, err) <- executeToolCall tc scriptMap (Path skill) ;;
  match err with
  | Some e => ret (messages ++ [tool_message tc ("Error: " +:+ e)])
  | None => ret (messages ++ [tool_message tc toolOutput])
  end.

(** The body of [for _, tc := range msg.ToolCalls]. *)
Definition handle_tool_call (cfg : RunnerConfig)
    (scriptMap : gmap string string) (skill : SkillPackage)
    (messages : list ChatCompletionMessage) (tc : ToolCall)
  : M W (list ChatCompletionMessage) :=
  if negb (AutoApproveTools cfg)
  then
    input <- call EvScanln (fmt_Scanln env) ;;
    if negb (String.eqb (strings_ToLower input) "y")
    then ret (messages ++ [tool_message tc denied_content])
    else run_tool_call scriptMap skill messages tc
  else run_tool_call scriptMap skill messages tc.

Fixpoint tool_calls_loop (cfg : RunnerConfig) (scriptMap : gmap string string)
    (skill : SkillPackage) (tcs : list ToolCall)
    (messages : list ChatCompletionMessage)
  : M W (list ChatCompletionMessage) :=
  match tcs with
  | [] => ret messages
  | tc :: rest =>
      messages <- handle_tool_call cfg scriptMap skill messages tc ;;
      tool_calls_loop cfg scriptMap skill rest messages
  end.

(** [for i := 0; i < 10; i++] with [n = 10 - i] iterations to go.  Beside
    the returned pair, the final value of the local variable [messages] is
    handed out, so that the theorems can speak about the conversation. *)
Fixpoint tool_loop (client : Client W) (cfg : RunnerConfig)
    (availableTools : list Tool) (scriptMap : gmap string string)
    (skill : SkillPackage) (n : nat) (messages : list ChatCompletionMessage)
  : M W ((string * option error) * list ChatCompletionMessage) :=
  match n with
  | O => ret ((EmptyString, Some exceeded), messages)
  | S n' =>
      let req := {| Model := cfg_Model cfg; Messages := messages;
                    Tools := availableTools; Temperature := 0 |} in
      '(resp, err) <- call (EvChat req) (CreateChatCompletion client req) ;;
      match err with
      | Some e =>
          ret ((EmptyString, Some ("ChatCompletion error: " +:+ e)), messages)
      | None =>
          msg <- first_choice resp ;;
          let messages := messages ++ [msg] in
          match ToolCalls msg with
          | None => ret ((Content msg, None), messages)
          | Some tcs =>
              messages <- tool_calls_loop cfg scriptMap skill tcs messages ;;
              tool_loop client cfg availableTools scriptMap skill n' messages
          end
      end
  end.

(** The two messages the conversation starts with. *)
Definition initial_messages (userPrompt : string) (skill : SkillPackage)
  : list ChatCompletionMessage :=
  let skillBody :=
    Body skill +:+ LF +:+ LF +:+ "## SKILL CONTEXT" +:+ LF
    +:+ "Skill Root Path: " +:+ Path skill +:+ LF in
  [ {| Role := ChatMessageRoleSystem; Content := skillBody;
       ToolCalls := None; ToolCallID := EmptyString |};
    {| Role := ChatMessageRoleUser; Content := userPrompt;
       ToolCalls := None; ToolCallID := EmptyString |} ].

Definition executeSkillWithTools_messages (client : Client W)
    (userPrompt : string) (skill : SkillPackage) (cfg : RunnerConfig)
  : M W ((string * option error) * list ChatCompletionMessage) :=
  let messages := initial_messages userPrompt skill in
  let '(availableTools, scriptMap) := GenerateToolDefinitions env skill in
  tool_loop client cfg availableTools scriptMap skill 10 messages.

Definition executeSkillWithTools (client : Client W)
    (userPrompt : string) (skill : SkillPackage) (cfg : RunnerConfig)
  : M W (string * option error) :=
  '(r, _) <- executeSkillWithTools_messages client userPrompt skill cfg ;;
  ret r.

End Runner.


(** * Specifications *)

(** ** The search subagent

    The three properties below are stated once, over any [Execute], and are
    then established for the [Execute] of each listing.  [run] is a complete
    run from the world [w]: [run.1] is what [Execute] returned and
    [trace run.2] the calls it made. *)

Section SearchSpec.

Context {W : Type}.

(** Progress lines only. *)
Definition only_logs (t : list Event) : Prop :=
  Forall (fun e => exists line, e = EvLog line) t.

(** The trace [t] starts, after progress lines at most, with the Tavily
    search for [query]; [tavily] is what Tavily answered and [post] what
    was called after it. *)
Definition tavily_first (query : string) (t : list Event)
    (tavily : string * option error) (post : list Event) : Prop :=
  exists pre, t = pre ++ EvTavilySearch query tavily :: post /\ only_logs pre.

(** Tavily is always searched first.  If it fails, DuckDuckGo is searched
    right after it, and the task fails exactly if DuckDuckGo fails too: then
    nothing else is called and the result and the returned error carry the
    error of DuckDuckGo.  If Tavily succeeds, DuckDuckGo is not searched and
    the task succeeds. *)
Definition search_fallback_spec (Execute : Task -> M W (Result * option error))
  : Prop :=
  forall (task : Task) (w : W),
    let run := exec (Execute task) w in
    let query := query_of task in
    (exists tavily post,
       tavily_first query (trace run.2) tavily post /\
       match tavily.2 with
       | Some _ =>
           exists ddg post',
             post = EvDuckDuckGoSearch query ddg :: post' /\
             match ddg.2 with
             | Some e =>
                 post' = [] /\
                 exists result,
                   run.1 = Some (result, Some e) /\
                   Success result = false /\ Error result = e
             | None =>
                 exists result,
                   run.1 = Some (result, None) /\ Success result = true
             end
       | None =>
           (forall q ans, ~ In (EvDuckDuckGoSearch q ans) (trace run.2)) /\
           exists result,
             run.1 = Some (result, None) /\ Success result = true
       end) /\
    (forall r e, In (EvTavilySearch query (r, Some e)) (trace run.2) ->
       exists pre ans post,
         trace run.2 = pre ++ EvTavilySearch query (r, Some e)
                           :: EvDuckDuckGoSearch query ans :: post) /\
    (forall result err, run.1 = Some (result, err) ->
       (Success result = false <->
        (exists r e, In (EvTavilySearch query (r, Some e)) (trace run.2)) /\
        (exists r e, In (EvDuckDuckGoSearch query (r, Some e)) (trace run.2))) /\
       (Success result = false ->
        exists r e, In (EvDuckDuckGoSearch query (r, Some e)) (trace run.2)
                    /\ Error result = e /\ err = Some e)).

(** Tavily is always searched first.  When it succeeds with [results]: a
    present handler is asked to review [results] right after it; if it
    answers "more" without error, the search with a limit between 50 and
    100 comes next and Wikipedia after it, and the result that goes on to
    the Wikipedia step is the second search's if it succeeded and
    [results] otherwise; if it answers anything else, or if there is no
    handler, no search with a limit is made. *)
Definition more_results_spec (handler : option (InteractionHandler W))
    (with_wikipedia : string -> string -> option error -> string)
    (Execute : Task -> M W (Result * option error)) : Prop :=
  forall (task : Task) (w : W),
    let run := exec (Execute task) w in
    let query := query_of task in
    (exists tavily post,
       tavily_first query (trace run.2) tavily post /\
       forall results,
         tavily = (results, None) ->
         match handler with
         | Some _ =>
             exists review post',
               post = EvReviewSearchResults results review :: post' /\
               (review = (true, None) ->
                exists limit more wiki post'' result,
                  post' = EvTavilySearchWithLimit query limit more
                            :: EvWikipediaSearch query wiki :: post'' /\
                  50 <= limit <= 100 /\
                  run.1 = Some (result, None) /\
                  Output result =
                    with_wikipedia
                      (match more.2 with None => more.1 | Some _ => results end)
                      wiki.1 wiki.2) /\
               (review <> (true, None) ->
                forall q limit ans,
                  ~ In (EvTavilySearchWithLimit q limit ans) (trace run.2))
         | None =>
             (forall r ans, ~ In (EvReviewSearchResults r ans) (trace run.2)) /\
             (forall q limit ans,
                 ~ In (EvTavilySearchWithLimit q limit ans) (trace run.2))
         end) /\
    forall results,
      In (EvTavilySearch query (results, None)) (trace run.2) ->
      (handler <> None ->
       exists ans, In (EvReviewSearchResults results ans) (trace run.2)) /\
      (In (EvReviewSearchResults results (true, None)) (trace run.2) ->
       exists limit more wikiResult wikiErr result,
         In (EvTavilySearchWithLimit query limit more) (trace run.2) /\
         50 <= limit <= 100 /\
         In (EvWikipediaSearch query (wikiResult, wikiErr)) (trace run.2) /\
         run.1 = Some (result, None) /\
         Output result =
           with_wikipedia
             (match more.2 with None => more.1 | Some _ => results end)
             wikiResult wikiErr).

(** A run ends in one of two ways.  Either the task fails: then Tavily and
    DuckDuckGo both failed and Wikipedia was not searched.  Or a web result
    is kept, from Tavily or from DuckDuckGo: then Wikipedia has been
    searched as well, the task succeeds, and the output is the kept result
    under [web_label] followed by the Wikipedia result under [wiki_label],
    or the kept result alone if Wikipedia failed or returned nothing. *)
Definition wikipedia_spec (web_label wiki_label : string)
    (Execute : Task -> M W (Result * option error)) : Prop :=
  forall (task : Task) (w : W),
    let run := exec (Execute task) w in
    let query := query_of task in
    (exists result err,
       run.1 = Some (result, err) /\
       match err with
       | Some _ =>
           (exists r e, In (EvTavilySearch query (r, Some e)) (trace run.2)) /\
           (exists r e, In (EvDuckDuckGoSearch query (r, Some e)) (trace run.2)) /\
           (forall q ans, ~ In (EvWikipediaSearch q ans) (trace run.2))
       | None =>
           exists web kept wikiResult wikiErr,
             (In (EvTavilySearch query (web, None)) (trace run.2) \/
              In (EvDuckDuckGoSearch query (web, None)) (trace run.2)) /\
             (kept = web \/
              exists limit,
                In (EvTavilySearchWithLimit query limit (kept, None))
                   (trace run.2)) /\
             In (EvWikipediaSearch query (wikiResult, wikiErr)) (trace run.2) /\
             Success result = true /\
             (wikiErr = None -> wikiResult <> EmptyString ->
              Output result = web_label +:+ LF +:+ kept +:+ LF +:+ LF
                              +:+ wiki_label +:+ LF +:+ wikiResult) /\
             (wikiErr <> None \/ wikiResult = EmptyString ->
              Output result = kept)
       end) /\
    forall web,
      In (EvTavilySearch query (web, None)) (trace run.2) \/
      In (EvDuckDuckGoSearch query (web, None)) (trace run.2) ->
      exists kept wikiResult wikiErr result,
        (kept = web \/
         exists limit,
           In (EvTavilySearchWithLimit query limit (kept, None)) (trace run.2)) /\
        In (EvWikipediaSearch query (wikiResult, wikiErr)) (trace run.2) /\
        run.1 = Some (result, None) /\
        Success result = true /\
        (wikiErr = None -> wikiResult <> EmptyString ->
         Output result = web_label +:+ LF +:+ kept +:+ LF +:+ LF +:+ wiki_label
                         +:+ LF +:+ wikiResult) /\
        (wikiErr <> None \/ wikiResult = EmptyString -> Output result = kept).

End SearchSpec.

(** * Scripted worlds

    Concrete back-ends on which the properties are exercised. *)

Section Scripted.

Context {W : Type}.

(** An oracle that gives the same answer in every world. *)
Definition answer {A} (a : A) : W -> A * W := fun w => (a, w).

Definition scripted_tools (tavily more ddg wiki : string * option error)
  : ToolPkg W :=
  {| TavilySearch := fun _ => answer tavily;
     TavilySearchWithLimit := fun _ _ => answer more;
     DuckDuckGoSearch := fun _ => answer ddg;
     WikipediaSearch := fun _ => answer wiki;
     WebFetch := fun _ => answer (EmptyString, None);
     ReadFile := fun path => answer ("contents of " +:+ path, None);
     WriteFile := fun _ _ => answer None;
     RunShellScript := fun _ _ => answer (EmptyString, None);
     ShellTool_Run := fun _ _ => answer (EmptyString, None);
     PythonTool_Run := fun _ _ => answer (EmptyString, None) |}.

(** A handler whose reviewer always asks for more results. *)
Definition eager_reviewer : InteractionHandler W :=
  {| Log := fun _ w => w; ReviewSearchResults := fun _ => answer (true, None) |}.

Definition offline_client : Client W :=
  {| CreateChatCompletion :=
       fun _ => answer ({| Choices := [] |}, Some "connection refused") |}.

End Scripted.

Definition search_task (query : string) : Task :=
  {| Task_Type := TaskTypeSearch; Description := "look it up";
     Parameters := {[ "query" := AnyString query ]} |}.

Definition en_search (h : option (InteractionHandler unit))
  : AgentEN.SearchSubagent :=
  {| AgentEN.search_client := offline_client;
     AgentEN.search_model := "gpt-4o";
     AgentEN.search_verbose := false;
     AgentEN.search_interactionHandler := h |}.

Definition zh_search (h : option (InteractionHandler unit))
  : AgentZH.SearchSubagent :=
  {| AgentZH.search_client := offline_client;
     AgentZH.search_model := "gpt-4o";
     AgentZH.search_verbose := false;
     AgentZH.search_interactionHandler := h |}.

(** Tavily has no key and DuckDuckGo times out. *)
Definition both_down : ToolPkg unit :=
  scripted_tools (EmptyString, Some "tavily: missing key") (EmptyString, None)
    (EmptyString, Some "ddg: timeout") ("wiki", None).

(** Tavily has no key, DuckDuckGo answers. *)
Definition tavily_down : ToolPkg unit :=
  scripted_tools (EmptyString, Some "tavily: missing key") (EmptyString, None)
    ("ddg", None) ("wiki", None).

(** The web searches answer; Wikipedia fails, handing back a partial text
    with its error. *)
Definition wikipedia_down : ToolPkg unit :=
  scripted_tools ("web", None) ("more", None) ("ddg", None)
    ("partial", Some "wikipedia: rate limited").

(** Every back-end answers; the bigger Tavily search answers "more". *)
Definition all_up : ToolPkg unit :=
  scripted_tools ("web", None) ("more", None) ("ddg", None) ("wiki", None).

(** ** The analysis and the render subagent *)

(** The contents of the user-role messages of the chat requests of a trace,
    in the order in which they were sent. *)
Definition user_contents (req : ChatCompletionRequest) : list string :=
  map Content
    (filter (fun m => String.eqb (Role m) ChatMessageRoleUser) (Messages req)).

Definition prompts_sent (t : list Event) : list string :=
  flat_map (fun e => match e with
                     | EvChat req _ => user_contents req
                     | _ => []
                     end) t.

(** What follows the first line of [s]: the text after its first line
    feed, if it has one. *)
Fixpoint after_first_line (s : string) : option string :=
  match s with
  | EmptyString => None
  | String c rest =>
      if Ascii.eqb c "010" then Some rest else after_first_line rest
  end.

(** The part of [s] that starts with the first occurrence of [marker], if
    [marker] occurs in [s]. *)
Fixpoint from_marker (marker s : string) : option string :=
  if String.prefix marker s then Some s
  else match s with
       | EmptyString => None
       | String _ rest => from_marker marker rest
       end.

(** A REPORT entry without everything up to and including its first line
    feed; an entry of a single line is taken whole. *)
Definition spec_report_body (entry : string) : string :=
  match after_first_line entry with
  | Some body => body
  | None => entry
  end.

(** An entry without everything up to and including the first line feed
    that follows the first occurrence of "Output from "; the entry is taken
    whole if "Output from " does not occur in it or no line feed follows. *)
Definition spec_output_body (entry : string) : string :=
  match from_marker "Output from " entry with
  | Some tail =>
      match after_first_line tail with
      | Some body => body
      | None => entry
      end
  | None => entry
  end.

(** The content resolution of the render subagent of the Chinese listing,
    in the words of C8 as amended: [parameters.content] if it is a string;
    else, for a context that is a non-empty sequence of strings, the body of
    the most recent entry that contains "Output from REPORT task:", or else
    the body of the last entry, trimmed of white space at both ends; else
    the description. *)
Definition spec_render_content (task : Task) : string :=
  match Parameters task !! "content" with
  | Some (AnyString content) => content
  | _ =>
      match Parameters task !! "context" with
      | Some (AnyStrings (first :: others)) =>
          let newest_first := rev (first :: others) in
          strings_TrimSpace
            match find (fun entry =>
                          strings_Contains entry "Output from REPORT task:")
                       newest_first with
            | Some entry => spec_report_body entry
            | None => spec_output_body (hd EmptyString newest_first)
            end
      | _ => Description task
      end
  end.

(** The entry without its first line, the header line. *)
Definition without_header_line (entry : string) : string :=
  match after_first_line entry with
  | Some body => body
  | None => EmptyString
  end.

(** The entry without its "Output from ..." header: the header runs from
    "Output from " to the end of its line; what is before and after it is
    kept. *)
Fixpoint without_output_header (entry : string) : string :=
  if String.prefix "Output from " entry then without_header_line entry
  else match entry with
       | EmptyString => EmptyString
       | String c rest => String c (without_output_header rest)
       end.

(** The content resolution in the words of C8 as it was stated:
    [parameters.content]; else the most recent context entry that contains
    "Output from REPORT task:", with that header line stripped; else the
    last context entry with any "Output from ..." header stripped; else the
    description.  Nothing is trimmed, and the listings are not told
    apart. *)
Definition stated_render_content (task : Task) : string :=
  match Parameters task !! "content" with
  | Some (AnyString content) => content
  | _ =>
      match Parameters task !! "context" with
      | Some (AnyStrings (first :: others)) =>
          let newest_first := rev (first :: others) in
          match find (fun entry =>
                        strings_Contains entry "Output from REPORT task:")
                     newest_first with
          | Some entry => without_header_line entry
          | None => without_output_header (hd EmptyString newest_first)
          end
      | _ => Description task
      end
  end.

(** A string without a line feed. *)
Definition one_line (s : string) : Prop :=
  ~ In "010"%char (list_ascii_of_string s).

(** Scripted analysis and render tasks. *)

Definition analysis_task (context : any) : Task :=
  {| Task_Type := TaskTypeAnalyze; Description := "compare the two";
     Parameters := {[ "context" := context ]} |}.

Definition en_analysis : @AgentEN.AnalysisSubagent unit :=
  {| AgentEN.analysis_client := offline_client;
     AgentEN.analysis_model := "gpt-4o";
     AgentEN.analysis_verbose := false |}.

Definition zh_analysis : @AgentZH.AnalysisSubagent unit :=
  {| AgentZH.analysis_client := offline_client;
     AgentZH.analysis_model := "gpt-4o";
     AgentZH.analysis_verbose := false;
     AgentZH.analysis_interactionHandler := None |}.

(** The prompt C7 words for a task with the context [entries]. *)
Definition spec_analysis_prompt (task : Task) (entries : list string) : string :=
  "Analyze the following information and " +:+ Description task +:+ ":"
  +:+ LF +:+ LF +:+ strings_Join entries (LF +:+ LF).

(** The context the orchestrator hands to a render task that follows a
    search and a report task; the report ends in a newline. *)
Definition report_context : list string :=
  [ "Output from SEARCH task:" +:+ LF +:+ "raw hits";
    "Output from REPORT task:" +:+ LF +:+ "# Title" +:+ LF ].

Definition render_task : Task :=
  {| Task_Type := TaskTypeRender; Description := "render the report";
     Parameters := {[ "context" := AnyStrings report_context ]} |}.

(** A render task with the context [entries]. *)
Definition render_of (entries : list string) : Task :=
  {| Task_Type := TaskTypeRender; Description := "render the report";
     Parameters := {[ "context" := AnyStrings entries ]} |}.

(** A report that is a single line, and an entry whose header comes after
    a line of notes. *)
Definition one_line_report : list string :=
  [ "Output from REPORT task: # Title" ].

Definition notes_before_header : list string :=
  [ "notes" +:+ LF +:+ "Output from SEARCH task:" +:+ LF +:+ "hits" ].

(** ** The tool loop *)

(** The chat completions of a trace: each request with its answer. *)
Definition chats (t : list Event)
  : list (ChatCompletionRequest * (ChatCompletionResponse * option error)) :=
  flat_map (fun e => match e with
                     | EvChat req ans => [(req, ans)]
                     | _ => []
                     end) t.

(** A computation that always returns, and calls no chat completion. *)
Definition quiet {W A : Type} (m : M W A) : Prop :=
  forall s : St W,
    exists a new w',
      m s = (Some a, {| world := w'; trace := trace s ++ new |}) /\
      chats new = [].

(** The answer of a chat completion that succeeded with a first choice. *)
Definition chose (msg : ChatCompletionMessage)
    (ans : ChatCompletionResponse * option error) : Prop :=
  exists rest, ans = ({| Choices := msg :: rest |}, None).

(** ... whose message carries tool calls (a non-nil slice). *)
Definition calls_tools (ans : ChatCompletionResponse * option error) : Prop :=
  exists msg tcs, chose msg ans /\ ToolCalls msg = Some tcs.

(** ... exactly one of them. *)
Definition calls_one_tool (ans : ChatCompletionResponse * option error) : Prop :=
  exists msg tc, chose msg ans /\ ToolCalls msg = Some [tc].

(** What one round adds to the conversation when the assistant asked for
    exactly one tool call: its message and the tool-role message that
    answers the call. *)
Definition one_call_round (round : ChatCompletionMessage * ChatCompletionMessage)
  : Prop :=
  exists tc content,
    ToolCalls round.1 = Some [tc] /\ round.2 =
      {| Role := ChatMessageRoleTool; Content := content;
         ToolCalls := None; ToolCallID := ID tc |}.

Definition round_messages (round : ChatCompletionMessage * ChatCompletionMessage)
  : list ChatCompletionMessage := [round.1; round.2].

(** The runs of the tool loop with [n] iterations to go, from the
    conversation [messages]: the events of the run and what it returns
    ([None] for a panic).  One constructor per way through the loop body. *)
Inductive loop_run
  : nat -> list ChatCompletionMessage -> list Event ->
    option ((string * option error) * list ChatCompletionMessage) -> Prop :=
| run_exhausted messages :
    loop_run 0 messages [] (Some ((EmptyString, Some exceeded), messages))
| run_failed n messages req resp e :
    Messages req = messages ->
    loop_run (S n) messages [EvChat req (resp, Some e)]
      (Some ((EmptyString, Some ("ChatCompletion error: " +:+ e)), messages))
| run_no_choice n messages req :
    Messages req = messages ->
    loop_run (S n) messages [EvChat req ({| Choices := [] |}, None)] None
| run_final n messages req msg rest :
    Messages req = messages ->
    ToolCalls msg = None ->
    loop_run (S n) messages [EvChat req ({| Choices := msg :: rest |}, None)]
      (Some ((Content msg, None), messages ++ [msg]))
| run_round n messages req msg rest tcs contents tool_events new r :
    Messages req = messages ->
    ToolCalls msg = Some tcs ->
    length contents = length tcs ->
    chats tool_events = [] ->
    loop_run n (messages ++ [msg] ++ zip_with tool_message tcs contents) new r ->
    loop_run (S n) messages
      (EvChat req ({| Choices := msg :: rest |}, None) :: tool_events ++ new) r.

(** Scripted worlds for the runner. *)

Section ScriptedRunner.

Context {W : Type}.

(** A runner environment in the Unix way, with a user who answers [input]
    to every prompt; the arguments of a call are taken for the decoded
    field itself. *)
Definition unix_env (input : string) : RunnerEnv W :=
  {| unmarshal_code_args := fun a => inl (a, ∅);
     unmarshal_scriptPath_args := fun a => inl (a, []);
     unmarshal_filePath := fun a => inl a;
     unmarshal_filePath_content := fun a => inl (a, EmptyString);
     unmarshal_query := fun a => inl a;
     unmarshal_url := fun a => inl a;
     unmarshal_args := fun _ => inl [];
     filepath_IsAbs := fun p => String.prefix "/" p;
     filepath_Join := fun a b => a +:+ "/" +:+ b;
     fmt_Scanln := answer input;
     GenerateToolDefinitions := fun _ => ([], ∅) |}.

(** A machine without python and without the files asked for. *)
Definition bare_os : OS W :=
  {| exec_LookPath :=
       fun _ => answer (EmptyString, Some "executable file not found in $PATH");
     cmd_Run := fun _ _ => answer (EmptyString, EmptyString, None);
     os_Stat := fun _ => answer (Some "no such file or directory") |}.

End ScriptedRunner.

Definition read_call (id path : string) : ToolCall :=
  {| ID := id; Function := {| Name := "read_file"; Arguments := path |} |}.

Definition assistant (content : string) (calls : option (list ToolCall))
  : ChatCompletionMessage :=
  {| Role := ChatMessageRoleAssistant; Content := content;
     ToolCalls := calls; ToolCallID := EmptyString |}.

(** An LLM that asks for the same file in every round. *)
Definition insistent_client : Client unit :=
  {| CreateChatCompletion :=
       fun _ => answer ({| Choices :=
                             [assistant EmptyString
                                (Some [read_call "call_1" "notes.md"])] |},
                        None) |}.

(** An LLM that asks for a file in its first answer and gives its final
    answer in the second; the world counts the answers given. *)
Definition two_step_client : Client nat :=
  {| CreateChatCompletion :=
       fun _ n =>
         (({| Choices :=
                [if (n =? 0)%nat
                 then assistant EmptyString (Some [read_call "call_1" "notes.md"])
                 else assistant "done" None] |}, None), S n) |}.

Definition demo_skill : SkillPackage :=
  {| Path := "skills/demo";
     Meta := {| meta_Name := "demo"; meta_Description := "a demo skill";
                meta_Model := EmptyString; meta_AllowedTools := [] |};
     Body := "Be brief.";
     Resources := {| Scripts := []; References := []; Assets := [] |} |}.

Definition demo_cfg (autoApprove : bool) : RunnerConfig :=
  {| APIKey := "key"; APIBase := EmptyString; cfg_Model := "gpt-4o";
     SkillsDir := "skills"; Verbose := false;
     AutoApproveTools := autoApprove; AllowedScripts := [] |}.

(** The tool-role message that reports a denial of the call [tc]. *)
Definition denial (tc : ToolCall) : ChatCompletionMessage :=
  {| Role := ChatMessageRoleTool;
     Content := "Error: User denied tool execution.";
     ToolCalls := None; ToolCallID := ID tc |}.

(** Back-ends that all answer, over any world. *)
Definition plain_tools {W : Type} : ToolPkg W :=
  scripted_tools ("web", None) ("more", None) ("ddg", None) ("wiki", None).

(** A machine with "python" but no "python3"; every script prints "out" to
    stdout and "warn" to stderr. *)
Definition python_only_os : OS unit :=
  {| exec_LookPath :=
       fun file =>
         answer (if String.eqb file "python"
                 then ("/usr/bin/python", None)
                 else (EmptyString, Some "executable file not found in $PATH"));
     cmd_Run := fun _ _ => answer ("out", "warn", None);
     os_Stat := fun _ => answer None |}.

(** * Further specifications

    Notions used by the properties of the code beyond the ones above. *)

(** The calls that [executeToolCall] may make: the back-ends of package
    [tool], [os/exec] and [os.Stat]. *)
Definition is_tool_event (e : Event) : bool :=
  match e with
  | EvChat _ _ | EvScanln _ | EvLog _ | EvReviewSearchResults _ _ => false
  | _ => true
  end.

Definition is_prompt (e : Event) : bool :=
  match e with
  | EvScanln _ => true
  | _ => false
  end.

Definition is_chat (e : Event) : bool :=
  match e with
  | EvChat _ _ => true
  | _ => false
  end.

(** A computation that always returns, whose calls all satisfy [P] and
    whose result satisfies [Q]. *)
Definition yields {W A : Type} (P : Event -> bool) (Q : A -> Prop) (m : M W A)
  : Prop :=
  forall s : St W,
    exists a new w',
      m s = (Some a, {| world := w'; trace := trace s ++ new |}) /\
      forallb P new = true /\
      Q a.

(** A Go result pair whose string is empty when the error is set. *)
Definition empty_on_error (r : string * option error) : Prop :=
  r.2 <> None -> r.1 = EmptyString.

(** The names that [executeToolCall] handles itself. *)
Definition builtin_tools : list string :=
  [ "run_shell_code"; "run_shell_script"; "run_python_code";
    "run_python_script"; "read_file"; "write_file"; "duckduckgo_search";
    "wikipedia_search"; "web_fetch" ].

(** [json.Unmarshal] of the arguments of the built-in tool [name] fails
    with [e]. *)
Definition undecodable {W : Type} (env : RunnerEnv W) (name arguments : string)
    (e : error) : Prop :=
  (In name ["run_shell_code"; "run_python_code"] /\
   unmarshal_code_args env arguments = inr e) \/
  (In name ["run_shell_script"; "run_python_script"] /\
   unmarshal_scriptPath_args env arguments = inr e) \/
  (name = "read_file" /\ unmarshal_filePath env arguments = inr e) \/
  (name = "write_file" /\ unmarshal_filePath_content env arguments = inr e) \/
  (In name ["duckduckgo_search"; "wikipedia_search"] /\
   unmarshal_query env arguments = inr e) \/
  (name = "web_fetch" /\ unmarshal_url env arguments = inr e).

(** What the processing of one tool call may call: a tool back-end, and the
    user only when tools are not approved automatically. *)
Definition call_event (cfg : RunnerConfig) (e : Event) : bool :=
  is_tool_event e || (negb (AutoApproveTools cfg) && is_prompt e).

(** What a run of the tool loop may call. *)
Definition loop_event (cfg : RunnerConfig) (e : Event) : bool :=
  is_chat e || call_event cfg e.

(** The request of a round of the tool loop is the configured model, the
    advertised tools and a conversation that starts with [messages]. *)
Definition round_request (cfg : RunnerConfig) (availableTools : list Tool)
    (messages : list ChatCompletionMessage) (req : ChatCompletionRequest)
  : Prop :=
  Model req = cfg_Model cfg /\ Tools req = availableTools /\
  messages `prefix_of` Messages req.

(** Each conversation extends the ones before it. *)
Fixpoint growing (convs : list (list ChatCompletionMessage)) : Prop :=
  match convs with
  | [] => True
  | c :: rest => Forall (fun c' => c `prefix_of` c') rest /\ growing rest
  end.

(** Scripted worlds for the tool executor. *)

(** A runner environment whose JSON decoder rejects every argument string. *)
Definition garbled_env {W : Type} : RunnerEnv W :=
  let bad := "invalid character 'x' looking for beginning of value" in
  {| unmarshal_code_args := fun _ => inr bad;
     unmarshal_scriptPath_args := fun _ => inr bad;
     unmarshal_filePath := fun _ => inr bad;
     unmarshal_filePath_content := fun _ => inr bad;
     unmarshal_query := fun _ => inr bad;
     unmarshal_url := fun _ => inr bad;
     unmarshal_args := fun _ => inr bad;
     filepath_IsAbs := fun p => String.prefix "/" p;
     filepath_Join := fun a b => a +:+ "/" +:+ b;
     fmt_Scanln := answer EmptyString;
     GenerateToolDefinitions := fun _ => ([], ∅) |}.

Definition named_call (name arguments : string) : ToolCall :=
  {| ID := "call_7"; Function := {| Name := name; Arguments := arguments |} |}.

(** The script tools of a skill with one shell and one python script. *)
Definition demo_scripts : gmap string string :=
  {[ "lint" := "scripts/lint.sh"; "plot" := "scripts/plot.py" ]}.

(** ** Package [agent]: the report subagent and the [Type] methods *)

Module AgentEN_rest.

Section Subagents.

Context {W : Type}.

Definition SearchSubagent_Type (s : @AgentEN.SearchSubagent W) : TaskType :=
  TaskTypeSearch.

Definition AnalysisSubagent_Type (a : @AgentEN.AnalysisSubagent W) : TaskType :=
  TaskTypeAnalyze.

Definition RenderSubagent_Type (r : AgentEN.RenderSubagent) : TaskType :=
  TaskTypeRender.

Record ReportSubagent := {
  report_client : Client W;
  report_model : string;
  report_verbose : bool
}.

Definition ReportSubagent_Type (r : ReportSubagent) : TaskType := TaskTypeReport.

Definition ReportSubagent_prompt (task : Task) : string :=
  let '(context_data, hasContext) :=
    assert_string (Parameters task !! "context") in
  if hasContext
  then "Based on the following information, " +:+ Description task +:+ ":"
       +:+ LF +:+ LF +:+ context_data
  else Description task.

Definition ReportSubagent_request (r : ReportSubagent) (task : Task)
  : ChatCompletionRequest :=
  {| Model := report_model r;
     Messages :=
       [ {| Role := ChatMessageRoleSystem;
            Content := "You are a report writing assistant that creates well-formatted, clear, and comprehensive reports in Markdown format. Use appropriate headings, lists, and formatting to make the report easy to read.";
            ToolCalls := None; ToolCallID := EmptyString |};
         {| Role := ChatMessageRoleUser;
            Content := ReportSubagent_prompt task;
            ToolCalls := None; ToolCallID := EmptyString |} ];
     Tools := [];
     Temperature := 5 # 10 |}.

Definition ReportSubagent_Execute (r : ReportSubagent) (task : Task)
  : M W (Result * option error) :=
  let req := ReportSubagent_request r task in
  '(resp, err) <- call (EvChat req) (CreateChatCompletion (report_client r) req) ;;
  match err with
  | Some e => ret (failed TaskTypeReport e)
  | None =>
      msg <- first_choice resp ;;
      let report := Content msg in
      ret ({| Result_TaskType := TaskTypeReport; Success := true;
              Output := report; Error := EmptyString; Metadata := ∅ |}, None)
  end.

End Subagents.

End AgentEN_rest.

Module AgentZH_rest.

Section Subagents.

Context {W : Type}.

Definition SearchSubagent_Type (s : @AgentZH.SearchSubagent W) : TaskType :=
  TaskTypeSearch.

Definition AnalysisSubagent_Type (a : @AgentZH.AnalysisSubagent W) : TaskType :=
  TaskTypeAnalyze.

Definition RenderSubagent_Type (r : @AgentZH.RenderSubagent W) : TaskType :=
  TaskTypeRender.

Record ReportSubagent := {
  report_client : Client W;
  report_model : string;
  report_verbose : bool;
  report_interactionHandler : option (InteractionHandler W)
}.

Definition ReportSubagent_Type (r : ReportSubagent) : TaskType := TaskTypeReport.

Definition ReportSubagent_prompt (task : Task) : string :=
  let '(contextData, hasContext) :=
    assert_strings (Parameters task !! "context") in
  if hasContext && (0 <? length contextData)%nat
  then "基于以下信息，" +:+ Description task +:+ ":" +:+ LF +:+ LF
       +:+ strings_Join contextData (LF +:+ LF)
  else Description task.

Definition ReportSubagent_systemPrompt (task : Task) : string :=
  let '(globalContext, _) := assert_string (Parameters task !! "global_context") in
  let systemPrompt :=
    "你是一个报告写作助手，负责创建格式良好、清晰且全面的 Markdown 格式报告。使用适当的标题、列表和格式使报告易于阅读。如果提供的信息包含带有 URL 和描述的图片，请选择最相关的图片，并使用标准 Markdown 图片语法 `![描述](URL)` 将其嵌入报告中。将图片放置在相关文本部分附近。" in
  if negb (String.eqb globalContext EmptyString)
  then systemPrompt +:+ LF +:+ LF +:+ "来自用户的重要上下文/指令：" +:+ LF
       +:+ globalContext
  else systemPrompt.

Definition ReportSubagent_request (r : ReportSubagent) (task : Task)
  : ChatCompletionRequest :=
  {| Model := report_model r;
     Messages :=
       [ {| Role := ChatMessageRoleSystem;
            Content := ReportSubagent_systemPrompt task;
            ToolCalls := None; ToolCallID := EmptyString |};
         {| Role := ChatMessageRoleUser;
            Content := ReportSubagent_prompt task;
            ToolCalls := None; ToolCallID := EmptyString |} ];
     Tools := [];
     Temperature := 5 # 10 |}.

Definition ReportSubagent_Execute (r : ReportSubagent) (task : Task)
  : M W (Result * option error) :=
  _ <- LogIfPresent (report_interactionHandler r)
         ("> 报告子Agent: " +:+ Description task) ;;
  let req := ReportSubagent_request r task in
  '(resp, err) <- call (EvChat req) (CreateChatCompletion (report_client r) req) ;;
  match err with
  | Some e => ret (failed TaskTypeReport e)
  | None =>
      msg <- first_choice resp ;;
      let report := Content msg in
      _ <- LogIfPresent (report_interactionHandler r)
             ("✓ 报告已生成 (" +:+ Itoa (String.length report) +:+ " 字节)") ;;
      ret ({| Result_TaskType := TaskTypeReport; Success := true;
              Output := report; Error := EmptyString; Metadata := ∅ |}, None)
  end.

End Subagents.

End AgentZH_rest.

(** ** Specifications for the subagents *)

(** A result and the error returned with it agree: failure goes with an
    error, whose text is in [Error] beside an empty [Output]; success goes
    with [nil] and an empty [Error]; and the result is tagged [T]. *)
Definition consistent_result (T : TaskType) (r : Result * option error) : Prop :=
  Result_TaskType r.1 = T /\
  match r.2 with
  | Some e => Success r.1 = false /\ Error r.1 = e /\ Output r.1 = EmptyString
  | None => Success r.1 = true /\ Error r.1 = EmptyString
  end.

(** The shape of the request of an LLM subagent: a system and a user
    message, no tools, and the given model and temperature. *)
Definition plain_request (temperature : Q) (model : string)
    (req : ChatCompletionRequest) : Prop :=
  map Role (Messages req) = [ChatMessageRoleSystem; ChatMessageRoleUser] /\
  Tools req = [] /\ Model req = model /\ Temperature req = temperature.

(** A subagent that asks the LLM once: the request is [request task]; a
    failure of the client is returned as the failure of the task; an answer
    without choices makes [Execute] panic; otherwise the output is the
    content of the first choice. *)
Definition llm_subagent_spec {W : Type} (T : TaskType) (temperature : Q)
    (model : string) (request : Task -> ChatCompletionRequest)
    (Execute : Task -> M W (Result * option error)) : Prop :=
  forall (task : Task) (w : W),
    let run := exec (Execute task) w in
    plain_request temperature model (request task) /\
    exists resp err,
      chats (trace run.2) = [(request task, (resp, err))] /\
      match err, Choices resp with
      | Some e, _ => run.1 = Some (failed T e)
      | None, [] => run.1 = None
      | None, msg :: _ =>
          exists result,
            run.1 = Some (result, None) /\
            consistent_result T (result, None) /\
            Output result = Content msg
      end.

(** The search calls of an event use the query [q]. *)
Definition uses_query (q : string) (e : Event) : Prop :=
  match e with
  | EvTavilySearch q' _ | EvTavilySearchWithLimit q' _ _
  | EvDuckDuckGoSearch q' _ | EvWikipediaSearch q' _ => q' = q
  | _ => True
  end.

(** The order in which the search subagent goes to its back-ends. *)
Definition search_discipline_spec {W : Type}
    (handler : option (InteractionHandler W))
    (Execute : Task -> M W (Result * option error)) : Prop :=
  forall (task : Task) (w : W),
    let run := exec (Execute task) w in
    let t := trace run.2 in
    let query := query_of task in
    chats t = [] /\
    Forall (uses_query query) t /\
    (exists ans, In (EvTavilySearch query ans) t) /\
    (forall ans, In (EvDuckDuckGoSearch query ans) t ->
                 exists r e, In (EvTavilySearch query (r, Some e)) t) /\
    (forall results ans,
        In (EvReviewSearchResults results ans) t ->
        handler <> None /\ In (EvTavilySearch query (results, None)) t) /\
    (forall limit ans,
        In (EvTavilySearchWithLimit query limit ans) t ->
        exists results, In (EvReviewSearchResults results (true, None)) t) /\
    (forall ans, In (EvWikipediaSearch query ans) t ->
                 exists result, run.1 = Some (result, None)) /\
    (forall result err,
        run.1 = Some (result, err) ->
        consistent_result TaskTypeSearch (result, err) /\
        (err = None -> Metadata result !! "query" = Some (AnyString query))).

(** The progress lines of a subagent of the Chinese listing: none without a
    handler; with one, the first call of a run is the line [start] followed
    by the description, and a run that succeeds ends with the line that
    tells the length of the output in bytes. *)
Definition progress_spec {W : Type} (handler : option (InteractionHandler W))
    (start done : string) (Execute : Task -> M W (Result * option error))
  : Prop :=
  forall (task : Task) (w : W),
    let run := exec (Execute task) w in
    (handler = None -> forall line, ~ In (EvLog line) (trace run.2)) /\
    (handler <> None ->
     (exists rest, trace run.2 = EvLog (start +:+ Description task) :: rest) /\
     forall result,
       run.1 = Some (result, None) ->
       exists earlier,
         trace run.2 =
         earlier ++ [EvLog (done +:+ " (" +:+ Itoa (String.length (Output result))
                            +:+ " 字节)")]).

(** The words that introduce the user's global context in a system prompt
    of the Chinese listing. *)
Definition global_context_heading : string :=
  LF +:+ LF +:+ "来自用户的重要上下文/指令：" +:+ LF.

(** The content of the system message of a request. *)
Definition system_content (req : ChatCompletionRequest) : string :=
  match Messages req with
  | m :: _ => Content m
  | [] => EmptyString
  end.

(** Scripted subagents and tasks. *)

Definition en_report : @AgentEN_rest.ReportSubagent unit :=
  {| AgentEN_rest.report_client := offline_client;
     AgentEN_rest.report_model := "gpt-4o";
     AgentEN_rest.report_verbose := false |}.

Definition zh_report : @AgentZH_rest.ReportSubagent unit :=
  {| AgentZH_rest.report_client := offline_client;
     AgentZH_rest.report_model := "gpt-4o";
     AgentZH_rest.report_verbose := false;
     AgentZH_rest.report_interactionHandler := None |}.

(** A client that answers every request with two choices. *)
Definition chatty_client {W : Type} : Client W :=
  {| CreateChatCompletion :=
       fun _ => answer ({| Choices := [assistant "first" None;
                                        assistant "second" None] |}, None) |}.

(** The task with the parameter [key] set to [value]. *)
Definition with_parameter (task : Task) (key : string) (value : any) : Task :=
  {| Task_Type := Task_Type task; Description := Description task;
     Parameters := <[key := value]> (Parameters task) |}.

(** A handler that counts its log lines in the world. *)
Definition counting_handler : InteractionHandler nat :=
  {| Log := fun _ n => S n; ReviewSearchResults := fun _ => answer (false, None) |}.

Definition zh_analysis_logging : @AgentZH.AnalysisSubagent nat :=
  {| AgentZH.analysis_client := chatty_client;
     AgentZH.analysis_model := "gpt-4o";
     AgentZH.analysis_verbose := false;
     AgentZH.analysis_interactionHandler := Some counting_handler |}.


(** ** The runner's entry point: [Run], [discoverSkills], [selectSkill] *)

(** An oracle call that the trace does not record: the trace lists the
    calls of the client, the tools, the handler and standard input, and
    [Run] also reads the skills directory and walks over a map. *)
Definition unlogged {W A : Type} (f : W -> A * W) : M W A :=
  fun s => let '(a, w) := f (world s) in
           (Some a, {| world := w; trace := trace s |}).

(** [strings.Trim(s, cutset)] for a cutset of ASCII bytes, for which it
    works byte by byte: trailing bytes of the cutset are removed first, then
    leading ones. *)
Definition in_cutset (cutset : string) (c : ascii) : bool :=
  existsb (Ascii.eqb c) (list_ascii_of_string cutset).

Fixpoint trimLeftASCII (s cutset : string) : string :=
  match s with
  | EmptyString => EmptyString
  | String c rest => if in_cutset cutset c then trimLeftASCII rest cutset else s
  end.

Fixpoint trimRightASCII (s cutset : string) : string :=
  match s with
  | EmptyString => EmptyString
  | String c rest =>
      match trimRightASCII rest cutset with
      | EmptyString => if in_cutset cutset c then EmptyString
                       else String c EmptyString
      | kept => String c kept
      end
  end.

Definition strings_Trim (s cutset : string) : string :=
  trimLeftASCII (trimRightASCII s cutset) cutset.

(** The cutset of [selectSkill]: the single and the double quote. *)
Definition quotes : string := bytes [39; 34]%nat.

(** [openai.ClientConfig], as far as [Run] touches it. *)
Record ClientConfig := { authToken : string; BaseURL : string }.

(** What [Run] takes from outside the verified files: the go-openai
    constructors, [ParseSkillPackages] (a nil package is [None]) and the
    order in which a [range] statement visits the entries of a map. *)
Record Discovery (W : Type) := {
  openai_DefaultConfig : string -> ClientConfig;
  openai_NewClientWithConfig : ClientConfig -> Client W;
  ParseSkillPackages :
    string -> W -> (list (option SkillPackage) * option error) * W;
  range_order :
    gmap string SkillPackage -> W -> list (string * SkillPackage) * W
}.

Arguments openai_DefaultConfig {W}.
Arguments openai_NewClientWithConfig {W}.
Arguments ParseSkillPackages {W}.
Arguments range_order {W}.

Definition selectSkill_system : string :=
  "You are an expert assistant that selects the most appropriate skill to handle a user's request. Your response must be only the exact name of the chosen skill, with no other text or explanation.".

Definition selectSkill_question : string :=
  "Based on the user request, which single skill is the most appropriate to use? Respond with only the name of the skill.".

Module goskills.

Section EntryPoint.

Context {W : Type} (os : OS W) (tool : ToolPkg W) (env : RunnerEnv W)
  (disc : Discovery W).

(** The body of the loop of [discoverSkills]. *)
Definition file_skill (skills : gmap string SkillPackage)
    (pkg : option SkillPackage) : gmap string SkillPackage :=
  match pkg with
  | Some p => <[meta_Name (Meta p) := p]> skills
  | None => skills
  end.

(** The nil map returned with an error is the empty map. *)
Definition discoverSkills (skillsRoot : string)
  : M W (gmap string SkillPackage * option error) :=
  '(packages, err) <- unlogged (ParseSkillPackages disc skillsRoot) ;;
  match err with
  | Some e => ret (∅, Some e)
  | None => ret (foldl file_skill ∅ packages, None)
  end.

(** One line of the list of skills, [fmt.Sprintf("- %s: %s\n", ...)]. *)
Definition skill_line (entry : string * SkillPackage) : string :=
  "- " +:+ entry.1 +:+ ": " +:+ meta_Description (Meta entry.2) +:+ LF.

(** The text built in [sb], the skills being visited in the order
    [visited]. *)
Definition selectSkill_prompt (userPrompt : string)
    (visited : list (string * SkillPackage)) : string :=
  ("User Request: " +:+ EmptyString +:+ userPrompt +:+ EmptyString +:+ LF +:+ LF)
  +:+ ("Available Skills:" +:+ LF)
  +:+ fold_right (fun entry sb => skill_line entry +:+ sb)
        (LF +:+ selectSkill_question) visited.

Definition selectSkill_request (model userPrompt : string)
    (visited : list (string * SkillPackage)) : ChatCompletionRequest :=
  {| Model := model;
     Messages :=
       [ {| Role := ChatMessageRoleSystem; Content := selectSkill_system;
            ToolCalls := None; ToolCallID := EmptyString |};
         {| Role := ChatMessageRoleUser;
            Content := selectSkill_prompt userPrompt visited;
            ToolCalls := None; ToolCallID := EmptyString |} ];
     Tools := [];
     Temperature := 0 |}.

(** What [selectSkill] makes of the content of the answer. *)
Definition skill_name_of (content : string) : string :=
  strings_Trim (strings_TrimSpace content) quotes.

Definition selectSkill (client : Client W) (model userPrompt : string)
    (skills : gmap string SkillPackage) : M W (string * option error) :=
  visited <- unlogged (range_order disc skills) ;;
  let req := selectSkill_request model userPrompt visited in
  '(resp, err) <- call (EvChat req) (CreateChatCompletion client req) ;;
  match err with
  | Some e => ret (EmptyString, Some e)
  | None =>
      msg <- first_choice resp ;;
      ret (skill_name_of (Content msg), None)
  end.

(** [cfg] after the pre-flight check of [Run]. *)
Definition with_default_model (cfg : RunnerConfig) : RunnerConfig :=
  if String.eqb (cfg_Model cfg) EmptyString
  then {| APIKey := APIKey cfg; APIBase := APIBase cfg; cfg_Model := "gpt-4o";
          SkillsDir := SkillsDir cfg; Verbose := Verbose cfg;
          AutoApproveTools := AutoApproveTools cfg;
          AllowedScripts := AllowedScripts cfg |}
  else cfg.

(** [openaiConfig] as [Run] hands it to [openai.NewClientWithConfig]. *)
Definition openaiConfig_of (cfg : RunnerConfig) : ClientConfig :=
  let openaiConfig := openai_DefaultConfig disc (APIKey cfg) in
  if negb (String.eqb (APIBase cfg) EmptyString)
  then {| authToken := authToken openaiConfig; BaseURL := APIBase cfg |}
  else openaiConfig.

Definition nonexistent_skill (selectedSkillName : string) : error :=
  "⚠️ LLM selected a non-existent skill '" +:+ selectedSkillName +:+ "'. Aborting".

Definition Run (userPrompt : string) (cfg : RunnerConfig)
  : M W (string * option error) :=
  if String.eqb (APIKey cfg) EmptyString
  then ret (EmptyString, Some "API key is not set")
  else
    let cfg := with_default_model cfg in
    let client := openai_NewClientWithConfig disc (openaiConfig_of cfg) in
    '(availableSkills, err) <- discoverSkills (SkillsDir cfg) ;;
    match err with
    | Some e => ret (EmptyString, Some ("failed to discover skills: " +:+ e))
    | None =>
        if (size availableSkills =? 0)%nat
        then ret (EmptyString, Some "no valid skills found")
        else
          '(selectedSkillName, err) <-
            selectSkill client (cfg_Model cfg) userPrompt availableSkills ;;
          match err with
          | Some e =>
              ret (EmptyString, Some ("failed during skill selection: " +:+ e))
          | None =>
              match availableSkills !! selectedSkillName with
              | None =>
                  ret (EmptyString, Some (nonexistent_skill selectedSkillName))
              | Some selectedSkill =>
                  '(finalOutput, err) <-
                    executeSkillWithTools os tool env client userPrompt
                      selectedSkill cfg ;;
                  match err with
                  | Some e =>
                      ret (EmptyString,
                           Some ("failed during skill execution: " +:+ e))
                  | None => ret (finalOutput, None)
                  end
              end
          end
    end.

End EntryPoint.

End goskills.

(** A computation whose run does not depend on the trace it starts with:
    started after [trace s] it does what it does from the empty trace, and
    appends. *)
Definition framed {W A : Type} (m : M W A) : Prop :=
  forall s : St W,
    m s = ((exec m (world s)).1,
           {| world := world (exec m (world s)).2;
              trace := trace s ++ trace (exec m (world s)).2 |}).

(** How [Run] hands on the result of [executeSkillWithTools]. *)
Definition execution_result (r : string * option error) : string * option error :=
  match r.2 with
  | Some e => (EmptyString, Some ("failed during skill execution: " +:+ e))
  | None => (r.1, None)
  end.

(** The last package of the name [name] among the packages parsed. *)
Definition last_named (name : string) (packages : list (option SkillPackage))
  : option SkillPackage :=
  last (filter (fun p => meta_Name (Meta p) = name) (omap id packages)).

(** Every byte of [s] is of the cutset. *)
Definition all_of (cutset s : string) : Prop :=
  forallb (in_cutset cutset) (list_ascii_of_string s) = true.

(** The errors of [Run], by the stage that fails. *)
Inductive Run_error : error -> Prop :=
| no_api_key : Run_error "API key is not set"
| discovery_failed e : Run_error ("failed to discover skills: " +:+ e)
| nothing_discovered : Run_error "no valid skills found"
| selection_failed e : Run_error ("failed during skill selection: " +:+ e)
| selection_unknown name : Run_error (goskills.nonexistent_skill name)
| execution_failed e :
    Run_error ("failed during skill execution: ChatCompletion error: " +:+ e)
| execution_exceeded :
    Run_error ("failed during skill execution: " +:+ exceeded).

(** Scripted worlds for the entry point. *)

Definition lint_skill : SkillPackage :=
  {| Path := "skills/lint";
     Meta := {| meta_Name := "lint"; meta_Description := "runs the linter";
                meta_Model := EmptyString; meta_AllowedTools := [] |};
     Body := "Lint the code.";
     Resources := {| Scripts := []; References := []; Assets := [] |} |}.

(** An LLM whose first answer is [selection] and whose later answers are
    "done"; the world counts the answers given. *)
Definition selecting_client (selection : string) : Client nat :=
  {| CreateChatCompletion :=
       fun _ n =>
         (({| Choices := [if (n =? 0)%nat then assistant selection None
                          else assistant "done" None] |}, None), S n) |}.

(** A skills directory with the packages [packages], read without error,
    and an LLM that selects with [selection]; maps are walked in the order
    of their keys. *)
Definition demo_store (packages : list (option SkillPackage))
    (selection : string) : Discovery nat :=
  {| openai_DefaultConfig :=
       fun key => {| authToken := key; BaseURL := "https://api.openai.com/v1" |};
     openai_NewClientWithConfig := fun _ => selecting_client selection;
     ParseSkillPackages := fun _ => answer (packages, None);
     range_order := fun skills => answer (map_to_list skills) |}.

(** A skills directory that cannot be read. *)
Definition unreadable_store : Discovery nat :=
  {| openai_DefaultConfig :=
       fun key => {| authToken := key; BaseURL := "https://api.openai.com/v1" |};
     openai_NewClientWithConfig := fun _ => selecting_client "demo";
     ParseSkillPackages :=
       fun _ => answer ([], Some "open skills: no such file or directory");
     range_order := fun skills => answer (map_to_list skills) |}.

(** "demo" in double quotes, followed by a newline. *)
Definition quoted_demo : string :=
  bytes [34]%nat +:+ "demo" +:+ bytes [34; 10]%nat.

(** A package that is shadowed by [lint_skill]. *)
Definition stale_lint : SkillPackage :=
  {| Path := "skills/old-lint";
     Meta := {| meta_Name := "lint"; meta_Description := "an older linter";
                meta_Model := EmptyString; meta_AllowedTools := [] |};
     Body := "Old.";
     Resources := {| Scripts := []; References := []; Assets := [] |} |}.

Definition demo_packages : list (option SkillPackage) :=
  [Some stale_lint; None; Some demo_skill; Some lint_skill].

(** A configuration with the API key [key] and the model [model]. *)
Definition entry_cfg (key model : string) : RunnerConfig :=
  {| APIKey := key; APIBase := EmptyString; cfg_Model := model;
     SkillsDir := "skills"; Verbose := false;
     AutoApproveTools := true; AllowedScripts := [] |}.

(** * The web page: the plan panel

    The page script (JavaScript) keeps the plan of the running request in
    two variables of its closure, [tasks] and [currentTaskIndex], and shows
    it as one element with the id [task-i] per task.  The embedding covers
    [renderPlan], [updateTaskStatus], [handleLog], the cases of
    [handleEvent] and the reset on submission, as far as they touch these;
    the terminal, the tabs and the network are not part of it.  The
    elements [task-i] are taken to be the ones [renderPlan] creates from its
    template, which carries the icon element.  An index is a JavaScript
    number with an integral value, a [Z] here. *)

Module WebUI.

(** One task of a plan, as the page reads it. *)
Record PlanTask := { task_description : string; task_type : string }.

(** The element [task-i]: its class, the two texts and the class of its
    icon. *)
Record PlanItem := {
  className : string;
  task_desc : string;
  task_meta : string;
  icon_className : string
}.

Record Panel := {
  tasks : list PlanTask;
  currentTaskIndex : Z;
  items : gmap Z PlanItem
}.

(** The state when the page is loaded. *)
Definition loaded : Panel :=
  {| tasks := []; currentTaskIndex := -1; items := ∅ |}.

(** What arrives on the event stream, by [data.type], and the submission
    of the form, [text] being the trimmed input. *)
Inductive PageEvent : Type :=
| event_log (content : string)
| event_plan_review (plan : option (list PlanTask))
| event_other
| form_submit (text : string).

(** The marks that [handleLog] looks for in a log line. *)
Definition step_mark : string := "📍 步骤".
Definition done_mark : string := "✓ 完成".
Definition failed_mark : string := "✗ 失败".

(** The statuses that the page sets. *)
Definition statuses : list string := ["active"; "completed"; "failed"].

Section Page.

(** The class of a plan item in the template, [String.prototype.includes],
    and the first group of the match of the step pattern as [parseInt]
    reads it, if the pattern matches. *)
Context (template_class : string) (includes : string -> string -> bool)
  (step_number : string -> option Z).

(** The [switch] of [updateTaskStatus]. *)
Definition icon_of (status : string) : string :=
  if String.eqb status "active" then "fas fa-spinner fa-spin"
  else if String.eqb status "completed" then "fas fa-check-circle"
  else if String.eqb status "failed" then "fas fa-times-circle"
  else "far fa-circle".

(** [index < 0 || index >= tasks.length]. *)
Definition out_of_range (index : Z) (st : Panel) : bool :=
  (index <? 0) || (index >=? Z.of_nat (length (tasks st))).

(** [updateTaskStatus] from [document.getElementById] on. *)
Definition show_status (index : Z) (status : string) (st : Panel) : Panel :=
  match items st !! index with
  | None => st
  | Some item =>
      {| tasks := tasks st; currentTaskIndex := currentTaskIndex st;
         items := <[index := {| className := "plan-item " +:+ status;
                                task_desc := task_desc item;
                                task_meta := task_meta item;
                                icon_className := icon_of status |}]>
                    (items st) |}
  end.

(** The call [updateTaskStatus(currentTaskIndex, 'completed')] that
    [updateTaskStatus] makes of itself: its status is not ['active'], so
    that it skips the block that calls again. *)
Definition updateTaskStatus_again (index : Z) (status : string) (st : Panel)
  : Panel :=
  if out_of_range index st then st else show_status index status st.

Definition updateTaskStatus (index : Z) (status : string) (st : Panel) : Panel :=
  if out_of_range index st then st
  else
    let st :=
      if String.eqb status "active"
      then
        let st :=
          if negb (currentTaskIndex st =? -1)
             && negb (currentTaskIndex st =? index)
          then updateTaskStatus_again (currentTaskIndex st) "completed" st
          else st in
        {| tasks := tasks st; currentTaskIndex := index; items := items st |}
      else st in
    show_status index status st.

Definition handleLog (content : string) (st : Panel) : Panel :=
  if includes content step_mark
  then
    match step_number content with
    | Some number => updateTaskStatus (number - 1) "active" st
    | None => st
    end
  else if includes content done_mark
  then updateTaskStatus (currentTaskIndex st) "completed" st
  else if includes content failed_mark
  then updateTaskStatus (currentTaskIndex st) "failed" st
  else st.

(** The loop of [renderPlan]: the items of the tasks from [index] on. *)
Fixpoint plan_items (index : Z) (ts : list PlanTask) (container : gmap Z PlanItem)
  : gmap Z PlanItem :=
  match ts with
  | [] => container
  | task :: rest =>
      plan_items (index + 1) rest
        (<[index := {| className := template_class;
                       task_desc := task_description task;
                       task_meta := task_type task;
                       icon_className := "far fa-circle" |}]> container)
  end.

(** [plan] is [None] unless it is an object whose [tasks] is an array. *)
Definition renderPlan (plan : option (list PlanTask)) (st : Panel) : Panel :=
  match plan with
  | None => st
  | Some ts =>
      {| tasks := ts; currentTaskIndex := -1;
         items := if (length ts =? 0)%nat then ∅ else plan_items 0 ts ∅ |}
  end.

Definition handleEvent (data : PageEvent) (st : Panel) : Panel :=
  match data with
  | event_log content => handleLog content st
  | event_plan_review plan => renderPlan plan st
  | event_other => st
  | form_submit text =>
      if String.eqb text EmptyString then st
      else {| tasks := []; currentTaskIndex := -1; items := ∅ |}
  end.

(** The page after the events [events], from the state [st]. *)
Definition after (events : list PageEvent) (st : Panel) : Panel :=
  fold_left (fun st data => handleEvent data st) events st.

End Page.

(** The step that runs, if its item shows it. *)
Definition shown_active (st : Panel) (index : Z) : Prop :=
  exists item, items st !! index = Some item /\
               className item = "plan-item active".

(** What holds of the panel at all times. *)
Record consistent (template_class : string) (st : Panel) : Prop := {
  items_of_tasks :
    forall index,
      is_Some (items st !! index)
      <-> 0 <= index < Z.of_nat (length (tasks st));
  current_in_range :
    currentTaskIndex st = -1 \/
    0 <= currentTaskIndex st < Z.of_nat (length (tasks st));
  one_active : forall index, shown_active st index -> index = currentTaskIndex st;
  icon_follows_class :
    forall index item,
      items st !! index = Some item ->
      (className item = template_class /\ icon_className item = "far fa-circle")
      \/ exists status,
           In status statuses /\
           className item = "plan-item " +:+ status /\
           icon_className item = icon_of status
}.

(** The item [index] shows the status [status], with its icon. *)
Definition shows (st : Panel) (index : Z) (status : string) : Prop :=
  exists item, items st !! index = Some item /\
               className item = "plan-item " +:+ status /\
               icon_className item = icon_of status.

(** A plan of two tasks and lines of its run. *)
Definition two_tasks : list PlanTask :=
  [ {| task_description := "find sources"; task_type := "SEARCH" |};
    {| task_description := "write it up"; task_type := "REPORT" |} ].

Definition step_line (number : string) : string :=
  step_mark +:+ " " +:+ number +:+ "/2: [SEARCH] find sources".

(** A reader of step lines that knows the steps 1 and 2. *)
Definition read_step (content : string) : option Z :=
  if strings_Contains content (step_line "1") then Some 1
  else if strings_Contains content (step_line "2") then Some 2
  else None.

Definition failing_run : list PageEvent :=
  [ form_submit "compare go and rust"; event_plan_review (Some two_tasks);
    event_log (step_line "1"); event_log (failed_mark +:+ ": timeout");
    event_log (step_line "2") ].

End WebUI.
(** * Properties *)

(** ** Tactics for runs *)

(** Goals about a run whose trace is an explicit list: split the goal and
    the hypotheses down to equations between events and results. *)
Ltac break_trace :=
  repeat match goal with
    | |- _ /\ _ => split
    | |- _ <-> _ => split
    | |- ~ _ => intro
    | |- forall _, _ => intro
    | H : _ /\ _ |- _ => destruct H
    | H : exists _, _ |- _ => destruct H
    | H : _ \/ _ |- _ => destruct H
    | H : False |- _ => destruct H
    | H : In _ _ |- _ => simpl in H
    | H : ?x <> ?x |- _ => now destruct H
    | H : _ = _ |- _ => discriminate H
    | H : _ = _ |- _ => injection H as ?; subst
    end.


(** ** [RunPythonScript] *)

Section PythonToolFacts.

Context {W : Type} (os : OS W).

(** C9.  [RunPythonScript] looks up "python3" first and "python" only if
    that lookup failed; it returns an error without having run any command
    exactly when both lookups fail; with an interpreter found it runs the
    script under it; and when the command runs without error the returned
    string is its stdout followed by its stderr. *)
Theorem RunPythonScript_interpreter_resolution
    (scriptPath : string) (args : list string) (w : W) :
  let run := exec (RunPythonScript os scriptPath args) w in
  let look3 := exec_LookPath os "python3" w in
  let look2 := exec_LookPath os "python" look3.2 in
  let pythonExe := match look3.1.2 with Some _ => look2.1.1 | None => look3.1.1 end in
  (exists rest, trace run.2 = EvLookPath "python3" look3.1 :: rest) /\
  ((exists ans, In (EvLookPath "python" ans) (trace run.2)) <-> look3.1.2 <> None) /\
  (((exists e, run.1 = Some (EmptyString, Some e)) /\
    (forall exe a ans, ~ In (EvCmdRun exe a ans) (trace run.2)))
   <-> (look3.1.2 <> None /\ look2.1.2 <> None)) /\
  (look3.1.2 = None \/ look2.1.2 = None ->
   exists ans, In (EvCmdRun pythonExe (scriptPath :: args) ans) (trace run.2)) /\
  (forall exe a stdout stderr,
      In (EvCmdRun exe a (stdout, stderr, None)) (trace run.2) ->
      a = scriptPath :: args /\ exe = pythonExe /\
      run.1 = Some (stdout +:+ stderr, None)).
Proof.
  unfold exec, RunPythonScript, run_with, LookPath, Run, bind, call, ret; simpl.
  destruct (exec_LookPath os "python3" w) as [[exe3 [e3|]] w3] eqn:E3; simpl;
    destruct (exec_LookPath os "python" w3) as [[exe2 [e2|]] w2] eqn:E2; simpl;
    try (destruct (cmd_Run os exe2 (scriptPath :: args) w2)
           as [[[so se] [e|]] w'] eqn:ER; simpl);
    try (destruct (cmd_Run os exe3 (scriptPath :: args) w3)
           as [[[so' se'] [e'|]] w''] eqn:ER'; simpl);
    break_trace;
    try congruence;
    try (eexists; simpl; eauto; fail);
    try (exfalso; match goal with H : forall _ _ _, ~ _ |- _ =>
                    eapply H; simpl; eauto end; fail).
Qed.

End PythonToolFacts.

(** ** The search subagent *)

(** One step of a run: case analysis on the innermost scrutinee. *)
Ltac step_run :=
  match goal with
  | |- context [match ?x with _ => _ end] =>
      lazymatch x with
      | context [match _ with _ => _ end] => fail
      | _ => destruct x eqn:?
      end
  end.

(** A trace split around two adjacent events. *)
Ltac split_trace :=
  (exists []) + (eexists [_]) + (eexists [_; _]) + (eexists [_; _; _]).

Ltac finish_trace :=
  simpl in *; subst;
  try congruence;
  try solve [ split_trace; repeat eexists; reflexivity ];
  try solve [ repeat eexists; simpl; first [ lia | eauto 10 | congruence ] ].

Ltac run_search unfolds :=
  intros task w; unfolds;
  unfold exec, LogIfPresent, failed, bind, call, ret; simpl;
  repeat (step_run; simpl).

(** In a goal about the output of a successful search: the kept result and
    the Wikipedia answer are read off the result. *)
Ltac pick_kept found none :=
  match goal with
  | |- context [Build_Result _ _ (?f ?k ?r ?e)] => exists k, r, e
  end;
  eexists;
  repeat split;
  [ first [ left; reflexivity | right; eexists; simpl; eauto 10 ]
  | simpl; eauto 10
  | simpl; intros; subst; now apply found
  | simpl; intros; now apply none ].

Section SearchFacts.

Context {W : Type} (tool : ToolPkg W).

Lemma EN_with_wikipedia_found web wikiResult :
  wikiResult <> EmptyString ->
  AgentEN.with_wikipedia web wikiResult None =
  "Web Search Results:" +:+ LF +:+ web +:+ LF +:+ LF +:+ "Wikipedia Results:"
  +:+ LF +:+ wikiResult.
Proof.
  intros H. unfold AgentEN.with_wikipedia.
  destruct (String.eqb_spec wikiResult EmptyString); [contradiction|reflexivity].
Qed.

Lemma EN_with_wikipedia_none web wikiResult wikiErr :
  wikiErr <> None \/ wikiResult = EmptyString ->
  AgentEN.with_wikipedia web wikiResult wikiErr = web.
Proof.
  unfold AgentEN.with_wikipedia. intros [H|H]; destruct wikiErr; try congruence.
  now subst.
Qed.

Lemma ZH_with_wikipedia_found web wikiResult :
  wikiResult <> EmptyString ->
  AgentZH.with_wikipedia web wikiResult None =
  "网络搜索结果:" +:+ LF +:+ web +:+ LF +:+ LF +:+ "维基百科结果:"
  +:+ LF +:+ wikiResult.
Proof.
  intros H. unfold AgentZH.with_wikipedia.
  destruct (String.eqb_spec wikiResult EmptyString); [contradiction|reflexivity].
Qed.

Lemma ZH_with_wikipedia_none web wikiResult wikiErr :
  wikiErr <> None \/ wikiResult = EmptyString ->
  AgentZH.with_wikipedia web wikiResult wikiErr = web.
Proof.
  unfold AgentZH.with_wikipedia. intros [H|H]; destruct wikiErr; try congruence.
  now subst.
Qed.

(** The trace of a run that is an explicit list starts with the Tavily
    search, after one progress line at most. *)
Ltac first_tavily :=
  first [ exists []; split; [reflexivity|constructor]
        | eexists [_]; split;
          [reflexivity|repeat constructor; eexists; reflexivity] ].

(** Goals about the shape of an explicit trace and the result of its run. *)
Ltac trace_shape :=
  repeat first
    [ progress simpl
    | match goal with
      | H : False |- _ => destruct H
      | H : ?x <> ?x |- _ => now destruct H
      | H : _ = _ |- _ => discriminate H
      | H : (_, _) = (_, _) |- _ => injection H as ?; subst
      | H : In _ _ |- _ => simpl in H
      | H : _ \/ _ |- _ => destruct H
      | |- _ /\ _ => split
      | |- tavily_first _ _ _ _ => first_tavily
      | |- exists _, _ => eexists
      | |- forall _, _ => intro
      | |- ~ _ => intro
      | |- _ = _ => reflexivity
      | |- _ <= _ => lia
      end ].

(** C4.  In both listings the search subagent always searches Tavily
    first; if Tavily fails it searches DuckDuckGo right after it; it returns
    a result with [Success = false] exactly when both searches failed, and
    then reports DuckDuckGo's error in the result and as the returned
    error. *)
Theorem search_fallback
    (en : AgentEN.SearchSubagent) (zh : AgentZH.SearchSubagent) :
  search_fallback_spec (AgentEN.SearchSubagent_Execute tool en) /\
  search_fallback_spec (AgentZH.SearchSubagent_Execute tool zh).
Proof.
  split.
  - run_search ltac:(unfold AgentEN.SearchSubagent_Execute, AgentEN.web_search,
                       AgentEN.review).
    all: split; [solve [trace_shape]|].
    all: break_trace; finish_trace.
  - run_search ltac:(unfold AgentZH.SearchSubagent_Execute, AgentZH.web_search,
                       AgentZH.review).
    all: split; [solve [trace_shape]|].
    all: break_trace; finish_trace.
Qed.

(** C5.  In both listings Tavily is searched first; when it succeeded, a
    present handler reviews its results right away; if the reviewer asks
    for more, a second search with a limit between 50 and 100 is made next;
    its results replace the first ones if it succeeds and the first ones
    are kept if it fails; otherwise no second search is made. *)
Theorem search_more_results
    (en : AgentEN.SearchSubagent) (zh : AgentZH.SearchSubagent) :
  more_results_spec (AgentEN.search_interactionHandler en)
    AgentEN.with_wikipedia (AgentEN.SearchSubagent_Execute tool en) /\
  more_results_spec (AgentZH.search_interactionHandler zh)
    AgentZH.with_wikipedia (AgentZH.SearchSubagent_Execute tool zh).
Proof.
  split.
  - run_search ltac:(unfold AgentEN.SearchSubagent_Execute, AgentEN.web_search,
                       AgentEN.review, AgentEN.more_limit).
    all: split; [solve [trace_shape]|].
    all: break_trace; finish_trace.
  - run_search ltac:(unfold AgentZH.SearchSubagent_Execute, AgentZH.web_search,
                       AgentZH.review, AgentZH.more_limit).
    all: split; [solve [trace_shape]|].
    all: break_trace; finish_trace.
Qed.

(** How a run ends: the failure after two failed searches, or the
    kept result with the Wikipedia answer [found], [none] being the facts
    about the listing's concatenation. *)
Ltac run_end found none :=
  eexists _, _; split; [reflexivity|]; cbv iota;
  first
    [ solve [ split; [do 2 eexists; simpl; eauto 10|];
              split; [do 2 eexists; simpl; eauto 10|];
              intros q ans H; simpl in H;
              repeat (destruct H as [H|H]; [discriminate H|]); exact H ]
    | match goal with
      | |- context [Build_Result _ _ (?f ?k ?r ?e)] => eexists _, k, r, e
      end;
      repeat split;
      [ simpl; first [ left; left; reflexivity | right; right; left; reflexivity
                     | right; left; reflexivity | eauto 10 ]
      | first [ left; reflexivity | right; eexists; simpl; eauto 10 ]
      | simpl; eauto 10
      | simpl; intros; subst; now apply found
      | simpl; intros; now apply none ] ].

(** C6, as amended.  In both listings a run either fails, after both
    searches failed and without a Wikipedia search, or keeps a web result,
    from Tavily or from DuckDuckGo, and then has searched Wikipedia as
    well; a non-empty Wikipedia answer is appended to the kept result; the
    two headings are "Web Search Results:" and "Wikipedia Results:" in the
    English listing and their Chinese counterparts in the Chinese one. *)
Theorem search_wikipedia
    (en : AgentEN.SearchSubagent) (zh : AgentZH.SearchSubagent) :
  wikipedia_spec "Web Search Results:" "Wikipedia Results:"
    (AgentEN.SearchSubagent_Execute tool en) /\
  wikipedia_spec "网络搜索结果:" "维基百科结果:"
    (AgentZH.SearchSubagent_Execute tool zh).
Proof.
  split.
  - run_search ltac:(unfold AgentEN.SearchSubagent_Execute, AgentEN.web_search,
                       AgentEN.review).
    all: split;
      [solve [run_end EN_with_wikipedia_found EN_with_wikipedia_none]|].
    all: break_trace; try congruence.
    all: pick_kept EN_with_wikipedia_found EN_with_wikipedia_none.
  - run_search ltac:(unfold AgentZH.SearchSubagent_Execute, AgentZH.web_search,
                       AgentZH.review).
    all: split;
      [solve [run_end ZH_with_wikipedia_found ZH_with_wikipedia_none]|].
    all: break_trace; try congruence.
    all: pick_kept ZH_with_wikipedia_found ZH_with_wikipedia_none.
Qed.

End SearchFacts.

(** In [Ht : t = pre ++ EvTavilySearch q tavily :: post], with [t] the
    trace of a scripted run that starts with the Tavily search and [pre]
    progress lines only: [pre] is empty, [tavily] and [post] are read off. *)
Ltac tavily_at_head pre Ht Hpre :=
  destruct pre as [|? pre];
  [ cbn [app] in Ht; vm_compute in Ht; injection Ht as <- <-
  | exfalso; destruct (Forall_inv Hpre) as [? ->]; vm_compute in Ht;
    discriminate Ht ].

(** The same for a run that logs one progress line before the search. *)
Ltac tavily_after_line pre Ht Hpre :=
  destruct pre as [|? [|? pre]];
  [ exfalso; vm_compute in Ht; discriminate Ht
  | cbn [app] in Ht; vm_compute in Ht; injection Ht as _ <- <-
  | exfalso; destruct (Forall_inv (Forall_inv_tail Hpre)) as [? ->];
    vm_compute in Ht; discriminate Ht ].

Lemma search_fallback_witness :
  let en_down := exec (AgentEN.SearchSubagent_Execute both_down (en_search None)
                         (search_task "go")) tt in
  let zh_down := exec (AgentZH.SearchSubagent_Execute both_down (zh_search None)
                         (search_task "go")) tt in
  let zh_fallback :=
    exec (AgentZH.SearchSubagent_Execute tavily_down (zh_search None)
            (search_task "go")) tt in
  (exists result,
      en_down.1 = Some (result, Some "ddg: timeout") /\
      Success result = false /\ Error result = "ddg: timeout") /\
  (exists result,
      zh_down.1 = Some (result, Some "ddg: timeout") /\
      Success result = false /\ Error result = "ddg: timeout") /\
  (In (EvDuckDuckGoSearch "go" ("ddg", None)) (trace zh_fallback.2) /\
   exists result, zh_fallback.1 = Some (result, None) /\ Success result = true).
Proof.
  cbv zeta. split; [|split].
  - destruct (proj1 (proj1 (search_fallback both_down (en_search None)
                              (zh_search None)) (search_task "go") tt))
      as (tavily & post & (pre & Ht & Hpre) & Hcase).
    tavily_at_head pre Ht Hpre. cbn [snd] in Hcase.
    destruct Hcase as (ddg & post' & Hpost & Hddg).
    injection Hpost as <- <-. cbn [snd] in Hddg.
    destruct Hddg as (_ & result & Hr & Hs & He). now exists result.
  - destruct (proj1 (proj2 (search_fallback both_down (en_search None)
                              (zh_search None)) (search_task "go") tt))
      as (tavily & post & (pre & Ht & Hpre) & Hcase).
    tavily_at_head pre Ht Hpre. cbn [snd] in Hcase.
    destruct Hcase as (ddg & post' & Hpost & Hddg).
    injection Hpost as <- <-. cbn [snd] in Hddg.
    destruct Hddg as (_ & result & Hr & Hs & He). now exists result.
  - destruct (proj1 (proj2 (search_fallback tavily_down (en_search None)
                              (zh_search None)) (search_task "go") tt))
      as (tavily & post & (pre & Ht & Hpre) & Hcase).
    tavily_at_head pre Ht Hpre. cbn [snd] in Hcase.
    destruct Hcase as (ddg & post' & Hpost & Hddg).
    injection Hpost as <- <-. cbn [snd] in Hddg.
    destruct Hddg as (result & Hr & Hs).
    split; [vm_compute; right; left; reflexivity|]. now exists result.
Defined.

Lemma search_more_results_witness :
  let run_en := exec (AgentEN.SearchSubagent_Execute all_up
                        (en_search (Some eager_reviewer)) (search_task "go"))
                  tt in
  let run_zh := exec (AgentZH.SearchSubagent_Execute all_up
                        (zh_search (Some eager_reviewer)) (search_task "go"))
                  tt in
  (exists limit result,
      In (EvTavilySearchWithLimit "go" limit ("more", None)) (trace run_en.2) /\
      50 <= limit <= 100 /\
      run_en.1 = Some (result, None) /\
      Output result = AgentEN.with_wikipedia "more" "wiki" None) /\
  (exists limit result,
      In (EvTavilySearchWithLimit "go" limit ("more", None)) (trace run_zh.2) /\
      50 <= limit <= 100 /\
      run_zh.1 = Some (result, None) /\
      Output result = AgentZH.with_wikipedia "more" "wiki" None).
Proof.
  cbv zeta. split.
  - destruct (proj1 (proj1 (search_more_results all_up
                              (en_search (Some eager_reviewer))
                              (zh_search (Some eager_reviewer)))
                       (search_task "go") tt))
      as (tavily & post & (pre & Ht & Hpre) & Hcase).
    tavily_at_head pre Ht Hpre.
    destruct (Hcase "web" eq_refl) as (review & post' & Hpost & Hmore & _).
    injection Hpost as <- <-.
    destruct (Hmore eq_refl)
      as (limit & more & wiki & post'' & result & Hpost' & Hl & Hr & Ho).
    injection Hpost' as <- <- <- <-.
    exists 100, result. split; [vm_compute; do 2 right; left; reflexivity|].
    split; [exact Hl|]. split; [exact Hr|exact Ho].
  - destruct (proj1 (proj2 (search_more_results all_up
                              (en_search (Some eager_reviewer))
                              (zh_search (Some eager_reviewer)))
                       (search_task "go") tt))
      as (tavily & post & (pre & Ht & Hpre) & Hcase).
    tavily_after_line pre Ht Hpre.
    destruct (Hcase "web" eq_refl) as (review & post' & Hpost & Hmore & _).
    injection Hpost as <- <-.
    destruct (Hmore eq_refl)
      as (limit & more & wiki & post'' & result & Hpost' & Hl & Hr & Ho).
    injection Hpost' as <- <- <- <-.
    exists 50, result. split; [vm_compute; do 3 right; left; reflexivity|].
    split; [exact Hl|]. split; [exact Hr|exact Ho].
Defined.

Lemma search_wikipedia_witness :
  let run_en := exec (AgentEN.SearchSubagent_Execute tavily_down (en_search None)
                        (search_task "go")) tt in
  let run_zh := exec (AgentZH.SearchSubagent_Execute all_up (zh_search None)
                        (search_task "go")) tt in
  (In (EvDuckDuckGoSearch "go" ("ddg", None)) (trace run_en.2) /\
   exists kept wikiResult wikiErr result,
     (kept = "ddg" \/
      exists limit,
        In (EvTavilySearchWithLimit "go" limit (kept, None)) (trace run_en.2)) /\
     In (EvWikipediaSearch "go" (wikiResult, wikiErr)) (trace run_en.2) /\
     run_en.1 = Some (result, None) /\
     Success result = true /\
     (wikiErr = None -> wikiResult <> EmptyString ->
      Output result = "Web Search Results:" +:+ LF +:+ kept +:+ LF +:+ LF
                      +:+ "Wikipedia Results:" +:+ LF +:+ wikiResult) /\
     (wikiErr <> None \/ wikiResult = EmptyString -> Output result = kept)) /\
  (In (EvTavilySearch "go" ("web", None)) (trace run_zh.2) /\
   exists kept wikiResult wikiErr result,
     (kept = "web" \/
      exists limit,
        In (EvTavilySearchWithLimit "go" limit (kept, None)) (trace run_zh.2)) /\
     In (EvWikipediaSearch "go" (wikiResult, wikiErr)) (trace run_zh.2) /\
     run_zh.1 = Some (result, None) /\
     Success result = true /\
     (wikiErr = None -> wikiResult <> EmptyString ->
      Output result = "网络搜索结果:" +:+ LF +:+ kept +:+ LF +:+ LF +:+ "维基百科结果:"
                      +:+ LF +:+ wikiResult) /\
     (wikiErr <> None \/ wikiResult = EmptyString -> Output result = kept)).
Proof.
  cbv zeta.
  assert (Hen : In (EvDuckDuckGoSearch "go" ("ddg", None))
                  (trace (exec (AgentEN.SearchSubagent_Execute tavily_down
                                  (en_search None) (search_task "go")) tt).2)).
  { vm_compute. right. left. reflexivity. }
  assert (Hzh : In (EvTavilySearch "go" ("web", None))
                  (trace (exec (AgentZH.SearchSubagent_Execute all_up
                                  (zh_search None) (search_task "go")) tt).2)).
  { vm_compute. left. reflexivity. }
  split.
  - split; [exact Hen|].
    exact (proj2 (proj1 (search_wikipedia tavily_down (en_search None)
                           (zh_search None)) (search_task "go") tt)
             "ddg" (or_intror Hen)).
  - split; [exact Hzh|].
    exact (proj2 (proj2 (search_wikipedia all_up (en_search None)
                           (zh_search None)) (search_task "go") tt)
             "web" (or_introl Hzh)).
Defined.

(** C6 as stated fails in three ways.  On the Chinese listing the headings
    are not the English ones.  When both searches fail, Wikipedia is not
    searched at all.  And a Wikipedia answer that comes with an error is
    not appended, even if it is not empty. *)
Lemma search_wikipedia_headings_differ :
  let run := exec (AgentZH.SearchSubagent_Execute all_up (zh_search None)
                     (search_task "go")) tt in
  let failed_run :=
    exec (AgentEN.SearchSubagent_Execute both_down (en_search None)
            (search_task "go")) tt in
  let partial_run :=
    exec (AgentEN.SearchSubagent_Execute wikipedia_down (en_search None)
            (search_task "go")) tt in
  (In (EvTavilySearch "go" ("web", None)) (trace run.2) /\
   In (EvWikipediaSearch "go" ("wiki", None)) (trace run.2) /\
   exists result,
     run.1 = Some (result, None) /\
     Output result =
       "网络搜索结果:" +:+ LF +:+ "web" +:+ LF +:+ LF +:+ "维基百科结果:" +:+ LF +:+ "wiki" /\
     Output result <>
       "Web Search Results:" +:+ LF +:+ "web" +:+ LF +:+ LF +:+ "Wikipedia Results:"
       +:+ LF +:+ "wiki") /\
  (trace failed_run.2
   = [ EvTavilySearch "go" (EmptyString, Some "tavily: missing key");
       EvDuckDuckGoSearch "go" (EmptyString, Some "ddg: timeout") ] /\
   forall q ans, ~ In (EvWikipediaSearch q ans) (trace failed_run.2)) /\
  (In (EvWikipediaSearch "go" ("partial", Some "wikipedia: rate limited"))
      (trace partial_run.2) /\
   exists result,
     partial_run.1 = Some (result, None) /\
     Output result = "web" /\
     Output result <>
       "Web Search Results:" +:+ LF +:+ "web" +:+ LF +:+ LF +:+ "Wikipedia Results:"
       +:+ LF +:+ "partial").
Proof.
  vm_compute. split; [|split].
  - split; [now left|]. split; [now (right; left)|].
    eexists. split; [reflexivity|]. split; [reflexivity|]. discriminate.
  - split; [reflexivity|].
    intros q ans [H|[H|[]]]; discriminate H.
  - split; [now (right; left)|].
    eexists. split; [reflexivity|]. split; [reflexivity|]. discriminate.
Qed.

(** ** Strings *)

Lemma append_cons (c : ascii) (s t : string) :
  String c s +:+ t = String c (s +:+ t).
Proof. reflexivity. Qed.

Lemma append_nil (t : string) : EmptyString +:+ t = t.
Proof. reflexivity. Qed.

Lemma append_assoc (s t u : string) : (s +:+ t) +:+ u = s +:+ t +:+ u.
Proof. induction s as [|c s IH]; [reflexivity|]. rewrite !append_cons. now f_equal. Qed.

Lemma length_append (s t : string) :
  String.length (s +:+ t) = (String.length s + String.length t)%nat.
Proof.
  induction s as [|c s IH]; [reflexivity|].
  rewrite append_cons. cbn [String.length]. now rewrite IH.
Qed.

Lemma slice_from_app (h s : string) :
  slice_from (String.length h) (h +:+ s) = s.
Proof.
  induction h as [|c h IH]; [reflexivity|].
  rewrite append_cons. exact IH.
Qed.

Lemma index_first_newline (h body : string) :
  one_line h ->
  String.index 0 LF (h +:+ LF +:+ body) = Some (String.length h).
Proof.
  unfold one_line, LF. induction h as [|c h IH]; intros Hh.
  - rewrite append_nil, append_cons, append_nil.
    cbn [String.index String.prefix].
    destruct (ascii_dec "010"%char "010"%char); [|congruence].
    now destruct body.
  - rewrite append_cons.
    cbn [String.index String.prefix list_ascii_of_string String.length] in *.
    destruct (ascii_dec "010"%char c) as [<-|Hc].
    + exfalso. apply Hh. now left.
    + rewrite IH; [reflexivity|]. intros Hin. apply Hh. now right.
Qed.

Lemma prefix_app (p s : string) : String.prefix p (p +:+ s) = true.
Proof.
  induction p as [|c p IH].
  - now destruct s.
  - rewrite append_cons. cbn [String.prefix].
    destruct (ascii_dec c c); [exact IH|congruence].
Qed.

Lemma index_prefix (c : ascii) (p s : string) :
  strings_Index (String c p +:+ s) (String c p) = 0.
Proof.
  unfold strings_Index. rewrite append_cons. cbn [String.index].
  rewrite <- append_cons, prefix_app. reflexivity.
Qed.

Lemma after_first_newline_header (h body : string) :
  one_line h -> AgentZH.after_first_newline (h +:+ LF +:+ body) = body.
Proof.
  intros Hh. unfold AgentZH.after_first_newline, strings_Index.
  rewrite index_first_newline by assumption.
  replace (Z.of_nat (String.length h) =? -1) with false by (symmetry; apply Z.eqb_neq; lia).
  simpl negb. cbv iota.
  replace (Z.to_nat (Z.of_nat (String.length h) + 1)) with (String.length (h +:+ LF)).
  - replace (h +:+ LF +:+ body) with ((h +:+ LF) +:+ body).
    + apply slice_from_app.
    + apply append_assoc.
  - rewrite length_append. simpl. lia.
Qed.

Lemma after_output_header_header (h body : string) :
  one_line h ->
  AgentZH.after_output_header ("Output from " +:+ h +:+ LF +:+ body) = body.
Proof.
  intros Hh.
  assert (H1 : one_line ("Output from " +:+ h)).
  { unfold one_line in *. simpl. intros Hin.
    repeat (destruct Hin as [Hin|Hin]; [discriminate Hin|]). now apply Hh. }
  unfold AgentZH.after_output_header.
  rewrite index_prefix.
  change (Z.to_nat 0) with O. cbn [slice_from Z.eqb negb].
  unfold strings_Index.
  change ("Output from " +:+ h +:+ LF +:+ body) with (("Output from " +:+ h) +:+ LF +:+ body).
  rewrite index_first_newline by assumption.
  replace (Z.of_nat (String.length ("Output from " +:+ h)) =? -1) with false
    by (symmetry; apply Z.eqb_neq; lia).
  cbn [negb].
  replace (Z.to_nat (0 + Z.of_nat (String.length ("Output from " +:+ h)) + 1))
    with (String.length (("Output from " +:+ h) +:+ LF)).
  - replace (("Output from " +:+ h) +:+ LF +:+ body)
      with ((("Output from " +:+ h) +:+ LF) +:+ body).
    + apply slice_from_app.
    + apply append_assoc.
  - rewrite length_append. simpl String.length. lia.
Qed.

Section AnalysisFacts.
Context {W : Type}.

Lemma EN_analysis_sends (a : AgentEN.AnalysisSubagent) (task : Task) (w : W) :
  prompts_sent (trace (exec (AgentEN.AnalysisSubagent_Execute a task) w).2)
  = [AgentEN.AnalysisSubagent_prompt task].
Proof.
  unfold exec, AgentEN.AnalysisSubagent_Execute, first_choice, failed, bind, call, ret, panic; simpl.
  repeat (step_run; simpl); reflexivity.
Qed.

Lemma ZH_analysis_sends (a : AgentZH.AnalysisSubagent) (task : Task) (w : W) :
  prompts_sent (trace (exec (AgentZH.AnalysisSubagent_Execute a task) w).2)
  = [AgentZH.AnalysisSubagent_prompt task].
Proof.
  unfold exec, AgentZH.AnalysisSubagent_Execute, first_choice, LogIfPresent, failed, bind, call, ret, panic; simpl.
  repeat (step_run; simpl); reflexivity.
Qed.

End AnalysisFacts.

(** ** The render subagent *)

Lemma find_report_take (ctxContent : list string) (n : nat) :
  (n <= length ctxContent)%nat ->
  AgentZH.find_report n ctxContent =
  option_map AgentZH.after_first_newline
    (find (fun entry => strings_Contains entry "Output from REPORT task:")
          (rev (take n ctxContent))).
Proof.
  induction n as [|i IH]; intros Hn; [reflexivity|].
  destruct (lookup_lt_is_Some_2 ctxContent i ltac:(lia)) as [entry He].
  cbn [AgentZH.find_report]. rewrite He.
  rewrite (take_S_r _ _ _ He), rev_app_distr. cbn [rev app find].
  destruct (strings_Contains entry "Output from REPORT task:"); [reflexivity|].
  apply IH. lia.
Qed.

Lemma find_report_rev (ctxContent : list string) :
  AgentZH.find_report (length ctxContent) ctxContent =
  option_map AgentZH.after_first_newline
    (find (fun entry => strings_Contains entry "Output from REPORT task:")
          (rev ctxContent)).
Proof.
  rewrite find_report_take by lia. now rewrite firstn_all.
Qed.

Lemma last_rev (l : list string) (d : string) :
  List.last l d = match rev l with x :: _ => x | [] => d end.
Proof.
  destruct (rev l) as [|x r] eqn:E.
  - apply (f_equal (@rev string)) in E. rewrite rev_involutive in E. now subst.
  - apply (f_equal (@rev string)) in E. rewrite rev_involutive in E. subst.
    cbn [rev]. apply last_last.
Qed.

Lemma index_line_feed (s : string) :
  match String.index 0 LF s with
  | Some n => after_first_line s = Some (slice_from (S n) s)
  | None => after_first_line s = None
  end.
Proof.
  unfold LF. induction s as [|c s IH]; [reflexivity|].
  cbn [String.index String.prefix after_first_line slice_from].
  destruct (ascii_dec "010"%char c) as [<-|Hc].
  - rewrite Ascii.eqb_refl. now destruct s.
  - destruct (Ascii.eqb_spec c "010"%char) as [->|_]; [contradiction|].
    destruct (String.index 0 (String "010"%char EmptyString) s); exact IH.
Qed.

Lemma index_marker (marker s : string) :
  match String.index 0 marker s with
  | Some n => from_marker marker s = Some (slice_from n s)
  | None => from_marker marker s = None
  end.
Proof.
  induction s as [|c s IH].
  - now destruct marker.
  - cbn [String.index from_marker].
    destruct (String.prefix marker (String c s)); [reflexivity|].
    destruct (String.index 0 marker s); exact IH.
Qed.

Lemma slice_from_add (a b : nat) (s : string) :
  slice_from (a + b) s = slice_from b (slice_from a s).
Proof.
  revert s. induction a as [|a IH]; intros s; [reflexivity|].
  destruct s as [|c s]; cbn [Nat.add slice_from]; [now destruct b|apply IH].
Qed.

(** The slicing of the listing removes what the amended wording says. *)
Lemma after_first_newline_body (entry : string) :
  AgentZH.after_first_newline entry = spec_report_body entry.
Proof.
  unfold AgentZH.after_first_newline, spec_report_body, strings_Index.
  pose proof (index_line_feed entry) as H.
  destruct (String.index 0 LF entry) as [n|]; rewrite H.
  - replace (Z.of_nat n =? -1) with false by (symmetry; apply Z.eqb_neq; lia).
    cbn [negb]. f_equal. lia.
  - reflexivity.
Qed.

Lemma after_output_header_body (entry : string) :
  AgentZH.after_output_header entry = spec_output_body entry.
Proof.
  unfold AgentZH.after_output_header, spec_output_body, strings_Index.
  pose proof (index_marker "Output from " entry) as H.
  destruct (String.index 0 "Output from " entry) as [n|]; rewrite H;
    [|reflexivity].
  replace (Z.of_nat n =? -1) with false by (symmetry; apply Z.eqb_neq; lia).
  cbn [negb]. rewrite Nat2Z.id.
  pose proof (index_line_feed (slice_from n entry)) as H'.
  destruct (String.index 0 LF (slice_from n entry)) as [k|]; rewrite H';
    [|reflexivity].
  replace (Z.of_nat k =? -1) with false by (symmetry; apply Z.eqb_neq; lia).
  cbn [negb].
  replace (Z.to_nat (Z.of_nat n + Z.of_nat k + 1)) with (n + S k)%nat by lia.
  apply slice_from_add.
Qed.

Lemma ZH_render_content (task : Task) :
  AgentZH.RenderSubagent_content task = spec_render_content task.
Proof.
  unfold AgentZH.RenderSubagent_content, spec_render_content,
    assert_string, assert_strings.
  destruct (Parameters task !! "content") as [[| s | l | t]|];
    try reflexivity;
    (destruct (Parameters task !! "context") as [[| s' | [|e l'] | t']|];
     try reflexivity;
     change (0 <? length (e :: l'))%nat with true; cbn [andb];
     rewrite find_report_rev, last_rev; cbv zeta;
     destruct (find _ (rev (e :: l'))); cbn [option_map];
     [now rewrite after_first_newline_body|];
     rewrite after_output_header_body;
     destruct (rev (e :: l')) eqn:E; [|reflexivity];
     apply (f_equal (@length string)) in E; rewrite length_rev in E;
     discriminate E).
Qed.

Lemma EN_render_content (task : Task) :
  AgentEN.RenderSubagent_content task =
  match Parameters task !! "content" with
  | Some (AnyString content) => content
  | _ => Description task
  end.
Proof.
  unfold AgentEN.RenderSubagent_content, assert_string.
  now destruct (Parameters task !! "content") as [[| s | l | t]|].
Qed.

Section PromptAndContentFacts.

Context {W : Type} (md : Renderers).

(** C7, as amended.  The user prompt of the one chat request of an analysis
    task: for a context that is a non-empty sequence of strings the Chinese
    listing sends its Chinese preamble, the description, a colon, a blank
    line and the entries joined by blank lines, while the English listing,
    which reads the context as a single string, sends the description; for
    a context that is a single string it is the other way round, with the
    preamble "Analyze the following information and "; in every other case
    both send the description verbatim. *)
Theorem analysis_prompt
    (en : AgentEN.AnalysisSubagent) (zh : AgentZH.AnalysisSubagent)
    (task : Task) (w : W) :
  let sent_en :=
    prompts_sent (trace (exec (AgentEN.AnalysisSubagent_Execute en task) w).2) in
  let sent_zh :=
    prompts_sent (trace (exec (AgentZH.AnalysisSubagent_Execute zh task) w).2) in
  (forall entries,
      Parameters task !! "context" = Some (AnyStrings entries) ->
      entries <> [] ->
      sent_zh = ["分析以下信息并 " +:+ Description task +:+ ":" +:+ LF +:+ LF
                 +:+ strings_Join entries (LF +:+ LF)] /\
      sent_en = [Description task]) /\
  (forall context_data,
      Parameters task !! "context" = Some (AnyString context_data) ->
      sent_en = ["Analyze the following information and " +:+ Description task
                 +:+ ":" +:+ LF +:+ LF +:+ context_data] /\
      sent_zh = [Description task]) /\
  ((forall entries,
       Parameters task !! "context" = Some (AnyStrings entries) -> entries = []) ->
   (forall context_data,
       Parameters task !! "context" <> Some (AnyString context_data)) ->
   sent_en = [Description task] /\ sent_zh = [Description task]).
Proof.
  cbv zeta. rewrite EN_analysis_sends, ZH_analysis_sends.
  unfold AgentEN.AnalysisSubagent_prompt, AgentZH.AnalysisSubagent_prompt,
    assert_string, assert_strings.
  split; [|split].
  - intros entries Hctx Hne. rewrite Hctx.
    destruct entries; [contradiction|]. split; reflexivity.
  - intros context_data Hctx. rewrite Hctx. split; reflexivity.
  - intros Hseq Hstr.
    destruct (Parameters task !! "context") as [[| s | l | t]|];
      try (split; reflexivity).
    + now destruct (Hstr s).
    + rewrite (Hseq l eq_refl). split; reflexivity.
Qed.

(** C8, as amended.  The content that the render subagent renders.  In the
    Chinese listing it is [parameters.content] if that is a string; else,
    for a non-empty context, the most recent entry that contains "Output
    from REPORT task:" without everything up to and including its first
    line feed (the whole entry if it has none), or else the last entry
    without everything up to and including the first line feed after the
    first "Output from " (the whole entry if there is no such line feed),
    in both cases trimmed of white space at both ends; else the
    description.  In the English listing it is [parameters.content] if that
    is a string and the description otherwise.  For an entry that starts
    with its header line, the slicing removes exactly that line. *)
Theorem render_content_resolution
    (en : AgentEN.RenderSubagent) (zh : AgentZH.RenderSubagent)
    (task : Task) (w : W) :
  AgentZH.RenderSubagent_content task = spec_render_content task /\
  AgentEN.RenderSubagent_content task =
    match Parameters task !! "content" with
    | Some (AnyString content) => content
    | _ => Description task
    end /\
  (exists result,
      (exec (AgentZH.RenderSubagent_Execute md zh task) w).1 = Some (result, None) /\
      Success result = true /\
      Output result =
        if AgentZH.render_renderHTML zh
        then gomarkdown_Render md (spec_render_content task)
        else markdown_Render md (spec_render_content task) 80 6) /\
  (exists result,
      (exec (AgentEN.RenderSubagent_Execute md en task) w).1 = Some (result, None) /\
      Success result = true /\
      Output result = markdown_Render md (AgentEN.RenderSubagent_content task) 80 6) /\
  (forall header body,
      one_line header ->
      spec_report_body (header +:+ LF +:+ body) = body /\
      AgentZH.after_first_newline (header +:+ LF +:+ body) = body) /\
  (forall header body,
      one_line header ->
      spec_output_body ("Output from " +:+ header +:+ LF +:+ body) = body /\
      AgentZH.after_output_header ("Output from " +:+ header +:+ LF +:+ body)
      = body).
Proof.
  split; [apply ZH_render_content|].
  split; [apply EN_render_content|].
  split.
  { rewrite <- ZH_render_content.
    unfold exec, AgentZH.RenderSubagent_Execute, LogIfPresent, bind, call, ret.
    destruct (AgentZH.render_interactionHandler zh); simpl;
      eexists; repeat split; reflexivity. }
  split.
  { unfold exec, AgentEN.RenderSubagent_Execute, ret. simpl.
    eexists; repeat split; reflexivity. }
  split.
  - intros header body Hone. rewrite <- after_first_newline_body.
    split; now apply after_first_newline_header.
  - intros header body Hone. rewrite <- after_output_header_body.
    split; now apply after_output_header_header.
Qed.

End PromptAndContentFacts.

Lemma analysis_prompt_witness :
  prompts_sent (trace (exec (AgentZH.AnalysisSubagent_Execute zh_analysis
                               (analysis_task (AnyStrings ["a"; "b"]))) tt).2)
  = ["分析以下信息并 compare the two:" +:+ LF +:+ LF +:+ "a" +:+ LF +:+ LF +:+ "b"] /\
  prompts_sent (trace (exec (AgentEN.AnalysisSubagent_Execute en_analysis
                               (analysis_task (AnyString "a"))) tt).2)
  = ["Analyze the following information and compare the two:" +:+ LF +:+ LF +:+ "a"] /\
  prompts_sent (trace (exec (AgentEN.AnalysisSubagent_Execute en_analysis
                               (analysis_task (AnyOther 0))) tt).2)
  = ["compare the two"].
Proof.
  split; [|split].
  - refine (proj1 (proj1 (analysis_prompt en_analysis zh_analysis
                            (analysis_task (AnyStrings ["a"; "b"])) tt)
                     ["a"; "b"] _ _)); [reflexivity|discriminate].
  - refine (proj1 (proj1 (proj2 (analysis_prompt en_analysis zh_analysis
                                   (analysis_task (AnyString "a")) tt))
                     "a" _)); reflexivity.
  - refine (proj1 (proj2 (proj2 (analysis_prompt en_analysis zh_analysis
                                   (analysis_task (AnyOther 0)) tt)) _ _)).
    + intros entries H. vm_compute in H. discriminate H.
    + intros context_data H. vm_compute in H. discriminate H.
Defined.

(** C7 as stated fails on both listings: for a context of two entries the
    Chinese listing sends a Chinese preamble and the English listing sends
    the bare description. *)
Lemma analysis_prompt_not_as_stated :
  let task := analysis_task (AnyStrings ["a"; "b"]) in
  let sent_en :=
    prompts_sent (trace (exec (AgentEN.AnalysisSubagent_Execute en_analysis task) tt).2) in
  let sent_zh :=
    prompts_sent (trace (exec (AgentZH.AnalysisSubagent_Execute zh_analysis task) tt).2) in
  sent_zh = ["分析以下信息并 compare the two:" +:+ LF +:+ LF +:+ "a" +:+ LF +:+ LF +:+ "b"] /\
  sent_en = ["compare the two"] /\
  sent_zh <> [spec_analysis_prompt task ["a"; "b"]] /\
  sent_en <> [spec_analysis_prompt task ["a"; "b"]].
Proof. vm_compute. repeat split; discriminate. Qed.

Lemma render_content_resolution_witness :
  one_line "Output from REPORT task:" /\
  AgentZH.after_first_newline ("Output from REPORT task:" +:+ LF +:+ "# Title")
  = "# Title" /\
  one_line "SEARCH task:" /\
  AgentZH.after_output_header ("Output from " +:+ "SEARCH task:" +:+ LF +:+ "hits")
  = "hits" /\
  AgentZH.RenderSubagent_content render_task = "# Title" /\
  AgentZH.RenderSubagent_content (render_of notes_before_header) = "hits".
Proof.
  assert (H1 : one_line "Output from REPORT task:").
  { unfold one_line. vm_compute. intros H.
    repeat (destruct H as [H|H]; [discriminate H|]). exact H. }
  assert (H2 : one_line "SEARCH task:").
  { unfold one_line. vm_compute. intros H.
    repeat (destruct H as [H|H]; [discriminate H|]). exact H. }
  pose proof (render_content_resolution
                {| markdown_Render := fun s _ _ => s; gomarkdown_Render := fun s => s |}
                {| AgentEN.render_verbose := false |}
                {| AgentZH.render_verbose := false; AgentZH.render_renderHTML := false;
                   AgentZH.render_interactionHandler := None |}
                render_task tt) as (Hzh & _ & _ & _ & Ha & Hb).
  pose proof (render_content_resolution
                {| markdown_Render := fun s _ _ => s; gomarkdown_Render := fun s => s |}
                {| AgentEN.render_verbose := false |}
                {| AgentZH.render_verbose := false; AgentZH.render_renderHTML := false;
                   AgentZH.render_interactionHandler := None |}
                (render_of notes_before_header) tt) as (Hnotes & _).
  split; [exact H1|]. split; [exact (proj2 (Ha _ _ H1))|].
  split; [exact H2|]. split; [exact (proj2 (Hb _ _ H2))|].
  split.
  - rewrite Hzh. vm_compute. reflexivity.
  - rewrite Hnotes. vm_compute. reflexivity.
Defined.

(** C8 as stated fails in four ways.  The report handed on by the
    orchestrator ends in a newline, which the Chinese listing trims away.
    The English listing does not read the context at all.  A report of a
    single line is rendered whole, header included.  And where the header
    of the last entry comes after other text, that text is removed with
    it. *)
Lemma render_content_not_as_stated :
  (stated_render_content render_task = "# Title" +:+ LF /\
   AgentZH.RenderSubagent_content render_task = "# Title" /\
   AgentZH.RenderSubagent_content render_task
   <> stated_render_content render_task) /\
  (AgentEN.RenderSubagent_content render_task = "render the report" /\
   AgentEN.RenderSubagent_content render_task
   <> stated_render_content render_task) /\
  (stated_render_content (render_of one_line_report) = EmptyString /\
   AgentZH.RenderSubagent_content (render_of one_line_report)
   = "Output from REPORT task: # Title" /\
   strings_Contains (AgentZH.RenderSubagent_content (render_of one_line_report))
     "Output from REPORT task:" = true) /\
  (stated_render_content (render_of notes_before_header)
   = "notes" +:+ LF +:+ "hits" /\
   AgentZH.RenderSubagent_content (render_of notes_before_header) = "hits").
Proof. vm_compute. repeat split; discriminate. Qed.

(** ** The tool loop *)

Lemma chats_app (t1 t2 : list Event) : chats (t1 ++ t2) = chats t1 ++ chats t2.
Proof. apply flat_map_app. Qed.

Section QuietFacts.

Context {W : Type}.

Lemma quiet_ret {A} (a : A) : quiet (@ret W A a).
Proof.
  intros s. exists a, [], (world s). rewrite app_nil_r. now destruct s.
Qed.

Lemma quiet_call {A} (e : A -> Event) (f : W -> A * W) :
  (forall a, chats [e a] = []) -> quiet (call e f).
Proof.
  intros He s. unfold call. destruct (f (world s)) as [a w'].
  exists a, [e a], w'. auto.
Qed.

Lemma quiet_bind {A B} (m : M W A) (k : A -> M W B) :
  quiet m -> (forall a, quiet (k a)) -> quiet (bind m k).
Proof.
  intros Hm Hk s. destruct (Hm s) as (a & new & w' & E & Hn).
  destruct (Hk a {| world := w'; trace := trace s ++ new |})
    as (b & new' & w'' & E' & Hn').
  exists b, (new ++ new'), w''. unfold bind. rewrite E, E'. cbn [trace].
  rewrite app_assoc, chats_app, Hn, Hn'. auto.
Qed.

End QuietFacts.

Ltac quiet_step :=
  first
    [ apply quiet_ret
    | apply quiet_call; intros; reflexivity
    | apply quiet_bind; [|intros]
    | match goal with
      | |- quiet (match ?x with _ => _ end) => destruct x
      | |- quiet (if ?x then _ else _) => destruct x
      | |- quiet (let '(_, _) := ?x in _) => destruct x
      end ].

Section RunnerFacts.

Context {W : Type} (os : OS W) (tool : ToolPkg W) (env : RunnerEnv W).

Lemma RunPythonScript_quiet scriptPath args :
  quiet (RunPythonScript os scriptPath args).
Proof.
  unfold RunPythonScript, run_with, LookPath, Run. repeat quiet_step.
Qed.

Lemma executeToolCall_quiet toolCall scriptMap skillPath :
  quiet (executeToolCall os tool env toolCall scriptMap skillPath).
Proof.
  unfold executeToolCall, resolve_read_path.
  repeat first [ apply RunPythonScript_quiet | quiet_step ].
Qed.

(** A tool call appends exactly one tool-role message, which bears the id
    of the call; it never ends the loop and asks for no chat completion. *)
Lemma handle_tool_call_run cfg scriptMap skill messages tc (s : St W) :
  exists content new w',
    handle_tool_call os tool env cfg scriptMap skill messages tc s =
      (Some (messages ++ [tool_message tc content]),
       {| world := w'; trace := trace s ++ new |}) /\
    chats new = [].
Proof.
  assert (Hrun : forall s : St W,
             exists content new w',
               run_tool_call os tool env scriptMap skill messages tc s =
                 (Some (messages ++ [tool_message tc content]),
                  {| world := w'; trace := trace s ++ new |}) /\
               chats new = []).
  { intros s0. unfold run_tool_call, bind.
    destruct (executeToolCall_quiet tc scriptMap (Path skill) s0)
      as ([toolOutput [e|]] & new & w' & E & Hn); rewrite E; cbn [ret];
      eexists _, new, w'; split; try reflexivity; assumption. }
  unfold handle_tool_call.
  destruct (AutoApproveTools cfg); cbn [negb]; [apply Hrun|].
  unfold bind, call. destruct (fmt_Scanln env (world s)) as [input w1].
  destruct (negb (String.eqb (strings_ToLower input) "y")).
  - exists denied_content, [EvScanln input], w1. split; reflexivity.
  - destruct (Hrun {| world := w1; trace := trace s ++ [EvScanln input] |})
      as (content & new & w' & E & Hn).
    exists content, (EvScanln input :: new), w'. rewrite E. cbn [trace].
    rewrite <- app_assoc. split; [reflexivity|exact Hn].
Qed.

Lemma tool_calls_loop_run cfg scriptMap skill tcs :
  forall messages (s : St W),
    exists contents new w',
      tool_calls_loop os tool env cfg scriptMap skill tcs messages s =
        (Some (messages ++ zip_with tool_message tcs contents),
         {| world := w'; trace := trace s ++ new |}) /\
      length contents = length tcs /\
      chats new = [].
Proof.
  induction tcs as [|tc rest IH]; intros messages s.
  - exists [], [], (world s). cbn. rewrite !app_nil_r. now destruct s.
  - destruct (handle_tool_call_run cfg scriptMap skill messages tc s)
      as (content & new & w1 & E & Hn).
    destruct (IH (messages ++ [tool_message tc content])
                {| world := w1; trace := trace s ++ new |})
      as (contents & new' & w' & E' & Hl & Hn').
    exists (content :: contents), (new ++ new'), w'.
    cbn [tool_calls_loop]. unfold bind. rewrite E, E'. cbn [trace zip_with length].
    rewrite <- !app_assoc, chats_app, Hn, Hn', Hl. auto.
Qed.

(** Every run of the loop is one of the runs [loop_run] describes. *)
Lemma tool_loop_loop_run client cfg availableTools scriptMap skill n :
  forall messages (s : St W),
    exists r new w',
      tool_loop os tool env client cfg availableTools scriptMap skill n messages s =
        (r, {| world := w'; trace := trace s ++ new |}) /\
      loop_run n messages new r.
Proof.
  induction n as [|n IH]; intros messages s.
  - eexists _, [], (world s). cbn. rewrite app_nil_r. destruct s.
    split; [reflexivity|constructor].
  - cbn [tool_loop]. unfold bind at 1. unfold call.
    set (req := {| Model := cfg_Model cfg; Messages := messages;
                   Tools := availableTools; Temperature := 0 |}).
    destruct (CreateChatCompletion client req (world s)) as [[resp [e|]] w1].
    + eexists _, _, w1. split; [reflexivity|]. now constructor.
    + destruct resp as [[|msg rest]].
      * eexists _, _, w1. split; [reflexivity|]. now constructor.
      * unfold bind at 1. cbn [first_choice Choices ret].
        destruct (ToolCalls msg) as [tcs|] eqn:Htc.
        -- destruct (tool_calls_loop_run cfg scriptMap skill tcs
                       (messages ++ [msg])
                       {| world := w1;
                          trace := trace s ++
                                   [EvChat req ({| Choices := msg :: rest |}, None)] |})
             as (contents & tool_events & w2 & E & Hl & Hq).
           cbn [trace] in E. unfold bind. rewrite E.
           destruct (IH ((messages ++ [msg]) ++ zip_with tool_message tcs contents)
                       {| world := w2;
                          trace := (trace s ++
                                    [EvChat req ({| Choices := msg :: rest |}, None)])
                                   ++ tool_events |})
             as (r & new & w' & E' & Hrun).
           rewrite E'. cbn [trace].
           exists r, (EvChat req ({| Choices := msg :: rest |}, None)
                      :: tool_events ++ new), w'.
           split.
           { f_equal. f_equal. rewrite <- !app_assoc. reflexivity. }
           econstructor; eauto. now rewrite <- app_assoc in Hrun.
        -- eexists _, _, w1. split; [reflexivity|]. now constructor.
Qed.

End RunnerFacts.

(** *** Every run of the loop, by induction on [loop_run] *)

Lemma chats_round req ans tool_events new :
  chats tool_events = [] ->
  chats (EvChat req ans :: tool_events ++ new) = (req, ans) :: chats new.
Proof. intros H. cbn. fold (chats (tool_events ++ new)). now rewrite chats_app, H. Qed.

Lemma loop_run_bound n messages new r :
  loop_run n messages new r -> (length (chats new) <= n)%nat.
Proof.
  induction 1; try (cbn; lia).
  rewrite chats_round by assumption. cbn. lia.
Qed.

Lemma loop_run_client_failure n messages new r :
  loop_run n messages new r ->
  forall req resp e,
    In (req, (resp, Some e)) (chats new) ->
    (exists msgs,
        r = Some ((EmptyString, Some ("ChatCompletion error: " +:+ e)), msgs)) /\
    exists earlier, new = earlier ++ [EvChat req (resp, Some e)].
Proof.
  induction 1 as [messages|n messages req' resp' e' Hm|n messages req' Hm
                 |n messages req' msg rest Hm Hnone
                 |n messages req' msg rest tcs contents tool_events new r
                    Hm Htc Hl Hq Hrun IH];
    intros req resp e Hin.
  - destruct Hin.
  - destruct Hin as [Hin|[]]. injection Hin as <- <- <-.
    split; [eauto|]. now exists [].
  - destruct Hin as [Hin|[]]. discriminate Hin.
  - destruct Hin as [Hin|[]]. discriminate Hin.
  - rewrite chats_round in Hin by assumption.
    destruct Hin as [Hin|Hin]; [discriminate Hin|].
    destruct (IH _ _ _ Hin) as [Hr [earlier ->]]. split; [exact Hr|].
    exists (EvChat req' ({| Choices := msg :: rest |}, None)
              :: tool_events ++ earlier).
    cbn [app]. now rewrite app_assoc.
Qed.

Lemma loop_run_success n messages new r :
  loop_run n messages new r ->
  forall output msgs,
    r = Some ((output, None), msgs) ->
    exists earlier msg req rest pre,
      msgs = earlier ++ [msg] /\ ToolCalls msg = None /\ Content msg = output /\
      new = pre ++ [EvChat req ({| Choices := msg :: rest |}, None)].
Proof.
  induction 1; intros output msgs Hr; try discriminate.
  - injection Hr as <- <-. exists messages, msg, req, rest, []. auto.
  - destruct (IHloop_run _ _ Hr) as (earlier & m & rq & rs & pre & -> & ? & ? & ->).
    exists earlier, m, rq, rs,
      (EvChat req ({| Choices := msg :: rest |}, None) :: tool_events ++ pre).
    repeat split; auto. cbn. now rewrite <- app_assoc.
Qed.

Lemma loop_run_final n messages new r :
  loop_run n messages new r ->
  forall req msg ans,
    In (req, ans) (chats new) -> chose msg ans -> ToolCalls msg = None ->
    exists msgs, r = Some ((Content msg, None), msgs).
Proof.
  induction 1; intros rq m ans Hin [rs Hans] Hnone.
  - destruct Hin.
  - destruct Hin as [Hin|[]]. congruence.
  - destruct Hin as [Hin|[]]. congruence.
  - destruct Hin as [Hin|[]]. injection Hin as _ Hin. rewrite Hans in Hin.
    injection Hin as <- _. eauto.
  - rewrite chats_round in Hin by assumption. destruct Hin as [Hin|Hin].
    + injection Hin as _ Hin. rewrite Hans in Hin. injection Hin as <- _. congruence.
    + eapply IHloop_run; eauto. now exists rs.
Qed.

Lemma loop_run_exceeded n messages new r :
  loop_run n messages new r ->
  Forall calls_tools (map snd (chats new)) ->
  length (chats new) = n /\ exists msgs, r = Some ((EmptyString, Some exceeded), msgs).
Proof.
  induction 1; intros Hall.
  - eauto.
  - inversion Hall as [|? ? (m & tcs & [rs Hm] & _) _]; discriminate.
  - inversion Hall as [|? ? (m & tcs & [rs Hm] & _) _]; discriminate.
  - inversion Hall as [|? ? (m & tcs & [rs Hm] & Htc) _]. injection Hm as <- _. congruence.
  - rewrite chats_round in * by assumption. cbn in Hall.
    inversion Hall as [|? ? _ Hrest].
    destruct (IHloop_run Hrest) as [Hlen Hr].
    split; [cbn; now rewrite Hlen|exact Hr].
Qed.

Lemma loop_run_one_call n messages new r :
  loop_run n messages new r ->
  Forall calls_one_tool (map snd (chats new)) ->
  exists rounds,
    length rounds = n /\ Forall one_call_round rounds /\
    r = Some ((EmptyString, Some exceeded),
              messages ++ flat_map round_messages rounds).
Proof.
  induction 1; intros Hall.
  - exists []. cbn. rewrite app_nil_r. auto.
  - inversion Hall as [|? ? (m & tc & [rs Hm] & _) _]; discriminate.
  - inversion Hall as [|? ? (m & tc & [rs Hm] & _) _]; discriminate.
  - inversion Hall as [|? ? (m & tc & [rs Hm] & Htc) _]. injection Hm as <- _. congruence.
  - rewrite chats_round in * by assumption. cbn in Hall.
    inversion Hall as [|? ? (m & tc & [rs Hm] & Htc) Hrest].
    injection Hm as <- _.
    assert (tcs = [tc]) as -> by congruence.
    destruct contents as [|content [|]]; try discriminate.
    destruct (IHloop_run Hrest) as (rounds & Hlen & Hok & ->).
    exists ((msg, tool_message tc content) :: rounds).
    split; [cbn; now rewrite Hlen|]. split.
    + constructor; [|assumption]. exists tc, content. auto.
    + cbn. now rewrite <- !app_assoc.
Qed.

Section RunnerTheorems.

Context {W : Type} (os : OS W) (tool : ToolPkg W) (env : RunnerEnv W).

Lemma executeSkillWithTools_project client userPrompt skill cfg (w : W) :
  exec (executeSkillWithTools os tool env client userPrompt skill cfg) w =
  (option_map fst
     (exec (executeSkillWithTools_messages os tool env client userPrompt skill cfg) w).1,
   (exec (executeSkillWithTools_messages os tool env client userPrompt skill cfg) w).2).
Proof.
  unfold exec, executeSkillWithTools, bind.
  destruct (executeSkillWithTools_messages _ _ _ _ _ _ _ _) as [[[r msgs]|] s];
    reflexivity.
Qed.

Lemma executeSkillWithTools_loop_run client userPrompt skill cfg (w : W) :
  let run :=
    exec (executeSkillWithTools_messages os tool env client userPrompt skill cfg) w in
  loop_run 10 (initial_messages userPrompt skill) (trace run.2) run.1.
Proof.
  unfold exec, executeSkillWithTools_messages.
  destruct (GenerateToolDefinitions env skill) as [availableTools scriptMap].
  destruct (tool_loop_loop_run os tool env client cfg availableTools scriptMap
              skill 10 (initial_messages userPrompt skill)
              {| world := w; trace := [] |}) as (r & new & w' & E & Hrun).
  cbv zeta. rewrite E. exact Hrun.
Qed.

(** C1, as amended.  A run makes at most 10 chat completions.  If each of
    them succeeds with a message that carries tool calls, there are exactly
    10 and the function returns the error "exceeded maximum tool call
    iterations"; if each message carries exactly one tool call, the
    conversation has by then grown by 10 rounds, each the assistant message
    followed by one tool-role message for its call.  A chat completion that
    fails ends the loop at once: it is the last call of the run, and the
    function returns the error "ChatCompletion error: " followed by the
    error of the client. *)
Theorem tool_loop_bound client userPrompt skill cfg (w : W) :
  let run :=
    exec (executeSkillWithTools_messages os tool env client userPrompt skill cfg) w in
  let returned :=
    (exec (executeSkillWithTools os tool env client userPrompt skill cfg) w).1 in
  let answers := map snd (chats (trace run.2)) in
  (length answers <= 10)%nat /\
  (Forall calls_tools answers ->
   length answers = 10%nat /\ returned = Some (EmptyString, Some exceeded)) /\
  (Forall calls_one_tool answers ->
   exists rounds,
     length rounds = 10%nat /\ Forall one_call_round rounds /\
     run.1 = Some ((EmptyString, Some exceeded),
                   initial_messages userPrompt skill
                   ++ flat_map round_messages rounds)) /\
  (forall req resp e,
      In (req, (resp, Some e)) (chats (trace run.2)) ->
      returned = Some (EmptyString, Some ("ChatCompletion error: " +:+ e)) /\
      exists earlier, trace run.2 = earlier ++ [EvChat req (resp, Some e)]).
Proof.
  cbv zeta. rewrite executeSkillWithTools_project. cbn [fst snd].
  pose proof (executeSkillWithTools_loop_run client userPrompt skill cfg w) as Hrun.
  cbv zeta in Hrun. rewrite length_map. split; [|split; [|split]].
  - exact (loop_run_bound _ _ _ _ Hrun).
  - intros Hall. destruct (loop_run_exceeded _ _ _ _ Hrun Hall) as [Hlen [msgs ->]].
    auto.
  - exact (loop_run_one_call _ _ _ _ Hrun).
  - intros req resp e Hin.
    destruct (loop_run_client_failure _ _ _ _ Hrun _ _ _ Hin)
      as [[msgs ->] Hlast].
    split; [reflexivity|exact Hlast].
Qed.

(** C2.  When the function returns an output without an error, the last
    message of the conversation is the assistant message of the last chat
    completion, it carries no tool calls, and the output is its content. *)
Theorem tool_loop_success client userPrompt skill cfg (w : W) (output : string) :
  (exec (executeSkillWithTools os tool env client userPrompt skill cfg) w).1
  = Some (output, None) ->
  let run :=
    exec (executeSkillWithTools_messages os tool env client userPrompt skill cfg) w in
  exists earlier msg req rest pre,
    run.1 = Some ((output, None), earlier ++ [msg]) /\
    trace run.2 = pre ++ [EvChat req ({| Choices := msg :: rest |}, None)] /\
    ToolCalls msg = None /\
    Content msg = output.
Proof.
  rewrite executeSkillWithTools_project. cbn [fst]. intros Hret. cbv zeta.
  pose proof (executeSkillWithTools_loop_run client userPrompt skill cfg w) as Hrun.
  cbv zeta in Hrun.
  destruct (exec (executeSkillWithTools_messages _ _ _ _ _ _ _) w).1
    as [[[out err] msgs]|] eqn:E; [|discriminate].
  cbn in Hret. injection Hret as -> ->.
  destruct (loop_run_success _ _ _ _ Hrun _ _ eq_refl)
    as (earlier & msg & req & rest & pre & -> & ? & ? & ?).
  exists earlier, msg, req, rest, pre. auto.
Qed.

(** C10.  A [read_file] call with a relative path and a non-empty skill
    root asks [os.Stat] about the path joined to the root and reads the
    joined path if [Stat] succeeds; otherwise it reads the path as given,
    and returns whatever the reader returns for it. *)
Theorem read_file_path_resolution toolCall scriptMap skillPath filePath (w : W) :
  Name (Function toolCall) = "read_file" ->
  unmarshal_filePath env (Arguments (Function toolCall)) = inl filePath ->
  filepath_IsAbs env filePath = false ->
  skillPath <> EmptyString ->
  let resolvedPath := filepath_Join env skillPath filePath in
  let stat := os_Stat os resolvedPath w in
  let path := match stat.1 with None => resolvedPath | Some _ => filePath end in
  let read := ReadFile tool path stat.2 in
  exec (executeToolCall os tool env toolCall scriptMap skillPath) w =
    (Some (tool_result "read_file" read.1),
     {| world := read.2;
        trace := [EvStat resolvedPath stat.1; EvReadFile path read.1] |}).
Proof.
  intros Hname Hargs Hrel Hroot. cbv zeta.
  unfold exec, executeToolCall, resolve_read_path. rewrite Hname, Hargs, Hrel.
  apply String.eqb_neq in Hroot. rewrite Hroot.
  cbn [String.eqb Ascii.eqb Bool.eqb negb andb].
  unfold bind, call, ret. cbn [world trace app].
  destruct (os_Stat os (filepath_Join env skillPath filePath) w) as [[e|] w1];
    cbn [fst snd world trace app];
    destruct (ReadFile tool _ w1) as [r w2]; reflexivity.
Qed.

End RunnerTheorems.

Section DeniedToolCall.

Context {W : Type} (os : OS W) (tool : ToolPkg W) (env : RunnerEnv W).

Lemma handle_tool_call_denied cfg scriptMap skill messages tc (s : St W) input w' :
  AutoApproveTools cfg = false ->
  fmt_Scanln env (world s) = (input, w') ->
  strings_ToLower input <> "y" ->
  handle_tool_call os tool env cfg scriptMap skill messages tc s =
    (Some (messages ++ [denial tc]),
     {| world := w'; trace := trace s ++ [EvScanln input] |}).
Proof.
  intros Hoff Hin Hno. unfold handle_tool_call, bind, call.
  rewrite Hoff. cbn [negb]. cbv beta. rewrite Hin.
  apply String.eqb_neq in Hno. rewrite Hno. reflexivity.
Qed.

(** C3.  With auto-approve off, a tool call that the user does not answer
    with "y" or "Y" costs one prompt and nothing else: the tool-role message
    "Error: User denied tool execution." with the id of the call is
    appended, no back-end is called, and the loop goes on with the
    remaining calls.  If the denied call was the only one of its round and
    the next chat completion answers without tool calls, that answer is the
    final output; and in any run, an answer without tool calls is what the
    function returns. *)
Theorem denied_tool_call client cfg availableTools scriptMap skill :
  AutoApproveTools cfg = false ->
  (forall messages tc (s : St W) input w',
      fmt_Scanln env (world s) = (input, w') ->
      strings_ToLower input <> "y" ->
      let s' := {| world := w'; trace := trace s ++ [EvScanln input] |} in
      handle_tool_call os tool env cfg scriptMap skill messages tc s =
        (Some (messages ++ [denial tc]), s') /\
      forall rest,
        tool_calls_loop os tool env cfg scriptMap skill (tc :: rest) messages s =
        tool_calls_loop os tool env cfg scriptMap skill rest
          (messages ++ [denial tc]) s') /\
  (forall n messages (s : St W) msg1 rest1 tc w1 input w2 msg2 rest2 w3,
      let req1 := {| Model := cfg_Model cfg; Messages := messages;
                     Tools := availableTools; Temperature := 0 |} in
      let req2 := {| Model := cfg_Model cfg;
                     Messages := messages ++ [msg1; denial tc];
                     Tools := availableTools; Temperature := 0 |} in
      CreateChatCompletion client req1 (world s)
        = (({| Choices := msg1 :: rest1 |}, None), w1) ->
      ToolCalls msg1 = Some [tc] ->
      fmt_Scanln env w1 = (input, w2) ->
      strings_ToLower input <> "y" ->
      CreateChatCompletion client req2 w2
        = (({| Choices := msg2 :: rest2 |}, None), w3) ->
      ToolCalls msg2 = None ->
      tool_loop os tool env client cfg availableTools scriptMap skill
        (S (S n)) messages s =
        (Some ((Content msg2, None), messages ++ [msg1; denial tc; msg2]),
         {| world := w3;
            trace := trace s
                     ++ [EvChat req1 ({| Choices := msg1 :: rest1 |}, None);
                         EvScanln input;
                         EvChat req2 ({| Choices := msg2 :: rest2 |}, None)] |})) /\
  (forall userPrompt (w : W) req msg ans,
      let run :=
        exec (executeSkillWithTools_messages os tool env client userPrompt skill cfg) w in
      In (req, ans) (chats (trace run.2)) ->
      chose msg ans ->
      ToolCalls msg = None ->
      (exec (executeSkillWithTools os tool env client userPrompt skill cfg) w).1
      = Some (Content msg, None)).
Proof.
  intros Hoff. split; [|split].
  - intros messages tc s input w' Hin Hno. cbv zeta.
    pose proof (handle_tool_call_denied cfg scriptMap skill messages tc s input w'
                  Hoff Hin Hno) as E.
    split; [exact E|]. intros rest. cbn [tool_calls_loop]. unfold bind at 1.
    now rewrite E.
  - intros n messages s msg1 rest1 tc w1 input w2 msg2 rest2 w3.
    cbv zeta. intros Hc1 Ht1 Hin Hno Hc2 Ht2.
    cbn [tool_loop]. unfold bind at 1. unfold call at 1. rewrite Hc1.
    unfold bind at 1. cbn [first_choice Choices ret]. rewrite Ht1.
    unfold bind at 1. cbn [tool_calls_loop]. unfold bind at 1.
    rewrite (handle_tool_call_denied cfg scriptMap skill _ tc _ input w2 Hoff)
      by assumption.
    cbn [ret world trace].
    unfold bind at 1. unfold call at 1. cbn [world trace].
    rewrite <- !app_assoc. cbn [app]. rewrite Hc2.
    unfold bind at 1. cbn [first_choice Choices ret]. rewrite Ht2.
    cbn [ret]. rewrite <- !app_assoc. reflexivity.
  - intros userPrompt w req msg ans. cbv zeta. intros Hin Hchose Hnone.
    rewrite executeSkillWithTools_project. cbn [fst].
    pose proof (executeSkillWithTools_loop_run os tool env client userPrompt skill cfg w)
      as Hrun.
    cbv zeta in Hrun.
    destruct (loop_run_final _ _ _ _ Hrun _ _ _ Hin Hchose Hnone) as [msgs ->].
    reflexivity.
Qed.

End DeniedToolCall.

(** *** The theorems on scripted runs *)

Lemma tool_loop_bound_witness :
  let run :=
    exec (executeSkillWithTools_messages bare_os plain_tools (unix_env "y")
            insistent_client "hi" demo_skill (demo_cfg true)) tt in
  let offline :=
    exec (executeSkillWithTools_messages bare_os plain_tools (unix_env "y")
            offline_client "hi" demo_skill (demo_cfg true)) tt in
  (Forall calls_one_tool (map snd (chats (trace run.2))) /\
   length (map snd (chats (trace run.2))) = 10%nat /\
   (exec (executeSkillWithTools bare_os plain_tools (unix_env "y")
            insistent_client "hi" demo_skill (demo_cfg true)) tt).1
   = Some (EmptyString, Some exceeded) /\
   exists rounds,
     length rounds = 10%nat /\ Forall one_call_round rounds /\
     run.1 = Some ((EmptyString, Some exceeded),
                   initial_messages "hi" demo_skill
                   ++ flat_map round_messages rounds)) /\
  (exists req,
      In (req, ({| Choices := [] |}, Some "connection refused"))
         (chats (trace offline.2)) /\
      (exec (executeSkillWithTools bare_os plain_tools (unix_env "y")
               offline_client "hi" demo_skill (demo_cfg true)) tt).1
      = Some (EmptyString, Some ("ChatCompletion error: " +:+ "connection refused")) /\
      exists earlier,
        trace offline.2
        = earlier ++ [EvChat req ({| Choices := [] |}, Some "connection refused")]).
Proof.
  cbv zeta. split.
  - assert (H1 : Forall calls_one_tool
                   (map snd (chats (trace (exec (executeSkillWithTools_messages
                      bare_os plain_tools (unix_env "y") insistent_client "hi"
                      demo_skill (demo_cfg true)) tt).2)))).
    { vm_compute.
      repeat (constructor;
              [eexists _, _; split; [eexists; reflexivity|reflexivity]|]).
      constructor. }
    assert (Hall : Forall calls_tools
                   (map snd (chats (trace (exec (executeSkillWithTools_messages
                      bare_os plain_tools (unix_env "y") insistent_client "hi"
                      demo_skill (demo_cfg true)) tt).2)))).
    { vm_compute.
      repeat (constructor;
              [eexists _, _; split; [eexists; reflexivity|reflexivity]|]).
      constructor. }
    destruct (tool_loop_bound bare_os plain_tools (unix_env "y") insistent_client
                "hi" demo_skill (demo_cfg true) tt) as (_ & H2 & H3 & _).
    split; [exact H1|]. split; [exact (proj1 (H2 Hall))|].
    split; [exact (proj2 (H2 Hall))|]. exact (H3 H1).
  - eexists. split; [vm_compute; left; reflexivity|].
    refine (proj2 (proj2 (proj2 (tool_loop_bound bare_os plain_tools
                                   (unix_env "y") offline_client "hi" demo_skill
                                   (demo_cfg true) tt))) _ _ _ _).
    vm_compute. left. reflexivity.
Defined.

(** C1 as stated fails: when a chat completion fails, no round has produced
    an assistant message without tool calls, and yet the error returned is
    that of the client. *)
Lemma tool_loop_client_error :
  let run :=
    exec (executeSkillWithTools_messages bare_os plain_tools (unix_env "y")
            offline_client "hi" demo_skill (demo_cfg true)) tt in
  let returned :=
    (exec (executeSkillWithTools bare_os plain_tools (unix_env "y")
             offline_client "hi" demo_skill (demo_cfg true)) tt).1 in
  (forall req ans msg,
      In (req, ans) (chats (trace run.2)) -> chose msg ans ->
      ToolCalls msg <> None) /\
  returned = Some (EmptyString, Some "ChatCompletion error: connection refused") /\
  returned <> Some (EmptyString, Some exceeded).
Proof.
  vm_compute. split; [|split].
  - intros req ans msg [H|[]] [rest Hc]. injection H as _ <-. discriminate Hc.
  - reflexivity.
  - discriminate.
Qed.

Lemma tool_loop_success_witness :
  let run :=
    exec (executeSkillWithTools_messages bare_os plain_tools (unix_env "y")
            two_step_client "hi" demo_skill (demo_cfg true)) 0%nat in
  exists earlier msg req rest pre,
    run.1 = Some (("done", None), earlier ++ [msg]) /\
    trace run.2 = pre ++ [EvChat req ({| Choices := msg :: rest |}, None)] /\
    ToolCalls msg = None /\
    Content msg = "done".
Proof.
  apply (tool_loop_success bare_os plain_tools (unix_env "y") two_step_client
           "hi" demo_skill (demo_cfg true) 0%nat "done").
  vm_compute. reflexivity.
Defined.

Lemma denied_tool_call_witness :
  let tc := read_call "call_1" "notes.md" in
  let messages := initial_messages "hi" demo_skill in
  let msg1 := assistant EmptyString (Some [tc]) in
  let msg2 := assistant "done" None in
  let req1 := {| Model := "gpt-4o"; Messages := messages;
                 Tools := []; Temperature := 0 |} in
  let req2 := {| Model := "gpt-4o"; Messages := messages ++ [msg1; denial tc];
                 Tools := []; Temperature := 0 |} in
  handle_tool_call bare_os plain_tools (unix_env "n") (demo_cfg false) ∅
    demo_skill (messages ++ [msg1]) tc {| world := 1%nat; trace := [] |} =
  (Some ((messages ++ [msg1]) ++ [denial tc]),
   {| world := 1%nat; trace := [EvScanln "n"] |}) /\
  tool_loop bare_os plain_tools (unix_env "n") two_step_client (demo_cfg false)
    [] ∅ demo_skill 10 messages {| world := 0%nat; trace := [] |} =
  (Some (("done", None), messages ++ [msg1; denial tc; msg2]),
   {| world := 2%nat;
      trace := [EvChat req1 ({| Choices := [msg1] |}, None);
                EvScanln "n";
                EvChat req2 ({| Choices := [msg2] |}, None)] |}) /\
  (exec (executeSkillWithTools bare_os plain_tools (unix_env "n")
           two_step_client "hi" demo_skill (demo_cfg false)) 0%nat).1
  = Some ("done", None).
Proof.
  cbv zeta.
  destruct (denied_tool_call bare_os plain_tools (unix_env "n") two_step_client
              (demo_cfg false) [] ∅ demo_skill eq_refl)
    as (Hcall & Hround & Hrun).
  split; [|split].
  - refine (proj1 (Hcall _ (read_call "call_1" "notes.md")
                     {| world := 1%nat; trace := [] |} "n" 1%nat _ _));
      [reflexivity|vm_compute; discriminate].
  - refine (Hround 8%nat (initial_messages "hi" demo_skill)
              {| world := 0%nat; trace := [] |}
              (assistant EmptyString (Some [read_call "call_1" "notes.md"])) []
              (read_call "call_1" "notes.md") 1%nat "n" 1%nat
              (assistant "done" None) [] 2%nat _ _ _ _ _ _);
      try reflexivity.
    vm_compute. discriminate.
  - refine (Hrun "hi" 0%nat
              {| Model := "gpt-4o";
                 Messages := initial_messages "hi" demo_skill
                             ++ [assistant EmptyString
                                   (Some [read_call "call_1" "notes.md"]);
                                 denial (read_call "call_1" "notes.md")];
                 Tools := []; Temperature := 0 |}
              (assistant "done" None)
              ({| Choices := [assistant "done" None] |}, None) _ _ _).
    + vm_compute. right. left. reflexivity.
    + exists []. reflexivity.
    + reflexivity.
Defined.

Lemma read_file_path_resolution_witness :
  exec (executeToolCall (W := unit) bare_os plain_tools (unix_env "y")
          (read_call "call_1" "notes.md") ∅ "skills/demo") tt =
  (Some ("contents of notes.md", None),
   {| world := tt;
      trace := [EvStat "skills/demo/notes.md" (Some "no such file or directory");
                EvReadFile "notes.md" ("contents of notes.md", None)] |}).
Proof.
  refine (read_file_path_resolution (W := unit) bare_os plain_tools (unix_env "y")
            (read_call "call_1" "notes.md") ∅ "skills/demo" "notes.md" tt
            _ _ _ _); try reflexivity.
  discriminate.
Defined.

Lemma RunPythonScript_interpreter_resolution_witness :
  let run := exec (RunPythonScript python_only_os "job.py" ["-v"]) tt in
  In (EvCmdRun "/usr/bin/python" ["job.py"; "-v"] ("out", "warn", None))
     (trace run.2) /\
  run.1 = Some ("outwarn", None).
Proof.
  cbv zeta.
  assert (H : In (EvCmdRun "/usr/bin/python" ["job.py"; "-v"] ("out", "warn", None))
                (trace (exec (RunPythonScript python_only_os "job.py" ["-v"]) tt).2)).
  { vm_compute. right. right. left. reflexivity. }
  split; [exact H|].
  exact (proj2 (proj2 (proj2 (proj2 (proj2 (proj2
           (RunPythonScript_interpreter_resolution python_only_os
              "job.py" ["-v"] tt)))) _ _ _ _ H))).
Defined.

(** * Further properties of the runner *)

Section YieldsFacts.

Context {W : Type}.

Lemma yields_ret {A} P (Q : A -> Prop) (a : A) : Q a -> yields P Q (@ret W A a).
Proof.
  intros Ha s. exists a, [], (world s). rewrite app_nil_r. now destruct s.
Qed.

Lemma yields_call {A} (P : Event -> bool) (Q : A -> Prop) (e : A -> Event)
    (f : W -> A * W) :
  (forall a, P (e a) = true) -> (forall a, Q a) -> yields P Q (call e f).
Proof.
  intros He Hq s. unfold call. destruct (f (world s)) as [a w'].
  exists a, [e a], w'. cbn. now rewrite He.
Qed.

Lemma yields_bind {A B} P (R : A -> Prop) (Q : B -> Prop) (m : M W A)
    (k : A -> M W B) :
  yields P R m -> (forall a, R a -> yields P Q (k a)) -> yields P Q (bind m k).
Proof.
  intros Hm Hk s. destruct (Hm s) as (a & new & w' & E & Hn & Ha).
  destruct (Hk a Ha {| world := w'; trace := trace s ++ new |})
    as (b & new' & w'' & E' & Hn' & Hb).
  exists b, (new ++ new'), w''. unfold bind. rewrite E, E'. cbn [trace].
  rewrite app_assoc, forallb_app, Hn, Hn'. auto.
Qed.

Lemma yields_weaken {A} P (Q Q' : A -> Prop) (m : M W A) :
  (forall a, Q a -> Q' a) -> yields P Q m -> yields P Q' m.
Proof.
  intros HQ Hm s. destruct (Hm s) as (a & new & w' & E & Hn & Ha).
  exists a, new, w'. auto.
Qed.

End YieldsFacts.

Lemma tool_result_empty_on_error name r : empty_on_error (tool_result name r).
Proof. destruct r as [out [e|]]; cbn; unfold empty_on_error; cbn; congruence. Qed.

Lemma unmarshal_failed_empty_on_error what e :
  empty_on_error (unmarshal_failed what e).
Proof. unfold empty_on_error. reflexivity. Qed.

Ltac yields_step :=
  first
    [ apply yields_ret;
      first [ exact I | apply tool_result_empty_on_error
            | apply unmarshal_failed_empty_on_error
            | unfold empty_on_error; cbn;
              let H := fresh in
              intros H; first [ reflexivity | now destruct H ] ]
    | apply yields_call; [intros; reflexivity | intros; exact I]
    | apply (yields_bind _ (fun _ => True)); [|intros ? _]
    | match goal with
      | |- yields _ _ (match ?x with _ => _ end) => destruct x
      | |- yields _ _ (if ?x then _ else _) => destruct x
      end ].

Section ToolCallFacts.

Context {W : Type} (os : OS W) (tool : ToolPkg W) (env : RunnerEnv W).

Lemma RunPythonScript_yields scriptPath args :
  yields is_tool_event empty_on_error (RunPythonScript os scriptPath args).
Proof.
  unfold RunPythonScript, run_with, LookPath, Run.
  repeat yields_step.
Qed.

Lemma executeToolCall_yields toolCall scriptMap skillPath :
  yields is_tool_event empty_on_error
    (executeToolCall os tool env toolCall scriptMap skillPath).
Proof.
  unfold executeToolCall, resolve_read_path.
  repeat first [ apply (yields_weaken _ _ (fun _ => True) _ (fun _ _ => I)),
                   RunPythonScript_yields
               | yields_step ].
Qed.

End ToolCallFacts.

Section ToolLoopFacts.

Context {W : Type} (os : OS W) (tool : ToolPkg W) (env : RunnerEnv W).

Lemma yields_mono {A} (P P' : Event -> bool) (Q Q' : A -> Prop) (m : M W A) :
  (forall e, P e = true -> P' e = true) -> (forall a, Q a -> Q' a) ->
  yields P Q m -> yields P' Q' m.
Proof.
  intros HP HQ Hm s. destruct (Hm s) as (a & new & w' & E & Hn & Ha).
  exists a, new, w'. repeat split; auto.
  rewrite forallb_forall in *. auto.
Qed.

Lemma handle_tool_call_yields cfg scriptMap skill messages tc :
  yields (call_event cfg)
    (fun msgs => exists content, msgs = messages ++ [tool_message tc content])
    (handle_tool_call os tool env cfg scriptMap skill messages tc).
Proof.
  assert (Hrun : yields (call_event cfg)
                   (fun msgs => exists content,
                        msgs = messages ++ [tool_message tc content])
                   (run_tool_call os tool env scriptMap skill messages tc)).
  { unfold run_tool_call.
    apply (yields_bind _ (fun _ => True)).
    - eapply yields_mono; [| |apply executeToolCall_yields]; [|auto].
      intros e He. unfold call_event. now rewrite He.
    - intros [toolOutput [e|]] _; apply yields_ret; eauto. }
  unfold handle_tool_call. destruct (AutoApproveTools cfg) eqn:Hauto; cbn [negb].
  - exact Hrun.
  - apply (yields_bind _ (fun _ => True)).
    + apply yields_call; [|auto]. intros. unfold call_event. now rewrite Hauto.
    + intros input _. destruct (negb _); [|exact Hrun].
      apply yields_ret. now exists denied_content.
Qed.

Lemma tool_calls_loop_yields cfg scriptMap skill tcs :
  forall messages,
    yields (call_event cfg)
      (fun msgs => exists contents,
           length contents = length tcs /\
           msgs = messages ++ zip_with tool_message tcs contents)
      (tool_calls_loop os tool env cfg scriptMap skill tcs messages).
Proof.
  induction tcs as [|tc rest IH]; intros messages; cbn [tool_calls_loop].
  - apply yields_ret. exists []. now rewrite app_nil_r.
  - eapply yields_bind; [apply handle_tool_call_yields|].
    intros msgs [content ->].
    eapply yields_mono; [| |apply IH]; [auto|].
    intros msgs (contents & Hl & ->). exists (content :: contents).
    cbn. rewrite Hl, <- app_assoc. auto.
Qed.

(** Induction over the runs of the tool loop: one case per way through the
    loop body. *)
Lemma tool_loop_run_ind client cfg availableTools scriptMap skill
    (P : nat -> list ChatCompletionMessage -> St W ->
         option ((string * option error) * list ChatCompletionMessage) * St W ->
         Prop) :
  let request messages :=
    {| Model := cfg_Model cfg; Messages := messages;
       Tools := availableTools; Temperature := 0 |} in
  let asked messages (s : St W) ans w1 :=
    {| world := w1; trace := trace s ++ [EvChat (request messages) ans] |} in
  (forall messages s,
      P 0%nat messages s (Some ((EmptyString, Some exceeded), messages), s)) ->
  (forall n messages s resp e w1,
      CreateChatCompletion client (request messages) (world s)
      = ((resp, Some e), w1) ->
      P (S n) messages s
        (Some ((EmptyString, Some ("ChatCompletion error: " +:+ e)), messages),
         asked messages s (resp, Some e) w1)) ->
  (forall n messages s w1,
      CreateChatCompletion client (request messages) (world s)
      = (({| Choices := [] |}, None), w1) ->
      P (S n) messages s
        (None, asked messages s ({| Choices := [] |}, None) w1)) ->
  (forall n messages s msg rest w1,
      CreateChatCompletion client (request messages) (world s)
      = (({| Choices := msg :: rest |}, None), w1) ->
      ToolCalls msg = None ->
      P (S n) messages s
        (Some ((Content msg, None), messages ++ [msg]),
         asked messages s ({| Choices := msg :: rest |}, None) w1)) ->
  (forall n messages s msg rest w1 tcs contents tool_events w2,
      CreateChatCompletion client (request messages) (world s)
      = (({| Choices := msg :: rest |}, None), w1) ->
      ToolCalls msg = Some tcs ->
      length contents = length tcs ->
      forallb (call_event cfg) tool_events = true ->
      let messages' := (messages ++ [msg]) ++ zip_with tool_message tcs contents in
      let s2 := {| world := w2;
                   trace := (trace s ++
                             [EvChat (request messages)
                                ({| Choices := msg :: rest |}, None)])
                            ++ tool_events |} in
      P n messages' s2
        (tool_loop os tool env client cfg availableTools scriptMap skill n
           messages' s2) ->
      P (S n) messages s
        (tool_loop os tool env client cfg availableTools scriptMap skill n
           messages' s2)) ->
  forall n messages s,
    P n messages s
      (tool_loop os tool env client cfg availableTools scriptMap skill n
         messages s).
Proof.
  intros request asked H0 Herr Hnone Hfinal Hround.
  induction n as [|n IH]; intros messages s.
  - destruct s. apply H0.
  - cbn [tool_loop]. unfold bind at 1. unfold call.
    fold (request messages).
    destruct (CreateChatCompletion client (request messages) (world s))
      as [[resp [e|]] w1] eqn:E.
    + now apply Herr.
    + destruct resp as [[|msg rest]].
      * now apply Hnone.
      * unfold bind at 1. cbn [first_choice Choices ret].
        destruct (ToolCalls msg) as [tcs|] eqn:Htc.
        -- destruct (tool_calls_loop_yields cfg scriptMap skill tcs
                       (messages ++ [msg])
                       {| world := w1;
                          trace := trace s ++
                                   [EvChat (request messages)
                                      ({| Choices := msg :: rest |}, None)] |})
             as (msgs & tool_events & w2 & E' & Hev & contents & Hl & ->).
           cbn [trace] in E'. unfold bind. rewrite E'.
           eapply Hround; eauto.
        -- now apply Hfinal.
Qed.

End ToolLoopFacts.

Section ToolLoopProperties.

Context {W : Type} (os : OS W) (tool : ToolPkg W) (env : RunnerEnv W).

Lemma chats_call_events cfg (t : list Event) :
  forallb (call_event cfg) t = true -> chats t = [].
Proof.
  induction t as [|e t IH]; [reflexivity|]. cbn [forallb].
  intros [He Ht]%andb_prop. destruct e; cbn; auto.
  unfold call_event in He. cbn in He.
  destruct (AutoApproveTools cfg); discriminate He.
Qed.

Lemma loop_event_call cfg (t : list Event) :
  forallb (call_event cfg) t = true -> forallb (loop_event cfg) t = true.
Proof.
  rewrite !forallb_forall. intros H e He. unfold loop_event.
  rewrite (H e He). apply orb_true_r.
Qed.

Lemma tool_loop_trace client cfg availableTools scriptMap skill n messages (s : St W) :
  let out :=
    tool_loop os tool env client cfg availableTools scriptMap skill n messages s in
  exists new,
    trace out.2 = trace s ++ new /\
    forallb (loop_event cfg) new = true /\
    Forall (round_request cfg availableTools messages) (map fst (chats new)) /\
    growing (map (fun c => Messages c.1) (chats new)) /\
    forall r msgs,
      out.1 = Some (r, msgs) ->
      messages `prefix_of` msgs /\
      Forall (fun c => Messages c.1 `prefix_of` msgs) (chats new).
Proof.
  cbv zeta. revert n messages s.
  apply (tool_loop_run_ind os tool env client cfg availableTools scriptMap skill
           (fun n messages s out =>
              exists new,
                trace out.2 = trace s ++ new /\
                forallb (loop_event cfg) new = true /\
                Forall (round_request cfg availableTools messages)
                  (map fst (chats new)) /\
                growing (map (fun c => Messages c.1) (chats new)) /\
                forall r msgs,
                  out.1 = Some (r, msgs) ->
                  messages `prefix_of` msgs /\
                  Forall (fun c => Messages c.1 `prefix_of` msgs) (chats new))).
  - intros messages s. exists []. rewrite app_nil_r.
    split; [reflexivity|]. split; [reflexivity|].
    split; [constructor|]. split; [exact I|].
    intros r msgs Hr. injection Hr as _ <-. split; [reflexivity|constructor].
  - intros n messages s resp e w1 _. eexists [_].
    split; [reflexivity|]. split; [reflexivity|].
    split; [constructor; [now repeat split|constructor]|].
    split; [cbn; split; [constructor|exact I]|].
    intros r msgs Hr. injection Hr as _ <-. split; [reflexivity|].
    constructor; [reflexivity|constructor].
  - intros n messages s w1 _. eexists [_].
    split; [reflexivity|]. split; [reflexivity|].
    split; [constructor; [now repeat split|constructor]|].
    split; [cbn; split; [constructor|exact I]|].
    intros r msgs Hr. discriminate Hr.
  - intros n messages s msg rest w1 _ _. eexists [_].
    split; [reflexivity|]. split; [reflexivity|].
    split; [constructor; [now repeat split|constructor]|].
    split; [cbn; split; [constructor|exact I]|].
    intros r msgs Hr. injection Hr as _ <-.
    split; [now apply prefix_app_r|].
    constructor; [now apply prefix_app_r|constructor].
  - intros n messages s msg rest w1 tcs contents tool_events w2 _ _ _ Hev.
    cbv zeta.
    match goal with
    | |- context [tool_loop ?a ?b ?c ?d ?e ?f ?g ?h ?i ?j ?k] =>
        generalize (tool_loop a b c d e f g h i j k)
    end.
    cbn [trace]. intros out (new & Htr & Hall & Hreq & Hgrow & Hend).
    assert (Hpre : messages `prefix_of`
                     (messages ++ [msg]) ++ zip_with tool_message tcs contents).
    { rewrite <- app_assoc. now apply prefix_app_r. }
    eexists (_ :: tool_events ++ new).
    rewrite Htr, <- !app_assoc. cbn [app].
    split; [reflexivity|]. split.
    { cbn. now rewrite forallb_app, (loop_event_call _ _ Hev), Hall. }
    rewrite chats_round by now apply (chats_call_events cfg).
    cbn [map fst growing]. split; [|split; [split|]].
    + constructor; [now repeat split|].
      eapply Forall_impl; [exact Hreq|].
      intros req (? & ? & ?). repeat split; auto. now transitivity
        ((messages ++ [msg]) ++ zip_with tool_message tcs contents).
    + rewrite Forall_map in Hreq. rewrite Forall_map.
      eapply Forall_impl; [exact Hreq|].
      intros c (_ & _ & ?). cbn. now transitivity
        ((messages ++ [msg]) ++ zip_with tool_message tcs contents).
    + exact Hgrow.
    + intros r msgs Hr. destruct (Hend r msgs Hr) as [H1 H2].
      split; [now transitivity
        ((messages ++ [msg]) ++ zip_with tool_message tcs contents)|].
      constructor; [|exact H2]. cbn. now transitivity
        ((messages ++ [msg]) ++ zip_with tool_message tcs contents).
Qed.

End ToolLoopProperties.

Section ToolLoopTheorems.

Context {W : Type} (os : OS W) (tool : ToolPkg W) (env : RunnerEnv W).

(** Every chat completion that [executeSkillWithTools] requests names the
    configured model and the tools of [GenerateToolDefinitions], and its
    conversation starts with the system and the user message; the
    conversation only grows: each request extends all earlier ones, and the
    final conversation extends them all. *)
Theorem tool_loop_requests client userPrompt skill cfg (w : W) :
  let run :=
    exec (executeSkillWithTools_messages os tool env client userPrompt skill cfg) w in
  let requests := map fst (chats (trace run.2)) in
  Forall (round_request cfg (GenerateToolDefinitions env skill).1
            (initial_messages userPrompt skill)) requests /\
  growing (map Messages requests) /\
  forall r msgs,
    run.1 = Some (r, msgs) ->
    initial_messages userPrompt skill `prefix_of` msgs /\
    Forall (fun req => Messages req `prefix_of` msgs) requests.
Proof.
  cbv zeta. unfold exec, executeSkillWithTools_messages.
  destruct (GenerateToolDefinitions env skill) as [availableTools scriptMap].
  destruct (tool_loop_trace os tool env client cfg availableTools scriptMap skill
              10 (initial_messages userPrompt skill)
              {| world := w; trace := [] |})
    as (new & Htr & _ & Hreq & Hgrow & Hend).
  cbn [trace app] in Htr. rewrite Htr. cbn [fst].
  split; [exact Hreq|]. split.
  - now rewrite map_map.
  - intros r msgs Hr. destruct (Hend r msgs Hr) as [H1 H2].
    split; [exact H1|]. now rewrite Forall_map.
Qed.

(** A run of [executeSkillWithTools] calls nothing but the chat completion,
    the tool back-ends and, when tools are not approved automatically, the
    prompt: with [AutoApproveTools] the user is never asked. *)
Theorem tool_loop_events client userPrompt skill cfg (w : W) :
  let run :=
    exec (executeSkillWithTools os tool env client userPrompt skill cfg) w in
  forallb (loop_event cfg) (trace run.2) = true /\
  (AutoApproveTools cfg = true -> forall input, ~ In (EvScanln input) (trace run.2)).
Proof.
  cbv zeta. rewrite executeSkillWithTools_project. cbn [snd].
  unfold exec, executeSkillWithTools_messages.
  destruct (GenerateToolDefinitions env skill) as [availableTools scriptMap].
  destruct (tool_loop_trace os tool env client cfg availableTools scriptMap skill
              10 (initial_messages userPrompt skill)
              {| world := w; trace := [] |})
    as (new & Htr & Hall & _).
  cbn [trace app] in Htr. rewrite Htr. split; [exact Hall|].
  intros Hauto input Hin. rewrite forallb_forall in Hall.
  specialize (Hall _ Hin). unfold loop_event, call_event in Hall.
  rewrite Hauto in Hall. discriminate Hall.
Qed.

Lemma loop_run_outcomes n messages new r :
  loop_run n messages new r ->
  (r = None <-> exists req, In (req, ({| Choices := [] |}, None)) (chats new)) /\
  (forall req resp e,
      In (req, (resp, Some e)) (chats new) ->
      exists msgs,
        r = Some ((EmptyString, Some ("ChatCompletion error: " +:+ e)), msgs)) /\
  (forall out e msgs,
      r = Some ((out, Some e), msgs) ->
      out = EmptyString /\
      (e = exceeded \/
       exists req resp e',
         In (req, (resp, Some e')) (chats new) /\
         e = "ChatCompletion error: " +:+ e')).
Proof.
  induction 1 as [messages|n messages req resp e Hm|n messages req Hm
                 |n messages req msg rest Hm Hnone
                 |n messages req msg rest tcs contents tool_events new r
                    Hm Htc Hl Hq Hrun IH].
  - split; [split; [discriminate|intros [? []]]|].
    split; [intros ? ? ? []|].
    intros out e msgs Hr. injection Hr as <- <- _. auto.
  - split; [split; [discriminate|intros [? [Hin|[]]]; discriminate Hin]|].
    split.
    + intros rq rs e' [Hin|[]]. injection Hin as _ _ <-. eauto.
    + intros out e' msgs Hr. injection Hr as <- <- _. split; [reflexivity|].
      right. exists req, resp, e. split; [now left|reflexivity].
  - split; [split; [intros _; exists req; now left|reflexivity]|].
    split; [intros ? ? ? [Hin|[]]; discriminate Hin|discriminate].
  - split; [split; [discriminate|intros [? [Hin|[]]]; discriminate Hin]|].
    split; [intros ? ? ? [Hin|[]]; discriminate Hin|discriminate].
  - destruct IH as (IH1 & IH2 & IH3). rewrite chats_round by assumption.
    split; [|split].
    + rewrite IH1. split.
      * intros [rq Hin]. exists rq. now right.
      * intros [rq [Hin|Hin]]; [discriminate Hin|eauto].
    + intros rq rs e [Hin|Hin]; [discriminate Hin|eauto].
    + intros out e msgs Hr. destruct (IH3 out e msgs Hr) as [-> [->|Hc]].
      * auto.
      * split; [reflexivity|]. right.
        destruct Hc as (rq & rs & e' & Hin & ->). exists rq, rs, e'.
        split; [now right|reflexivity].
Qed.

(** How a run of [executeSkillWithTools] can end badly.  It panics exactly
    when a chat completion succeeds without a choice; a failed chat
    completion is returned as "ChatCompletion error: ..."; and these two
    and the iteration limit are the only ways: no failure of a tool and no
    denial makes the function fail.  With an error the output is empty. *)
Theorem tool_loop_outcomes client userPrompt skill cfg (w : W) :
  let run :=
    exec (executeSkillWithTools os tool env client userPrompt skill cfg) w in
  let answered := chats (trace run.2) in
  (run.1 = None <-> exists req, In (req, ({| Choices := [] |}, None)) answered) /\
  (forall req resp e,
      In (req, (resp, Some e)) answered ->
      run.1 = Some (EmptyString, Some ("ChatCompletion error: " +:+ e))) /\
  (forall out e,
      run.1 = Some (out, Some e) ->
      out = EmptyString /\
      (e = exceeded \/
       exists req resp e',
         In (req, (resp, Some e')) answered /\
         e = "ChatCompletion error: " +:+ e')).
Proof.
  cbv zeta. rewrite executeSkillWithTools_project. cbn [fst snd].
  pose proof (executeSkillWithTools_loop_run os tool env client userPrompt skill
                cfg w) as Hrun.
  cbv zeta in Hrun.
  destruct (loop_run_outcomes _ _ _ _ Hrun) as (H1 & H2 & H3).
  split; [|split].
  - rewrite <- H1.
    destruct (exec (executeSkillWithTools_messages _ _ _ _ _ _ _) w).1
      as [[? ?]|]; cbn; split; congruence.
  - intros req resp e Hin. destruct (H2 _ _ _ Hin) as [msgs ->]. reflexivity.
  - intros out e Hr.
    destruct (exec (executeSkillWithTools_messages _ _ _ _ _ _ _) w).1
      as [[[out' e'] msgs]|]; [|discriminate Hr].
    cbn in Hr. injection Hr as -> ->. exact (H3 _ _ _ eq_refl).
Qed.

(** The calls of one assistant message are answered one by one and in
    order: the loop over them appends one tool-role message per call, with
    the id of that call, to the conversation it was given. *)
Theorem tool_calls_answered cfg scriptMap skill tcs messages (s : St W) :
  exists appended,
    (tool_calls_loop os tool env cfg scriptMap skill tcs messages s).1
    = Some (messages ++ appended) /\
    map ToolCallID appended = map ID tcs /\
    Forall (fun m => Role m = ChatMessageRoleTool /\ ToolCalls m = None) appended.
Proof.
  destruct (tool_calls_loop_yields os tool env cfg scriptMap skill tcs messages s)
    as (msgs & new & w' & E & _ & contents & Hl & ->).
  rewrite E. exists (zip_with tool_message tcs contents).
  split; [reflexivity|]. clear E. revert contents Hl.
  induction tcs as [|tc rest IH]; intros [|c contents] Hl; try discriminate Hl.
  - split; [reflexivity|constructor].
  - injection Hl as Hl. destruct (IH _ Hl) as [H1 H2]. cbn. split.
    + now rewrite H1.
    + constructor; auto.
Qed.

Lemma lower_byte_y (c : ascii) :
  lower_byte c = "y"%char <-> c = "y"%char \/ c = "Y"%char.
Proof.
  destruct c as [[] [] [] [] [] [] [] []]; vm_compute;
    split; intros H; try discriminate H; auto;
    destruct H as [H|H]; discriminate H.
Qed.

Lemma ToLower_y (input : string) :
  strings_ToLower input = "y" <-> input = "y" \/ input = "Y".
Proof.
  destruct input as [|c [|c' rest]]; cbn.
  - split; [discriminate|intros [H|H]; discriminate H].
  - split.
    + intros H. injection H as H. apply lower_byte_y in H.
      destruct H as [->| ->]; auto.
    + intros [H|H]; injection H as ->; reflexivity.
  - split; [discriminate|intros [H|H]; discriminate H].
Qed.

(** Without automatic approval a tool call runs exactly when the user's
    answer is "y" or "Y"; any other answer, the empty one included, makes
    the loop append the denial and go on without running it. *)
Theorem approval_needs_y cfg scriptMap skill messages tc (s : St W) input w' :
  AutoApproveTools cfg = false ->
  fmt_Scanln env (world s) = (input, w') ->
  let asked := {| world := w'; trace := trace s ++ [EvScanln input] |} in
  handle_tool_call os tool env cfg scriptMap skill messages tc s =
    if String.eqb input "y" || String.eqb input "Y"
    then run_tool_call os tool env scriptMap skill messages tc asked
    else (Some (messages ++ [denial tc]), asked).
Proof.
  intros Hoff Hin. cbv zeta. unfold handle_tool_call, bind, call.
  rewrite Hoff. cbn [negb]. cbv beta. rewrite Hin.
  destruct (String.eqb_spec (strings_ToLower input) "y") as [Hy|Hy];
    cbn [negb].
  - apply ToLower_y in Hy. destruct Hy as [-> | ->]; reflexivity.
  - destruct (String.eqb_spec input "y") as [->|_]; [now destruct Hy|].
    destruct (String.eqb_spec input "Y") as [->|_]; [now destruct Hy|].
    reflexivity.
Qed.

End ToolLoopTheorems.

Section ExecutorTheorems.

Context {W : Type} (os : OS W) (tool : ToolPkg W) (env : RunnerEnv W).

(** [executeToolCall] never panics, and whatever it calls is a tool
    back-end: it asks for no chat completion, prompts nobody and logs
    nothing; when it returns an error, the output is empty. *)
Theorem executeToolCall_calls_back_ends_only toolCall scriptMap skillPath (s : St W) :
  let run := executeToolCall os tool env toolCall scriptMap skillPath s in
  exists output err new,
    run.1 = Some (output, err) /\
    trace run.2 = trace s ++ new /\
    forallb is_tool_event new = true /\
    (err <> None -> output = EmptyString).
Proof.
  cbv zeta.
  destruct (executeToolCall_yields os tool env toolCall scriptMap skillPath s)
    as ([output err] & new & w' & E & Hn & Hq).
  rewrite E. exists output, err, new. auto.
Qed.

Lemma not_builtin (name : string) :
  ~ In name builtin_tools ->
  String.eqb name "run_shell_code" = false /\
  String.eqb name "run_shell_script" = false /\
  String.eqb name "run_python_code" = false /\
  String.eqb name "run_python_script" = false /\
  String.eqb name "read_file" = false /\
  String.eqb name "write_file" = false /\
  String.eqb name "duckduckgo_search" = false /\
  String.eqb name "wikipedia_search" = false /\
  String.eqb name "web_fetch" = false.
Proof.
  intros H. repeat split; apply String.eqb_neq; intros ->; apply H;
    unfold builtin_tools; cbn; auto 12.
Qed.

(** A call of a name that is neither built in nor a script of the skill
    reaches no back-end: the error is "unknown tool: <name>", and the tool
    loop hands it to the LLM as the tool-role message "Error: unknown
    tool: <name>". *)
Theorem unknown_tool cfg toolCall scriptMap skill messages (s : St W) :
  let name := Name (Function toolCall) in
  ~ In name builtin_tools ->
  scriptMap !! name = None ->
  executeToolCall os tool env toolCall scriptMap (Path skill) s =
    (Some (EmptyString, Some ("unknown tool: " +:+ name)), s) /\
  (AutoApproveTools cfg = true ->
   handle_tool_call os tool env cfg scriptMap skill messages toolCall s =
     (Some (messages ++ [tool_message toolCall
                           ("Error: unknown tool: " +:+ name)]), s)).
Proof.
  cbv zeta. intros Hname Hscript.
  destruct (not_builtin _ Hname) as (H1 & H2 & H3 & H4 & H5 & H6 & H7 & H8 & H9).
  assert (E : executeToolCall os tool env toolCall scriptMap (Path skill) s =
              (Some (EmptyString,
                     Some ("unknown tool: " +:+ Name (Function toolCall))), s)).
  { unfold executeToolCall.
    rewrite H1, H2, H3, H4, H5, H6, H7, H8, H9, Hscript. reflexivity. }
  split; [exact E|].
  intros Hauto. unfold handle_tool_call. rewrite Hauto. cbn [negb].
  unfold run_tool_call, bind. rewrite E. reflexivity.
Qed.

(** Arguments that do not decode reach no back-end either, whichever
    built-in tool is called: the error names the tool, "failed to unmarshal
    <name> arguments: ...", and the tool loop hands it to the LLM. *)
Theorem undecodable_arguments cfg toolCall scriptMap skill messages (s : St W) e :
  let name := Name (Function toolCall) in
  undecodable env name (Arguments (Function toolCall)) e ->
  let report := "failed to unmarshal " +:+ name +:+ " arguments: " +:+ e in
  executeToolCall os tool env toolCall scriptMap (Path skill) s =
    (Some (EmptyString, Some report), s) /\
  (AutoApproveTools cfg = true ->
   handle_tool_call os tool env cfg scriptMap skill messages toolCall s =
     (Some (messages ++ [tool_message toolCall ("Error: " +:+ report)]), s)).
Proof.
  cbv zeta. intros Hbad.
  assert (E : executeToolCall os tool env toolCall scriptMap (Path skill) s =
              (Some (EmptyString,
                     Some ("failed to unmarshal " +:+ Name (Function toolCall)
                           +:+ " arguments: " +:+ e)), s)).
  { unfold executeToolCall, undecodable in *.
    destruct Hbad as [[Hn Hd]|[[Hn Hd]|[[Hn Hd]|[[Hn Hd]|[[Hn Hd]|[Hn Hd]]]]]];
      cbn [In] in Hn;
      repeat match goal with
        | H : _ \/ _ |- _ => destruct H
        | H : False |- _ => destruct H
        end;
      match goal with
      | H : _ = Name (Function toolCall) |- _ => rewrite <- H
      | H : Name (Function toolCall) = _ |- _ => rewrite H
      end;
      cbn [String.eqb Ascii.eqb Bool.eqb]; rewrite Hd; reflexivity. }
  split; [exact E|].
  intros Hauto. unfold handle_tool_call. rewrite Hauto. cbn [negb].
  unfold run_tool_call, bind. rewrite E. reflexivity.
Qed.

(** The built-in names win over the scripts of the skill: for a built-in
    name the script map is not consulted, so a script that a skill declares
    under such a name can never be called. *)
Theorem builtin_shadows_script toolCall scriptMap scriptMap' skillPath :
  In (Name (Function toolCall)) builtin_tools ->
  executeToolCall os tool env toolCall scriptMap skillPath =
  executeToolCall os tool env toolCall scriptMap' skillPath.
Proof.
  unfold builtin_tools. cbn [In]. intros Hn. unfold executeToolCall.
  repeat match goal with
    | H : _ \/ _ |- _ => destruct H as [H|H]
    | H : False |- _ => destruct H
    end;
    rewrite <- Hn; reflexivity.
Qed.

(** A script tool is run by its extension: a path that ends in ".py" goes
    through [RunPythonScript], with the failure of the run wrapped, and any
    other path is handed to the shell runner in a single call.  Empty
    arguments are not decoded and stand for no arguments. *)
Theorem script_tool_dispatch toolCall scriptMap skillPath scriptPath args (w : W) :
  let name := Name (Function toolCall) in
  let arguments := Arguments (Function toolCall) in
  ~ In name builtin_tools ->
  scriptMap !! name = Some scriptPath ->
  (arguments = EmptyString /\ args = []) \/
  (arguments <> EmptyString /\ unmarshal_args env arguments = inl args) ->
  let run := exec (executeToolCall os tool env toolCall scriptMap skillPath) w in
  (strings_HasSuffix scriptPath ".py" = true ->
   let python := exec (RunPythonScript os scriptPath args) w in
   run = (option_map (tool_result name) python.1, python.2)) /\
  (strings_HasSuffix scriptPath ".py" = false ->
   let shell := RunShellScript tool scriptPath args w in
   run = (Some (tool_result name shell.1),
          {| world := shell.2;
             trace := [EvRunShellScript scriptPath args shell.1] |})).
Proof.
  cbv zeta. intros Hname Hscript Hargs.
  destruct (not_builtin _ Hname) as (H1 & H2 & H3 & H4 & H5 & H6 & H7 & H8 & H9).
  unfold exec, executeToolCall.
  rewrite H1, H2, H3, H4, H5, H6, H7, H8, H9, Hscript.
  assert (Hdec : (if String.eqb (Arguments (Function toolCall)) EmptyString
                  then inl []
                  else unmarshal_args env (Arguments (Function toolCall)))
                 = inl args).
  { destruct Hargs as [[-> ->]|[Hne Hd]]; [reflexivity|].
    apply String.eqb_neq in Hne. now rewrite Hne. }
  rewrite Hdec. split; intros Hsuffix; rewrite Hsuffix; unfold bind.
  - destruct (RunPythonScript os scriptPath args _) as [[r|] s']; reflexivity.
  - unfold call. cbn [world trace app].
    destruct (RunShellScript tool scriptPath args w) as [r w']. reflexivity.
Qed.

(** [read_file] with an absolute path, or without a skill root, reads the
    path as given and does not look at the file system first. *)
Theorem read_file_as_given toolCall scriptMap skillPath filePath (w : W) :
  Name (Function toolCall) = "read_file" ->
  unmarshal_filePath env (Arguments (Function toolCall)) = inl filePath ->
  filepath_IsAbs env filePath = true \/ skillPath = EmptyString ->
  let read := ReadFile tool filePath w in
  exec (executeToolCall os tool env toolCall scriptMap skillPath) w =
    (Some (tool_result "read_file" read.1),
     {| world := read.2; trace := [EvReadFile filePath read.1] |}).
Proof.
  intros Hname Hargs Hgiven. cbv zeta.
  unfold exec, executeToolCall, resolve_read_path. rewrite Hname, Hargs.
  cbn [String.eqb Ascii.eqb Bool.eqb].
  assert (Hcond : negb (filepath_IsAbs env filePath)
                  && negb (String.eqb skillPath EmptyString) = false).
  { destruct Hgiven as [-> | ->]; [reflexivity|]. apply andb_false_r. }
  rewrite Hcond. unfold bind, call, ret. cbn [world trace app].
  destruct (ReadFile tool filePath w) as [r w']. reflexivity.
Qed.

(** [write_file] makes one call of the writer and answers with
    "Successfully wrote to file: <path>", or with the wrapped error of the
    writer and no output. *)
Theorem write_file_confirms toolCall scriptMap skillPath filePath content (w : W) :
  Name (Function toolCall) = "write_file" ->
  unmarshal_filePath_content env (Arguments (Function toolCall))
  = inl (filePath, content) ->
  let written := WriteFile tool filePath content w in
  exec (executeToolCall os tool env toolCall scriptMap skillPath) w =
    (Some (match written.1 with
           | None => ("Successfully wrote to file: " +:+ filePath, None)
           | Some e =>
               (EmptyString,
                Some ("tool execution failed for write_file: " +:+ e))
           end),
     {| world := written.2;
        trace := [EvWriteFile filePath content written.1] |}).
Proof.
  intros Hname Hargs. cbv zeta.
  unfold exec, executeToolCall. rewrite Hname, Hargs.
  cbn [String.eqb Ascii.eqb Bool.eqb].
  unfold bind, call, ret. cbn [world trace app].
  destruct (WriteFile tool filePath content w) as [[e|] w']; reflexivity.
Qed.

End ExecutorTheorems.

(** *** The runner's further properties on scripted runs *)

Lemma tool_loop_requests_witness :
  let run :=
    exec (executeSkillWithTools_messages bare_os plain_tools (unix_env "y")
            two_step_client "hi" demo_skill (demo_cfg true)) 0%nat in
  run.1 = Some (("done", None),
                initial_messages "hi" demo_skill
                ++ [assistant EmptyString (Some [read_call "call_1" "notes.md"]);
                    tool_message (read_call "call_1" "notes.md")
                      "contents of notes.md";
                    assistant "done" None]) /\
  length (chats (trace run.2)) = 2%nat /\
  Forall (fun req =>
            Messages req `prefix_of`
              initial_messages "hi" demo_skill
              ++ [assistant EmptyString (Some [read_call "call_1" "notes.md"]);
                  tool_message (read_call "call_1" "notes.md")
                    "contents of notes.md";
                  assistant "done" None])
         (map fst (chats (trace run.2))).
Proof.
  cbv zeta.
  assert (Hr : (exec (executeSkillWithTools_messages bare_os plain_tools
                        (unix_env "y") two_step_client "hi" demo_skill
                        (demo_cfg true)) 0%nat).1
               = Some (("done", None),
                       initial_messages "hi" demo_skill
                       ++ [assistant EmptyString
                             (Some [read_call "call_1" "notes.md"]);
                           tool_message (read_call "call_1" "notes.md")
                             "contents of notes.md";
                           assistant "done" None])).
  { vm_compute. reflexivity. }
  split; [exact Hr|]. split; [vm_compute; reflexivity|].
  exact (proj2 (proj2 (proj2 (tool_loop_requests bare_os plain_tools
                                (unix_env "y") two_step_client "hi" demo_skill
                                (demo_cfg true) 0%nat)) _ _ Hr)).
Defined.

Lemma tool_loop_events_witness :
  let run :=
    exec (executeSkillWithTools bare_os plain_tools (unix_env "y")
            two_step_client "hi" demo_skill (demo_cfg true)) 0%nat in
  AutoApproveTools (demo_cfg true) = true /\
  forallb (loop_event (demo_cfg true)) (trace run.2) = true /\
  ~ In (EvScanln "y") (trace run.2).
Proof.
  cbv zeta. split; [reflexivity|]. split.
  - exact (proj1 (tool_loop_events bare_os plain_tools (unix_env "y")
                    two_step_client "hi" demo_skill (demo_cfg true) 0%nat)).
  - exact (proj2 (tool_loop_events bare_os plain_tools (unix_env "y")
                    two_step_client "hi" demo_skill (demo_cfg true) 0%nat)
             eq_refl "y").
Defined.

Lemma tool_loop_outcomes_witness :
  let run :=
    exec (executeSkillWithTools bare_os plain_tools (unix_env "y")
            offline_client "hi" demo_skill (demo_cfg true)) tt in
  (exists req,
      In (req, ({| Choices := [] |}, Some "connection refused"))
         (chats (trace run.2))) /\
  run.1 = Some (EmptyString, Some "ChatCompletion error: connection refused").
Proof.
  cbv zeta.
  assert (Hin : In ({| Model := "gpt-4o";
                       Messages := initial_messages "hi" demo_skill;
                       Tools := []; Temperature := 0 |},
                    ({| Choices := [] |}, Some "connection refused"))
                  (chats (trace (exec (executeSkillWithTools bare_os plain_tools
                                         (unix_env "y") offline_client "hi"
                                         demo_skill (demo_cfg true)) tt).2))).
  { vm_compute. left. reflexivity. }
  split; [eexists; exact Hin|].
  exact (proj1 (proj2 (tool_loop_outcomes bare_os plain_tools (unix_env "y")
                         offline_client "hi" demo_skill (demo_cfg true) tt))
           _ _ _ Hin).
Defined.

Lemma approval_needs_y_witness :
  let tc := read_call "call_1" "notes.md" in
  handle_tool_call (W := unit) bare_os plain_tools (unix_env "Y")
    (demo_cfg false) ∅ demo_skill [] tc {| world := tt; trace := [] |} =
  (Some [tool_message tc "contents of notes.md"],
   {| world := tt;
      trace := [EvScanln "Y";
                EvStat "skills/demo/notes.md" (Some "no such file or directory");
                EvReadFile "notes.md" ("contents of notes.md", None)] |}) /\
  handle_tool_call (W := unit) bare_os plain_tools (unix_env "yes")
    (demo_cfg false) ∅ demo_skill [] tc {| world := tt; trace := [] |} =
  (Some [denial tc], {| world := tt; trace := [EvScanln "yes"] |}).
Proof.
  cbv zeta. split.
  - rewrite (approval_needs_y (W := unit) bare_os plain_tools (unix_env "Y")
               (demo_cfg false) ∅ demo_skill [] (read_call "call_1" "notes.md")
               {| world := tt; trace := [] |} "Y" tt eq_refl eq_refl).
    vm_compute. reflexivity.
  - rewrite (approval_needs_y (W := unit) bare_os plain_tools (unix_env "yes")
               (demo_cfg false) ∅ demo_skill [] (read_call "call_1" "notes.md")
               {| world := tt; trace := [] |} "yes" tt eq_refl eq_refl).
    vm_compute. reflexivity.
Defined.

Lemma unknown_tool_witness :
  handle_tool_call (W := unit) bare_os plain_tools (unix_env "y")
    (demo_cfg true) demo_scripts demo_skill [] (named_call "deploy" "{}")
    {| world := tt; trace := [] |} =
  (Some [tool_message (named_call "deploy" "{}") "Error: unknown tool: deploy"],
   {| world := tt; trace := [] |}).
Proof.
  refine (proj2 (unknown_tool (W := unit) bare_os plain_tools (unix_env "y")
                   (demo_cfg true) (named_call "deploy" "{}") demo_scripts
                   demo_skill [] {| world := tt; trace := [] |} _ _) eq_refl).
  - vm_compute. intros H.
    repeat (destruct H as [H|H]; [discriminate H|]). exact H.
  - vm_compute. reflexivity.
Defined.

Lemma undecodable_arguments_witness :
  executeToolCall (W := unit) bare_os plain_tools garbled_env
    (named_call "web_fetch" "x") demo_scripts "skills/demo"
    {| world := tt; trace := [] |} =
  (Some (EmptyString,
         Some "failed to unmarshal web_fetch arguments: invalid character 'x' looking for beginning of value"),
   {| world := tt; trace := [] |}).
Proof.
  refine (proj1 (undecodable_arguments (W := unit) bare_os plain_tools
                   garbled_env (demo_cfg true) (named_call "web_fetch" "x")
                   demo_scripts demo_skill [] {| world := tt; trace := [] |}
                   "invalid character 'x' looking for beginning of value" _)).
  unfold undecodable. do 5 right. split; reflexivity.
Defined.

Lemma builtin_shadows_script_witness :
  executeToolCall (W := unit) bare_os plain_tools (unix_env "y")
    (named_call "read_file" "notes.md")
    {[ "read_file" := "scripts/read_file.sh" ]} "skills/demo" =
  executeToolCall (W := unit) bare_os plain_tools (unix_env "y")
    (named_call "read_file" "notes.md") ∅ "skills/demo".
Proof.
  apply builtin_shadows_script. vm_compute. do 4 right. left. reflexivity.
Defined.

Lemma script_tool_dispatch_witness :
  exec (executeToolCall (W := unit) bare_os plain_tools (unix_env "y")
          (named_call "lint" EmptyString) demo_scripts "skills/demo") tt =
  (Some (EmptyString, None),
   {| world := tt;
      trace := [EvRunShellScript "scripts/lint.sh" [] (EmptyString, None)] |}) /\
  exec (executeToolCall (W := unit) python_only_os plain_tools (unix_env "y")
          (named_call "plot" EmptyString) demo_scripts "skills/demo") tt =
  (Some ("outwarn", None),
   (exec (RunPythonScript python_only_os "scripts/plot.py" []) tt).2).
Proof.
  assert (Hname : forall name, name = "lint" \/ name = "plot" ->
                               ~ In name builtin_tools).
  { intros name [-> | ->]; vm_compute; intros H;
      repeat (destruct H as [H|H]; [discriminate H|]); exact H. }
  split.
  - refine (proj2 (script_tool_dispatch (W := unit) bare_os plain_tools
                     (unix_env "y") (named_call "lint" EmptyString) demo_scripts
                     "skills/demo" "scripts/lint.sh" [] tt _ _ _) _).
    + apply Hname. now left.
    + vm_compute. reflexivity.
    + left. split; reflexivity.
    + vm_compute. reflexivity.
  - refine (proj1 (script_tool_dispatch (W := unit) python_only_os plain_tools
                     (unix_env "y") (named_call "plot" EmptyString) demo_scripts
                     "skills/demo" "scripts/plot.py" [] tt _ _ _) _).
    + apply Hname. now right.
    + vm_compute. reflexivity.
    + left. split; reflexivity.
    + vm_compute. reflexivity.
Defined.

Lemma read_file_as_given_witness :
  exec (executeToolCall (W := unit) bare_os plain_tools (unix_env "y")
          (named_call "read_file" "/etc/hosts") ∅ "skills/demo") tt =
  (Some ("contents of /etc/hosts", None),
   {| world := tt;
      trace := [EvReadFile "/etc/hosts" ("contents of /etc/hosts", None)] |}).
Proof.
  refine (read_file_as_given (W := unit) bare_os plain_tools (unix_env "y")
            (named_call "read_file" "/etc/hosts") ∅ "skills/demo" "/etc/hosts"
            tt _ _ _); try reflexivity.
  left. reflexivity.
Defined.

Lemma write_file_confirms_witness :
  exec (executeToolCall (W := unit) bare_os plain_tools (unix_env "y")
          (named_call "write_file" "out.txt") ∅ "skills/demo") tt =
  (Some ("Successfully wrote to file: out.txt", None),
   {| world := tt; trace := [EvWriteFile "out.txt" EmptyString None] |}).
Proof.
  refine (write_file_confirms (W := unit) bare_os plain_tools (unix_env "y")
            (named_call "write_file" "out.txt") ∅ "skills/demo" "out.txt"
            EmptyString tt _ _); reflexivity.
Defined.

(** * Further properties of the subagents *)

Ltac run_llm unfolds :=
  intros task w; unfolds;
  unfold exec, first_choice, LogIfPresent, failed, bind, call, ret, panic; simpl;
  repeat (step_run; simpl).

Ltac finish_llm :=
  (split; [now repeat split|]);
  eexists _, _; split; [reflexivity|]; cbn;
  repeat match goal with H : Choices _ = _ |- _ => rewrite H end;
  first [ reflexivity | eexists; repeat split; reflexivity ].

(** The last event of an explicit trace. *)
Ltac split_last :=
  (eexists []) + (eexists [_]) + (eexists [_; _]) + (eexists [_; _; _])
  + (eexists [_; _; _; _]) + (eexists [_; _; _; _; _])
  + (eexists [_; _; _; _; _; _]).

Ltac finish_progress :=
  simpl in *; subst;
  try congruence;
  try solve [ eexists; reflexivity ];
  try solve [ split_last; reflexivity ].

Section SubagentTheorems.

Context {W : Type} (tool : ToolPkg W) (md : Renderers).

(** The analysis and the report subagent of both listings ask the LLM
    exactly once, with a system and a user message, no tools and the
    temperature 0.3 for an analysis and 0.5 for a report; a failure of the
    client becomes the failure of the task, an answer without choices makes
    [Execute] panic, and otherwise the output is the content of the first
    choice, whatever further choices there are. *)
Theorem llm_subagents_ask_once
    (a_en : @AgentEN.AnalysisSubagent W) (a_zh : @AgentZH.AnalysisSubagent W)
    (r_en : @AgentEN_rest.ReportSubagent W)
    (r_zh : @AgentZH_rest.ReportSubagent W) :
  llm_subagent_spec TaskTypeAnalyze (3 # 10) (AgentEN.analysis_model a_en)
    (AgentEN.AnalysisSubagent_request a_en)
    (AgentEN.AnalysisSubagent_Execute a_en) /\
  llm_subagent_spec TaskTypeAnalyze (3 # 10) (AgentZH.analysis_model a_zh)
    (AgentZH.AnalysisSubagent_request a_zh)
    (AgentZH.AnalysisSubagent_Execute a_zh) /\
  llm_subagent_spec TaskTypeReport (5 # 10) (AgentEN_rest.report_model r_en)
    (AgentEN_rest.ReportSubagent_request r_en)
    (AgentEN_rest.ReportSubagent_Execute r_en) /\
  llm_subagent_spec TaskTypeReport (5 # 10) (AgentZH_rest.report_model r_zh)
    (AgentZH_rest.ReportSubagent_request r_zh)
    (AgentZH_rest.ReportSubagent_Execute r_zh).
Proof.
  split; [|split; [|split]].
  - run_llm ltac:(unfold AgentEN.AnalysisSubagent_Execute).
    all: finish_llm.
  - run_llm ltac:(unfold AgentZH.AnalysisSubagent_Execute).
    all: finish_llm.
  - run_llm ltac:(unfold AgentEN_rest.ReportSubagent_Execute).
    all: finish_llm.
  - run_llm ltac:(unfold AgentZH_rest.ReportSubagent_Execute).
    all: finish_llm.
Qed.

Ltac finish_search :=
  simpl in *; subst;
  try congruence;
  try (split; [discriminate|]);
  try solve [ repeat constructor ];
  try solve [ repeat eexists; simpl; first [ eauto 10 | congruence ] ];
  try solve [ unfold consistent_result; cbn; auto ];
  try solve [ apply lookup_singleton_eq ].

(** The order in which the search subagent of both listings goes to its
    back-ends.  It never asks the LLM; every search uses the one query of
    the task; Tavily is always tried; DuckDuckGo is searched only after a
    Tavily error; the reviewer is asked only if there is a handler and only
    about the results Tavily returned, never about those of the fallback;
    the bigger search is made only after the reviewer asked for more;
    Wikipedia is searched only in runs that succeed; and a successful
    result records the query in its metadata. *)
Theorem search_call_discipline
    (en : @AgentEN.SearchSubagent W) (zh : @AgentZH.SearchSubagent W) :
  search_discipline_spec (AgentEN.search_interactionHandler en)
    (AgentEN.SearchSubagent_Execute tool en) /\
  search_discipline_spec (AgentZH.search_interactionHandler zh)
    (AgentZH.SearchSubagent_Execute tool zh).
Proof.
  split.
  - run_search ltac:(unfold AgentEN.SearchSubagent_Execute, AgentEN.web_search,
                       AgentEN.review).
    all: break_trace; finish_search.
  - run_search ltac:(unfold AgentZH.SearchSubagent_Execute, AgentZH.web_search,
                       AgentZH.review).
    all: break_trace; finish_search.
Qed.

Lemma search_one_query
    (en : @AgentEN.SearchSubagent W) (zh : @AgentZH.SearchSubagent W)
    (task : Task) (w : W) :
  Forall (uses_query (query_of task))
    (trace (exec (AgentEN.SearchSubagent_Execute tool en task) w).2) /\
  Forall (uses_query (query_of task))
    (trace (exec (AgentZH.SearchSubagent_Execute tool zh task) w).2).
Proof.
  split; revert task w.
  - run_search ltac:(unfold AgentEN.SearchSubagent_Execute, AgentEN.web_search,
                       AgentEN.review).
    all: repeat constructor.
  - run_search ltac:(unfold AgentZH.SearchSubagent_Execute, AgentZH.web_search,
                       AgentZH.review).
    all: repeat constructor.
Qed.

(** The query of a search is [parameters.query] whenever that is a string,
    the empty string included; only if it is missing or not a string is the
    description searched for. *)
Theorem search_query_choice
    (en : @AgentEN.SearchSubagent W) (zh : @AgentZH.SearchSubagent W)
    (task : Task) (w : W) :
  let t_en := trace (exec (AgentEN.SearchSubagent_Execute tool en task) w).2 in
  let t_zh := trace (exec (AgentZH.SearchSubagent_Execute tool zh task) w).2 in
  (forall query,
      Parameters task !! "query" = Some (AnyString query) ->
      Forall (uses_query query) t_en /\ Forall (uses_query query) t_zh) /\
  ((forall query, Parameters task !! "query" <> Some (AnyString query)) ->
   Forall (uses_query (Description task)) t_en /\
   Forall (uses_query (Description task)) t_zh).
Proof.
  cbv zeta.
  destruct (search_one_query en zh task w) as [Hq_en Hq_zh].
  unfold query_of, assert_string in Hq_en, Hq_zh. split.
  - intros query Hq. rewrite Hq in Hq_en, Hq_zh. auto.
  - intros Hq.
    destruct (Parameters task !! "query") as [[| q | l | n]|]; auto.
    now destruct (Hq q).
Qed.

(** The user prompt of the one chat request of a report task, in both
    listings: the counterpart of the analysis prompt, with the preamble
    "Based on the following information, " in the English listing, used
    for a context that is a single string, and its Chinese counterpart in
    the Chinese listing, used for a non-empty sequence of entries, which are
    joined by blank lines; otherwise the description alone. *)
Theorem report_prompt
    (en : @AgentEN_rest.ReportSubagent W) (zh : @AgentZH_rest.ReportSubagent W)
    (task : Task) (w : W) :
  let sent_en :=
    prompts_sent (trace (exec (AgentEN_rest.ReportSubagent_Execute en task) w).2) in
  let sent_zh :=
    prompts_sent (trace (exec (AgentZH_rest.ReportSubagent_Execute zh task) w).2) in
  (forall entries,
      Parameters task !! "context" = Some (AnyStrings entries) ->
      entries <> [] ->
      sent_zh = ["基于以下信息，" +:+ Description task +:+ ":" +:+ LF +:+ LF
                 +:+ strings_Join entries (LF +:+ LF)] /\
      sent_en = [Description task]) /\
  (forall context_data,
      Parameters task !! "context" = Some (AnyString context_data) ->
      sent_en = ["Based on the following information, " +:+ Description task
                 +:+ ":" +:+ LF +:+ LF +:+ context_data] /\
      sent_zh = [Description task]) /\
  ((forall entries,
       Parameters task !! "context" = Some (AnyStrings entries) -> entries = []) ->
   (forall context_data,
       Parameters task !! "context" <> Some (AnyString context_data)) ->
   sent_en = [Description task] /\ sent_zh = [Description task]).
Proof.
  cbv zeta.
  assert (Hen : prompts_sent
                  (trace (exec (AgentEN_rest.ReportSubagent_Execute en task) w).2)
                = [AgentEN_rest.ReportSubagent_prompt task]).
  { unfold exec, AgentEN_rest.ReportSubagent_Execute, first_choice, failed,
      bind, call, ret, panic; simpl.
    repeat (step_run; simpl); reflexivity. }
  assert (Hzh : prompts_sent
                  (trace (exec (AgentZH_rest.ReportSubagent_Execute zh task) w).2)
                = [AgentZH_rest.ReportSubagent_prompt task]).
  { unfold exec, AgentZH_rest.ReportSubagent_Execute, first_choice,
      LogIfPresent, failed, bind, call, ret, panic; simpl.
    repeat (step_run; simpl); reflexivity. }
  rewrite Hen, Hzh.
  unfold AgentEN_rest.ReportSubagent_prompt, AgentZH_rest.ReportSubagent_prompt,
    assert_string, assert_strings.
  split; [|split].
  - intros entries Hctx Hne. rewrite Hctx.
    destruct entries; [contradiction|]. split; reflexivity.
  - intros context_data Hctx. rewrite Hctx. split; reflexivity.
  - intros Hseq Hstr.
    destruct (Parameters task !! "context") as [[| s | l | t]|];
      try (split; reflexivity).
    + now destruct (Hstr s).
    + rewrite (Hseq l eq_refl). split; reflexivity.
Qed.

(** The progress lines of the Chinese listing.  Without a handler nothing
    is logged.  With one, the search, the analysis and the report subagent
    log their start line with the description before anything else, and a
    successful run ends with the line that reports the length of the output
    in bytes. *)
Theorem progress_lines
    (s : @AgentZH.SearchSubagent W) (a : @AgentZH.AnalysisSubagent W)
    (r : @AgentZH_rest.ReportSubagent W) :
  progress_spec (AgentZH.search_interactionHandler s)
    "> 网络搜索子Agent: " "✓ 已检索信息" (AgentZH.SearchSubagent_Execute tool s) /\
  progress_spec (AgentZH.analysis_interactionHandler a)
    "> 分析子Agent: " "✓ 分析完成" (AgentZH.AnalysisSubagent_Execute a) /\
  progress_spec (AgentZH_rest.report_interactionHandler r)
    "> 报告子Agent: " "✓ 报告已生成" (AgentZH_rest.ReportSubagent_Execute r).
Proof.
  split; [|split].
  - run_search ltac:(unfold AgentZH.SearchSubagent_Execute, AgentZH.web_search,
                       AgentZH.review).
    all: break_trace; finish_progress.
  - run_llm ltac:(unfold AgentZH.AnalysisSubagent_Execute).
    all: break_trace; finish_progress.
  - run_llm ltac:(unfold AgentZH_rest.ReportSubagent_Execute).
    all: break_trace; finish_progress.
Qed.

(** The user's global context.  In the Chinese listing the system prompt
    of an analysis or a report is a fixed text, the same for every task,
    followed by a heading and the global context if [global_context] is a
    non-empty string, and by nothing otherwise.  The English listing does
    not read [global_context]: setting it changes no request. *)
Theorem global_context_in_system_prompt
    (a : @AgentZH.AnalysisSubagent W) (r : @AgentZH_rest.ReportSubagent W)
    (a_en : @AgentEN.AnalysisSubagent W) (r_en : @AgentEN_rest.ReportSubagent W)
    (task plain : Task) :
  Parameters plain !! "global_context" = None ->
  let sys_a t := system_content (AgentZH.AnalysisSubagent_request a t) in
  let sys_r t := system_content (AgentZH_rest.ReportSubagent_request r t) in
  (forall g,
      Parameters task !! "global_context" = Some (AnyString g) ->
      g <> EmptyString ->
      sys_a task = sys_a plain +:+ global_context_heading +:+ g /\
      sys_r task = sys_r plain +:+ global_context_heading +:+ g) /\
  ((forall g, Parameters task !! "global_context" = Some (AnyString g) ->
              g = EmptyString) ->
   sys_a task = sys_a plain /\ sys_r task = sys_r plain) /\
  (forall value,
      AgentEN.AnalysisSubagent_request a_en
        (with_parameter task "global_context" value)
      = AgentEN.AnalysisSubagent_request a_en task /\
      AgentEN_rest.ReportSubagent_request r_en
        (with_parameter task "global_context" value)
      = AgentEN_rest.ReportSubagent_request r_en task).
Proof.
  intros Hplain. cbv zeta.
  unfold system_content, AgentZH.AnalysisSubagent_request,
    AgentZH_rest.ReportSubagent_request, AgentZH.AnalysisSubagent_systemPrompt,
    AgentZH_rest.ReportSubagent_systemPrompt, assert_string.
  cbn [Messages Content]. rewrite Hplain. cbn [String.eqb negb].
  split; [|split].
  - intros g Hg Hne. rewrite Hg. apply String.eqb_neq in Hne. rewrite Hne.
    split; reflexivity.
  - intros Hg.
    destruct (Parameters task !! "global_context") as [[| g | l | n]|];
      try (split; reflexivity).
    rewrite (Hg g eq_refl). split; reflexivity.
  - intros value.
    unfold AgentEN.AnalysisSubagent_request, AgentEN_rest.ReportSubagent_request,
      AgentEN.AnalysisSubagent_prompt, AgentEN_rest.ReportSubagent_prompt,
      with_parameter.
    cbn [Parameters Description].
    rewrite lookup_insert_ne by discriminate. split; reflexivity.
Qed.

End SubagentTheorems.

(** *** The subagents' further properties on scripted runs *)

Lemma search_call_discipline_witness :
  let t := trace (exec (AgentEN.SearchSubagent_Execute all_up
                          (en_search (Some eager_reviewer)) (search_task "go"))
                    tt).2 in
  In (EvTavilySearchWithLimit "go" 100 ("more", None)) t /\
  (exists results, In (EvReviewSearchResults results (true, None)) t) /\
  In (EvReviewSearchResults "web" (true, None)) t /\
  In (EvTavilySearch "go" ("web", None)) t.
Proof.
  cbv zeta.
  destruct (proj1 (search_call_discipline all_up
                     (en_search (Some eager_reviewer)) (zh_search None))
              (search_task "go") tt)
    as (_ & _ & _ & _ & Hrev & Hmore & _).
  assert (H1 : In (EvTavilySearchWithLimit "go" 100 ("more", None))
                 (trace (exec (AgentEN.SearchSubagent_Execute all_up
                                 (en_search (Some eager_reviewer))
                                 (search_task "go")) tt).2)).
  { vm_compute. do 2 right. left. reflexivity. }
  assert (H2 : In (EvReviewSearchResults "web" (true, None))
                 (trace (exec (AgentEN.SearchSubagent_Execute all_up
                                 (en_search (Some eager_reviewer))
                                 (search_task "go")) tt).2)).
  { vm_compute. right. left. reflexivity. }
  split; [exact H1|]. split; [exact (Hmore _ _ H1)|].
  split; [exact H2|]. exact (proj2 (Hrev _ _ H2)).
Defined.

Lemma search_query_choice_witness :
  Forall (uses_query EmptyString)
    (trace (exec (AgentZH.SearchSubagent_Execute all_up (zh_search None)
                    (search_task EmptyString)) tt).2) /\
  Forall (uses_query "compare the two")
    (trace (exec (AgentEN.SearchSubagent_Execute all_up (en_search None)
                    (analysis_task (AnyOther 0))) tt).2).
Proof.
  split.
  - refine (proj2 (proj1 (search_query_choice all_up (en_search None)
                            (zh_search None) (search_task EmptyString) tt)
                     EmptyString _)).
    vm_compute. reflexivity.
  - refine (proj1 (proj2 (search_query_choice all_up (en_search None)
                            (zh_search None) (analysis_task (AnyOther 0)) tt)
                     _)).
    intros query H. vm_compute in H. discriminate H.
Defined.

Lemma report_prompt_witness :
  prompts_sent (trace (exec (AgentZH_rest.ReportSubagent_Execute zh_report
                               (analysis_task (AnyStrings ["a"; "b"]))) tt).2)
  = ["基于以下信息，compare the two:" +:+ LF +:+ LF +:+ "a" +:+ LF +:+ LF +:+ "b"] /\
  prompts_sent (trace (exec (AgentEN_rest.ReportSubagent_Execute en_report
                               (analysis_task (AnyString "a"))) tt).2)
  = ["Based on the following information, compare the two:" +:+ LF +:+ LF +:+ "a"] /\
  prompts_sent (trace (exec (AgentEN_rest.ReportSubagent_Execute en_report
                               (analysis_task (AnyOther 0))) tt).2)
  = ["compare the two"].
Proof.
  split; [|split].
  - refine (proj1 (proj1 (report_prompt en_report zh_report
                            (analysis_task (AnyStrings ["a"; "b"])) tt)
                     ["a"; "b"] _ _)); [reflexivity|discriminate].
  - refine (proj1 (proj1 (proj2 (report_prompt en_report zh_report
                                   (analysis_task (AnyString "a")) tt))
                     "a" _)); reflexivity.
  - refine (proj1 (proj2 (proj2 (report_prompt en_report zh_report
                                   (analysis_task (AnyOther 0)) tt)) _ _)).
    + intros entries H. vm_compute in H. discriminate H.
    + intros context_data H. vm_compute in H. discriminate H.
Defined.

Lemma progress_lines_witness :
  let run := exec (AgentZH.AnalysisSubagent_Execute zh_analysis_logging
                     (analysis_task (AnyStrings ["a"]))) 0%nat in
  (exists rest,
      trace run.2 = EvLog ("> 分析子Agent: " +:+ "compare the two") :: rest) /\
  (exists earlier,
      trace run.2 = earlier ++ [EvLog ("✓ 分析完成 (5 字节)")]) /\
  world run.2 = 2%nat.
Proof.
  cbv zeta.
  destruct (proj1 (proj2 (progress_lines (W := nat) plain_tools
                            {| AgentZH.search_client := offline_client;
                               AgentZH.search_model := "gpt-4o";
                               AgentZH.search_verbose := false;
                               AgentZH.search_interactionHandler := None |}
                            zh_analysis_logging
                            {| AgentZH_rest.report_client := offline_client;
                               AgentZH_rest.report_model := "gpt-4o";
                               AgentZH_rest.report_verbose := false;
                               AgentZH_rest.report_interactionHandler := None |}))
              (analysis_task (AnyStrings ["a"])) 0%nat) as [_ H].
  destruct (H ltac:(discriminate)) as [Hfirst Hlast].
  split; [exact Hfirst|]. split; [|vm_compute; reflexivity].
  exact (Hlast {| Result_TaskType := TaskTypeAnalyze; Success := true;
                  Output := "first"; Error := EmptyString; Metadata := ∅ |}
           ltac:(vm_compute; reflexivity)).
Defined.

Lemma global_context_in_system_prompt_witness :
  let plain := analysis_task (AnyStrings ["a"]) in
  let task := with_parameter plain "global_context" (AnyString "be terse") in
  system_content (AgentZH.AnalysisSubagent_request zh_analysis task) =
  system_content (AgentZH.AnalysisSubagent_request zh_analysis plain)
  +:+ global_context_heading +:+ "be terse" /\
  system_content
    (AgentZH.AnalysisSubagent_request zh_analysis
       (with_parameter plain "global_context" (AnyOther 1))) =
  system_content (AgentZH.AnalysisSubagent_request zh_analysis plain).
Proof.
  cbv zeta. split.
  - refine (proj1 (proj1 (global_context_in_system_prompt zh_analysis zh_report
                            en_analysis en_report
                            (with_parameter (analysis_task (AnyStrings ["a"]))
                               "global_context" (AnyString "be terse"))
                            (analysis_task (AnyStrings ["a"])) _)
                     "be terse" _ _)).
    + vm_compute. reflexivity.
    + vm_compute. reflexivity.
    + discriminate.
  - refine (proj1 (proj1 (proj2 (global_context_in_system_prompt zh_analysis
                                   zh_report en_analysis en_report
                                   (with_parameter
                                      (analysis_task (AnyStrings ["a"]))
                                      "global_context" (AnyOther 1))
                                   (analysis_task (AnyStrings ["a"])) _)) _)).
    + vm_compute. reflexivity.
    + intros g H. vm_compute in H. discriminate H.
Defined.

(** * The runner's entry point *)

Section FramedFacts.

Context {W : Type}.

Lemma framed_ret {A} (a : A) : framed (@ret W A a).
Proof. intros [w t]. unfold ret, exec. cbn. now rewrite app_nil_r. Qed.

Lemma framed_panic {A} : framed (@panic W A).
Proof. intros [w t]. unfold panic, exec. cbn. now rewrite app_nil_r. Qed.

Lemma framed_call {A} (e : A -> Event) (f : W -> A * W) : framed (call e f).
Proof. intros [w t]. unfold call, exec. cbn. now destruct (f w). Qed.

Lemma framed_unlogged {A} (f : W -> A * W) : framed (unlogged f).
Proof.
  intros [w t]. unfold unlogged, exec. cbn. destruct (f w). cbn.
  now rewrite app_nil_r.
Qed.

Lemma framed_bind {A B} (m : M W A) (k : A -> M W B) :
  framed m -> (forall a, framed (k a)) -> framed (bind m k).
Proof.
  intros Hm Hk s. unfold exec, bind. rewrite (Hm s).
  unfold exec. destruct (m {| world := world s; trace := [] |}) as [[a|] [w1 t1]];
    cbn [fst snd world trace]; [|reflexivity].
  rewrite (Hk a {| world := w1; trace := trace s ++ t1 |}).
  rewrite (Hk a {| world := w1; trace := t1 |}).
  cbn [fst snd world trace]. now rewrite app_assoc.
Qed.

End FramedFacts.

Ltac framed_step :=
  first
    [ apply framed_ret
    | apply framed_panic
    | apply framed_call
    | apply framed_unlogged
    | apply framed_bind; [|intros ?]
    | match goal with
      | |- framed (match ?x with _ => _ end) => destruct x
      | |- framed (if ?x then _ else _) => destruct x
      | |- framed (let '_ := ?x in _) => destruct x
      end ].

Section FramedRunner.

Context {W : Type} (os : OS W) (tool : ToolPkg W) (env : RunnerEnv W).

Lemma executeToolCall_framed toolCall scriptMap skillPath :
  framed (executeToolCall os tool env toolCall scriptMap skillPath).
Proof.
  unfold executeToolCall, resolve_read_path, RunPythonScript, run_with,
    LookPath, Run.
  repeat framed_step.
Qed.

Lemma tool_calls_loop_framed cfg scriptMap skill tcs :
  forall messages,
    framed (tool_calls_loop os tool env cfg scriptMap skill tcs messages).
Proof.
  induction tcs as [|tc rest IH]; intros messages; cbn [tool_calls_loop].
  - apply framed_ret.
  - apply framed_bind; [|intros; apply IH].
    unfold handle_tool_call, run_tool_call.
    repeat first [ apply executeToolCall_framed | framed_step ].
Qed.

Lemma tool_loop_framed client cfg availableTools scriptMap skill n :
  forall messages,
    framed (tool_loop os tool env client cfg availableTools scriptMap skill n
              messages).
Proof.
  induction n as [|n IH]; intros messages; cbn [tool_loop].
  - apply framed_ret.
  - apply framed_bind; [apply framed_call|]. intros [resp [e|]].
    + apply framed_ret.
    + apply framed_bind; [unfold first_choice; repeat framed_step|].
      intros msg. destruct (ToolCalls msg); [|apply framed_ret].
      apply framed_bind; [apply tool_calls_loop_framed|]. intros; apply IH.
Qed.

Lemma executeSkillWithTools_framed client userPrompt skill cfg :
  framed (executeSkillWithTools os tool env client userPrompt skill cfg).
Proof.
  unfold executeSkillWithTools, executeSkillWithTools_messages.
  destruct (GenerateToolDefinitions env skill) as [availableTools scriptMap].
  apply framed_bind; [apply tool_loop_framed|].
  intros [r msgs]. apply framed_ret.
Qed.

End FramedRunner.

Section TrimFacts.

Lemma trimLeftASCII_head s cutset c rest :
  trimLeftASCII s cutset = String c rest -> in_cutset cutset c = false.
Proof.
  induction s as [|a s IH]; cbn [trimLeftASCII]; [discriminate|].
  destruct (in_cutset cutset a) eqn:Ha; [exact IH|].
  intros H. injection H as <- _. exact Ha.
Qed.

Lemma trimLeftASCII_suffix s cutset :
  exists removed, s = removed +:+ trimLeftASCII s cutset.
Proof.
  induction s as [|a s [removed IH]]; cbn [trimLeftASCII].
  - now exists EmptyString.
  - destruct (in_cutset cutset a).
    + exists (String a removed). rewrite append_cons. now rewrite <- IH.
    + now exists EmptyString.
Qed.

Lemma trimRightASCII_last s cutset :
  forall front c,
    trimRightASCII s cutset = front +:+ String c EmptyString ->
    in_cutset cutset c = false.
Proof.
  induction s as [|a s IH]; intros front c; cbn [trimRightASCII].
  - destruct front; discriminate.
  - destruct (trimRightASCII s cutset) as [|b kept].
    + destruct (in_cutset cutset a) eqn:Ha.
      * destruct front; discriminate.
      * destruct front as [|f front];
          rewrite ?append_cons, ?append_nil.
        -- intros H. injection H as <-. exact Ha.
        -- intros H. injection H as _ H. destruct front; discriminate.
    + destruct front as [|f front]; rewrite ?append_cons, ?append_nil.
      * discriminate.
      * intros H. injection H as _ H. exact (IH _ _ H).
Qed.

Lemma append_last_inv (a b : string) (c d : ascii) :
  a +:+ String c EmptyString = b +:+ String d EmptyString -> c = d.
Proof.
  revert b. induction a as [|x a IH]; intros [|y b];
    rewrite ?append_cons, ?append_nil; intros H.
  - now injection H.
  - injection H as _ H. destruct b; discriminate.
  - injection H as _ H. destruct a; discriminate.
  - injection H as _ H. exact (IH _ H).
Qed.

Lemma strings_Trim_ends s cutset :
  (forall c rest, strings_Trim s cutset = String c rest ->
                  in_cutset cutset c = false) /\
  (forall front c, strings_Trim s cutset = front +:+ String c EmptyString ->
                   in_cutset cutset c = false).
Proof.
  unfold strings_Trim. split.
  - intros c rest. apply trimLeftASCII_head.
  - intros front c H.
    destruct (trimLeftASCII_suffix (trimRightASCII s cutset) cutset)
      as [removed E].
    rewrite H in E.
    apply (trimRightASCII_last s cutset (removed +:+ front) c).
    rewrite E. now rewrite append_assoc.
Qed.

Lemma trimRightASCII_all s cutset :
  forallb (in_cutset cutset) (list_ascii_of_string s) = true ->
  trimRightASCII s cutset = EmptyString.
Proof.
  induction s as [|a s IH]; cbn; [reflexivity|].
  intros H. apply andb_prop in H as [Ha Hs]. now rewrite (IH Hs), Ha.
Qed.

Lemma trimRightASCII_kept body cutset c :
  in_cutset cutset c = false ->
  forall tail,
    forallb (in_cutset cutset) (list_ascii_of_string tail) = true ->
    trimRightASCII (body +:+ String c tail) cutset = body +:+ String c EmptyString.
Proof.
  intros Hc tail Htail.
  induction body as [|a body IH]; rewrite ?append_cons, ?append_nil;
    cbn [trimRightASCII].
  - now rewrite (trimRightASCII_all _ _ Htail), Hc.
  - rewrite IH. destruct body; reflexivity.
Qed.

Lemma trimLeftASCII_kept cutset lead :
  forallb (in_cutset cutset) (list_ascii_of_string lead) = true ->
  forall c rest,
    in_cutset cutset c = false ->
    trimLeftASCII (lead +:+ String c rest) cutset = String c rest.
Proof.
  intros Hlead c rest Hc.
  induction lead as [|a lead IH]; rewrite ?append_cons, ?append_nil;
    cbn [trimLeftASCII].
  - now rewrite Hc.
  - cbn in Hlead. apply andb_prop in Hlead as [Ha Hl]. rewrite Ha. auto.
Qed.

End TrimFacts.

Section DiscoveryFacts.

Context {W : Type} (disc : Discovery W).

Lemma foldl_file_skill packages :
  forall skills name,
    foldl goskills.file_skill skills packages !! name =
    match last_named name packages with
    | Some p => Some p
    | None => skills !! name
    end.
Proof.
  unfold last_named.
  induction packages as [|pkg packages IH]; intros skills name;
    cbn [foldl]; [reflexivity|].
  rewrite IH. destruct pkg as [p|]; cbn [goskills.file_skill].
  - change (omap id (Some p :: packages)) with (p :: omap id packages).
    rewrite filter_cons.
    destruct (decide (meta_Name (Meta p) = name)) as [<-|Hne].
    + rewrite last_cons, lookup_insert_eq. destruct (last _); reflexivity.
    + now rewrite lookup_insert_ne.
  - reflexivity.
Qed.

End DiscoveryFacts.

Section EntryPointFacts.

Context {W : Type} (os : OS W) (tool : ToolPkg W) (env : RunnerEnv W)
  (disc : Discovery W).

Lemma discoverSkills_run skillsRoot (s : St W) :
  goskills.discoverSkills disc skillsRoot s =
  let parsed := ParseSkillPackages disc skillsRoot (world s) in
  (Some (match parsed.1.2 with
         | Some e => (∅, Some e)
         | None => (foldl goskills.file_skill ∅ parsed.1.1, None)
         end),
   {| world := parsed.2; trace := trace s |}).
Proof.
  unfold goskills.discoverSkills, bind, unlogged.
  destruct (ParseSkillPackages disc skillsRoot (world s))
    as [[packages [e|]] w1]; reflexivity.
Qed.

Lemma selectSkill_run client model userPrompt skills (s : St W) :
  goskills.selectSkill disc client model userPrompt skills s =
  let ordered := range_order disc skills (world s) in
  let req := goskills.selectSkill_request model userPrompt ordered.1 in
  let answered := CreateChatCompletion client req ordered.2 in
  (match answered.1.2 with
   | Some e => Some (EmptyString, Some e)
   | None =>
       match Choices answered.1.1 with
       | [] => None
       | msg :: _ => Some (goskills.skill_name_of (Content msg), None)
       end
   end,
   {| world := answered.2; trace := trace s ++ [EvChat req answered.1] |}).
Proof.
  unfold goskills.selectSkill, bind, unlogged, call.
  destruct (range_order disc skills (world s)) as [visited w2].
  cbn [fst snd world trace].
  destruct (CreateChatCompletion client _ w2) as [[resp [e|]] w3];
    cbn [fst snd]; [reflexivity|].
  unfold first_choice. destruct (Choices resp); reflexivity.
Qed.

(** [Run] stage by stage. *)
Lemma Run_stages userPrompt cfg (w : W) :
  exec (goskills.Run os tool env disc userPrompt cfg) w =
  if String.eqb (APIKey cfg) EmptyString
  then (Some (EmptyString, Some "API key is not set"),
        {| world := w; trace := [] |})
  else
    let cfg' := goskills.with_default_model cfg in
    let client :=
      openai_NewClientWithConfig disc (goskills.openaiConfig_of disc cfg') in
    let parsed := ParseSkillPackages disc (SkillsDir cfg) w in
    match parsed.1.2 with
    | Some e =>
        (Some (EmptyString, Some ("failed to discover skills: " +:+ e)),
         {| world := parsed.2; trace := [] |})
    | None =>
        let skills := foldl goskills.file_skill ∅ parsed.1.1 in
        if (size skills =? 0)%nat
        then (Some (EmptyString, Some "no valid skills found"),
              {| world := parsed.2; trace := [] |})
        else
          let ordered := range_order disc skills parsed.2 in
          let req :=
            goskills.selectSkill_request (cfg_Model cfg') userPrompt ordered.1 in
          let answered := CreateChatCompletion client req ordered.2 in
          let selected := {| world := answered.2;
                             trace := [EvChat req answered.1] |} in
          match answered.1.2 with
          | Some e =>
              (Some (EmptyString,
                     Some ("failed during skill selection: " +:+ e)), selected)
          | None =>
              match Choices answered.1.1 with
              | [] => (None, selected)
              | msg :: _ =>
                  let name := goskills.skill_name_of (Content msg) in
                  match skills !! name with
                  | None =>
                      (Some (EmptyString,
                             Some (goskills.nonexistent_skill name)), selected)
                  | Some skill =>
                      let inner :=
                        exec (executeSkillWithTools os tool env client
                                userPrompt skill cfg') answered.2 in
                      (option_map execution_result inner.1,
                       {| world := world inner.2;
                          trace := EvChat req answered.1 :: trace inner.2 |})
                  end
              end
          end
    end.
Proof.
  unfold exec at 1, goskills.Run.
  destruct (String.eqb (APIKey cfg) EmptyString); [reflexivity|].
  cbv zeta.
  replace (SkillsDir (goskills.with_default_model cfg)) with (SkillsDir cfg)
    by (unfold goskills.with_default_model; now destruct (String.eqb _ _)).
  unfold bind at 1. rewrite discoverSkills_run. cbv zeta. cbn [world trace].
  destruct (ParseSkillPackages disc (SkillsDir cfg) w) as [[packages [e|]] w1];
    cbn [fst snd]; [reflexivity|].
  destruct (size _ =? 0)%nat; [reflexivity|].
  unfold bind at 1. rewrite selectSkill_run. cbv zeta. cbn [world trace app].
  destruct (range_order disc _ w1) as [visited w2]. cbn [fst snd].
  destruct (CreateChatCompletion _ _ w2) as [[resp [e|]] w3]; cbn [fst snd];
    [reflexivity|].
  destruct (Choices resp) as [|msg rest]; [reflexivity|].
  destruct (_ !! _) as [skill|]; [|reflexivity].
  unfold bind.
  rewrite (executeSkillWithTools_framed os tool env _ userPrompt skill _
             {| world := w3; trace := _ |}).
  cbn [world trace app].
  destruct (exec _ w3) as [[[out [e|]]|] [w4 t4]]; reflexivity.
Qed.

End EntryPointFacts.

Section EntryPointTheorems.

Context {W : Type} (os : OS W) (tool : ToolPkg W) (env : RunnerEnv W)
  (disc : Discovery W).

Lemma last_named_in name packages p :
  last_named name packages = Some p ->
  meta_Name (Meta p) = name /\ In (Some p) packages.
Proof.
  unfold last_named. intros H. apply last_Some_elem_of in H.
  apply list_elem_of_filter in H as [Hname H].
  apply list_elem_of_omap in H as (pkg & Hin & Hp).
  destruct pkg as [q|]; [|discriminate]. injection Hp as ->.
  split; [exact Hname|]. now apply list_elem_of_In.
Qed.

Lemma last_named_found packages p :
  In (Some p) packages -> last_named (meta_Name (Meta p)) packages <> None.
Proof.
  unfold last_named. intros Hin Hnone. apply last_None in Hnone.
  assert (Hp : p ∈ filter (fun q => meta_Name (Meta q) = meta_Name (Meta p))
                      (omap id packages)).
  { apply list_elem_of_filter. split; [reflexivity|].
    apply list_elem_of_omap. exists (Some p).
    split; [now apply list_elem_of_In|reflexivity]. }
  rewrite Hnone in Hp. inversion Hp.
Qed.

Lemma discovered_nothing packages :
  size (foldl goskills.file_skill ∅ packages) = 0%nat <->
  Forall (fun pkg => pkg = None) packages.
Proof.
  split.
  - intros Hsize. apply map_size_empty_inv in Hsize.
    apply Forall_forall. intros [p|] Hin; [|reflexivity].
    apply list_elem_of_In in Hin.
    exfalso. apply (last_named_found packages p Hin).
    pose proof (foldl_file_skill packages ∅ (meta_Name (Meta p))) as E.
    rewrite Hsize, !lookup_empty in E.
    destruct (last_named _ _); [discriminate|reflexivity].
  - intros Hall. apply map_size_empty_iff. apply map_eq. intros name.
    rewrite foldl_file_skill, lookup_empty.
    destruct (last_named name packages) as [p|] eqn:E; [|reflexivity].
    apply last_named_in in E as [_ Hin]. apply list_elem_of_In in Hin.
    rewrite Forall_forall in Hall. discriminate (Hall _ Hin).
Qed.

(** What [discoverSkills] keeps.  It calls nothing that the trace records.
    If the parser fails, its error is returned unchanged and with no skills;
    otherwise the skills are filed by the name in their metadata: nil
    packages are skipped, and of several packages with one name the last
    one is kept.  So every skill found is filed under its own name and was
    among the packages parsed, and every package parsed has its name among
    the skills. *)
Theorem discoverSkills_keeps_last skillsRoot (w : W) :
  let run := exec (goskills.discoverSkills disc skillsRoot) w in
  let parsed := (ParseSkillPackages disc skillsRoot w).1 in
  trace run.2 = [] /\
  exists skills,
    run.1 = Some (skills, parsed.2) /\
    match parsed.2 with
    | Some e => skills = ∅
    | None =>
        (forall name, skills !! name = last_named name parsed.1) /\
        (forall name p,
            skills !! name = Some p ->
            meta_Name (Meta p) = name /\ In (Some p) parsed.1) /\
        (forall p, In (Some p) parsed.1 ->
                   exists kept, skills !! meta_Name (Meta p) = Some kept)
    end.
Proof.
  cbv zeta. unfold exec. rewrite discoverSkills_run. cbv zeta.
  cbn [fst snd world trace].
  destruct (ParseSkillPackages disc skillsRoot w) as [[packages [e|]] w1];
    cbn [fst snd].
  - split; [reflexivity|]. now exists ∅.
  - split; [reflexivity|].
    exists (foldl goskills.file_skill ∅ packages). split; [reflexivity|].
    assert (Hlookup : forall name,
               foldl goskills.file_skill ∅ packages !! name
               = last_named name packages).
    { intros name. rewrite foldl_file_skill, lookup_empty.
      now destruct (last_named name packages). }
    split; [exact Hlookup|]. split.
    + intros name p Hp. rewrite Hlookup in Hp. now apply last_named_in.
    + intros p Hin. rewrite Hlookup.
      destruct (last_named _ _) as [kept|] eqn:E; [now exists kept|].
      now apply last_named_found in Hin.
Qed.

(** The name that [selectSkill] makes of an answer never starts and never
    ends with a quote character; and if the answer, trimmed of white space,
    is a name wrapped in any number of single and double quotes, a name
    that itself neither starts nor ends with a quote, then that name is
    selected. *)
Theorem selected_name_unquoted (content : string) :
  let name := goskills.skill_name_of content in
  (forall c rest, name = String c rest -> in_cutset quotes c = false) /\
  (forall front c,
      name = front +:+ String c EmptyString -> in_cutset quotes c = false) /\
  (forall opening c body d closing,
      strings_TrimSpace content
      = opening +:+ String c (body +:+ String d EmptyString) +:+ closing ->
      all_of quotes opening -> all_of quotes closing ->
      in_cutset quotes c = false -> in_cutset quotes d = false ->
      name = String c (body +:+ String d EmptyString)) /\
  (forall opening c closing,
      strings_TrimSpace content = opening +:+ String c closing ->
      all_of quotes opening -> all_of quotes closing ->
      in_cutset quotes c = false ->
      name = String c EmptyString).
Proof.
  cbv zeta. unfold goskills.skill_name_of.
  destruct (strings_Trim_ends (strings_TrimSpace content) quotes)
    as [Hhead Hlast].
  split; [exact Hhead|]. split; [exact Hlast|]. split.
  - intros opening c body d closing -> Hopen Hclose Hc Hd.
    unfold strings_Trim.
    replace (opening +:+ String c (body +:+ String d EmptyString) +:+ closing)
      with ((opening +:+ String c body) +:+ String d closing)
      by (rewrite !append_assoc, !append_cons, !append_assoc;
          now rewrite append_cons, append_nil).
    rewrite (trimRightASCII_kept _ quotes d Hd closing Hclose).
    rewrite append_assoc, append_cons.
    now rewrite (trimLeftASCII_kept quotes opening Hopen c _ Hc).
  - intros opening c closing -> Hopen Hclose Hc.
    unfold strings_Trim.
    rewrite (trimRightASCII_kept _ quotes c Hc closing Hclose).
    now rewrite (trimLeftASCII_kept quotes opening Hopen c _ Hc).
Qed.

End EntryPointTheorems.

Ltac enter_Run :=
  cbv zeta; rewrite Run_stages;
  destruct (String.eqb (APIKey _) EmptyString) eqn:Hkey;
  [ apply String.eqb_eq in Hkey
  | apply String.eqb_neq in Hkey; cbv zeta;
    destruct (ParseSkillPackages _ _ _) as [[packages [e|]] w1];
    cbn [fst snd];
    [ | destruct (size _ =? 0)%nat eqn:Hsize;
        [ apply Nat.eqb_eq in Hsize
        | apply Nat.eqb_neq in Hsize;
          destruct (range_order _ _ w1) as [visited w2]; cbn [fst snd];
          destruct (CreateChatCompletion _ _ w2) as [[[choices] [e|]] w3];
          cbn [fst snd Choices];
          [ | destruct choices as [|msg rest];
              [ | destruct (_ !! _) as [skill|] eqn:Hskill ] ] ] ] ].

Lemma chats_chat req ans (t : list Event) :
  chats (EvChat req ans :: t) = (req, ans) :: chats t.
Proof. reflexivity. Qed.

Section RunTheorems.

Context {W : Type} (os : OS W) (tool : ToolPkg W) (env : RunnerEnv W)
  (disc : Discovery W).

Lemma with_default_model_Model cfg :
  cfg_Model (goskills.with_default_model cfg) =
  if String.eqb (cfg_Model cfg) EmptyString then "gpt-4o" else cfg_Model cfg.
Proof.
  unfold goskills.with_default_model.
  destruct (String.eqb (cfg_Model cfg) EmptyString) eqn:E; reflexivity.
Qed.

Lemma with_default_model_events cfg :
  loop_event (goskills.with_default_model cfg) = loop_event cfg.
Proof.
  unfold goskills.with_default_model.
  destruct (String.eqb (cfg_Model cfg) EmptyString); reflexivity.
Qed.

(** What is known of a run of [executeSkillWithTools]. *)
Lemma execution_facts client userPrompt skill cfg (w : W) :
  let inner :=
    exec (executeSkillWithTools os tool env client userPrompt skill cfg) w in
  exists r,
    inner.1 = option_map fst r /\
    loop_run 10 (initial_messages userPrompt skill) (trace inner.2) r /\
    forallb (loop_event cfg) (trace inner.2) = true /\
    Forall (fun req => Model req = cfg_Model cfg /\
                       initial_messages userPrompt skill `prefix_of` Messages req)
      (map fst (chats (trace inner.2))).
Proof.
  cbv zeta. rewrite executeSkillWithTools_project. cbn [fst snd].
  pose proof (executeSkillWithTools_loop_run os tool env client userPrompt skill
                cfg w) as Hrun.
  cbv zeta in Hrun.
  exists (exec (executeSkillWithTools_messages os tool env client userPrompt
                  skill cfg) w).1.
  split; [reflexivity|]. split; [exact Hrun|].
  unfold exec, executeSkillWithTools_messages.
  destruct (GenerateToolDefinitions env skill) as [availableTools scriptMap].
  destruct (tool_loop_trace os tool env client cfg availableTools scriptMap skill
              10 (initial_messages userPrompt skill)
              {| world := w; trace := [] |})
    as (new & Htrace & Hev & Hreq & _).
  cbn [trace app] in Htrace. rewrite Htrace. split; [exact Hev|].
  eapply Forall_impl; [exact Hreq|].
  intros req (Hmodel & _ & Hprefix). auto.
Qed.

(** The LLM is asked only when there is something to select from.  Without
    an API key [Run] fails at once: nothing is read and nothing is called.
    If the skills directory cannot be parsed, or holds no package that is
    not nil, [Run] fails without a single call; in every other case the
    first call of the run is a chat completion. *)
Theorem Run_asks_only_with_skills userPrompt cfg (w : W) :
  let run := exec (goskills.Run os tool env disc userPrompt cfg) w in
  let parsed := (ParseSkillPackages disc (SkillsDir cfg) w).1 in
  (APIKey cfg = EmptyString ->
   run = (Some (EmptyString, Some "API key is not set"),
          {| world := w; trace := [] |})) /\
  (APIKey cfg <> EmptyString ->
   forall e,
     parsed.2 = Some e ->
     run.1 = Some (EmptyString, Some ("failed to discover skills: " +:+ e)) /\
     trace run.2 = []) /\
  (APIKey cfg <> EmptyString ->
   parsed.2 = None ->
   Forall (fun pkg => pkg = None) parsed.1 ->
   run.1 = Some (EmptyString, Some "no valid skills found") /\
   trace run.2 = []) /\
  (APIKey cfg <> EmptyString ->
   parsed.2 = None ->
   forall p, In (Some p) parsed.1 ->
   exists req ans rest, trace run.2 = EvChat req ans :: rest).
Proof.
  cbv zeta. rewrite Run_stages.
  destruct (String.eqb (APIKey cfg) EmptyString) eqn:Hkey.
  { apply String.eqb_eq in Hkey. repeat split; try reflexivity; contradiction. }
  apply String.eqb_neq in Hkey. cbv zeta.
  split; [contradiction|].
  destruct (ParseSkillPackages disc (SkillsDir cfg) w) as [[packages err] w1].
  cbn [fst snd]. split; [|split].
  - intros _ e ->. auto.
  - intros _ -> Hall. apply discovered_nothing in Hall. rewrite Hall. auto.
  - intros _ -> p Hin.
    destruct (size _ =? 0)%nat eqn:Hsize.
    { apply Nat.eqb_eq in Hsize. apply discovered_nothing in Hsize.
      rewrite Forall_forall in Hsize. apply list_elem_of_In in Hin.
      discriminate (Hsize _ Hin). }
    destruct (range_order disc _ w1) as [visited w2]. cbn [fst snd].
    destruct (CreateChatCompletion _ _ w2) as [[[choices] [e|]] w3];
      cbn [fst snd Choices]; [eauto|].
    destruct choices as [|msg rest]; [eauto|].
    destruct (_ !! _) as [skill|]; cbn [snd trace]; eauto.
Qed.

(** The chat completions of a run of [Run], for every input: there are at
    most eleven, one to select the skill and up to ten in the tool loop;
    each names the configured model, or "gpt-4o" if none is configured; the
    first one, if any, is the selection: a system and a user message, no
    tools, temperature 0; and beside chat completions the run only calls
    tool back-ends and, unless tools are approved automatically, the
    user. *)
Theorem Run_chat_budget userPrompt cfg (w : W) :
  let run := exec (goskills.Run os tool env disc userPrompt cfg) w in
  let model := if String.eqb (cfg_Model cfg) EmptyString
               then "gpt-4o" else cfg_Model cfg in
  (length (chats (trace run.2)) <= 11)%nat /\
  Forall (fun req => Model req = model) (map fst (chats (trace run.2))) /\
  (forall req ans rest,
      chats (trace run.2) = (req, ans) :: rest ->
      plain_request 0 model req /\
      exists later, trace run.2 = EvChat req ans :: later) /\
  forallb (loop_event cfg) (trace run.2) = true.
Proof.
  assert (Hsel : forall visited,
             plain_request 0
               (if String.eqb (cfg_Model cfg) EmptyString
                then "gpt-4o" else cfg_Model cfg)
               (goskills.selectSkill_request
                  (cfg_Model (goskills.with_default_model cfg)) userPrompt
                  visited)).
  { intros visited. rewrite with_default_model_Model. repeat split. }
  enter_Run; cbn [snd trace]; rewrite ?chats_chat;
    cbn [length map fst]; change (chats []) with (@nil (ChatCompletionRequest * (ChatCompletionResponse * option error))); cbn [length map].
  1-3: (split; [lia|]; split; [constructor|]; split; [discriminate|reflexivity]).
  1,2,4: (split; [lia|]; split;
        [ apply List.Forall_cons; [exact (proj1 (proj2 (proj2 (Hsel _))))
                                  |apply List.Forall_nil]
        | split; [|reflexivity];
          intros req ans later H; injection H as <- <- <-;
          split; [apply Hsel|eauto] ]).
  destruct (execution_facts
              (openai_NewClientWithConfig disc
                 (goskills.openaiConfig_of disc (goskills.with_default_model cfg)))
              userPrompt skill (goskills.with_default_model cfg) w3)
    as (r & _ & Hrun & Hev & Hreq).
  cbv zeta in Hrun, Hev, Hreq.
  split; [|split; [|split]].
  - apply loop_run_bound in Hrun. cbn [length]. lia.
  - apply List.Forall_cons; [exact (proj1 (proj2 (proj2 (Hsel _))))|].
    eapply Forall_impl; [exact Hreq|].
    intros req [Hmodel _]. now rewrite Hmodel, with_default_model_Model.
  - intros req ans later H. injection H as <- <- <-.
    split; [apply Hsel|eauto].
  - cbn [forallb]. rewrite with_default_model_events in Hev.
    rewrite Hev. reflexivity.
Qed.

(** How [Run] ends, for every input.  It panics exactly when some chat
    completion succeeds without a choice.  When it returns an error the
    output is empty and the error names the stage that failed: the
    pre-flight check, the discovery, the selection or the execution.  When
    it returns without error, the run ends with a chat completion that is
    not the selection, whose first choice carries no tool calls and whose
    content is the output. *)
Theorem Run_outcomes userPrompt cfg (w : W) :
  let run := exec (goskills.Run os tool env disc userPrompt cfg) w in
  let answered := chats (trace run.2) in
  (run.1 = None <-> exists req, In (req, ({| Choices := [] |}, None)) answered) /\
  (forall out e,
      run.1 = Some (out, Some e) -> out = EmptyString /\ Run_error e) /\
  (forall out,
      run.1 = Some (out, None) ->
      exists earlier req msg rest,
        trace run.2
        = earlier ++ [EvChat req ({| Choices := msg :: rest |}, None)] /\
        earlier <> [] /\ ToolCalls msg = None /\ Content msg = out).
Proof.
  enter_Run; cbn [fst snd trace]; rewrite ?chats_chat;
    change (chats []) with (@nil (ChatCompletionRequest *
                                  (ChatCompletionResponse * option error))).
  1-3: (split; [split; [discriminate|intros [? []]]|];
        split; [|discriminate];
        intros out e' H; injection H as <- <-; split; [reflexivity|constructor]).
  - split; [split; [discriminate|intros [? [H|[]]]; discriminate H]|].
    split; [|discriminate].
    intros out e' H; injection H as <- <-; split; [reflexivity|constructor].
  - split; [split; [intros _; eexists; left; reflexivity|reflexivity]|].
    split; discriminate.
  - destruct (execution_facts
                (openai_NewClientWithConfig disc
                   (goskills.openaiConfig_of disc
                      (goskills.with_default_model cfg)))
                userPrompt skill (goskills.with_default_model cfg) w3)
      as (r & Hr & Hrun & _).
    cbv zeta in Hr, Hrun. rewrite Hr.
    destruct (loop_run_outcomes _ _ _ _ Hrun) as (H1 & _ & H3).
    split; [|split].
    + split.
      * intros Hnone. destruct r as [[[o err] msgs]|]; [discriminate Hnone|].
        destruct (proj1 H1 eq_refl) as [req Hin]. exists req. now right.
      * intros [req [Hin|Hin]]; [discriminate Hin|].
        now rewrite (proj2 H1 (ex_intro _ req Hin)).
    + intros out e Hout. destruct r as [[[o [err|]] msgs]|]; try discriminate.
      cbn in Hout. injection Hout as <- <-. split; [reflexivity|].
      destruct (H3 _ _ _ eq_refl) as [_ [->|(req & resp & e' & _ & ->)]];
        constructor.
    + intros out Hout. destruct r as [[[o [err|]] msgs]|]; try discriminate.
      cbn in Hout. injection Hout as <-.
      destruct (loop_run_success _ _ _ _ Hrun _ _ eq_refl)
        as (earlier & m & req & rs & pre & _ & Htc & Hc & Hnew).
      rewrite Hnew.
      eexists (_ :: pre), req, m, rs. split; [reflexivity|]. auto.
  - split; [split; [discriminate|intros [? [H|[]]]; discriminate H]|].
    split; [|discriminate].
    intros out e' H; injection H as <- <-; split; [reflexivity|constructor].
Qed.

(** [Run] is the selection followed by the execution of the selected
    skill.  When the skills directory is parsed, holds a package and the
    LLM answers the selection with a first choice, the name made of that
    answer is looked up among the packages parsed: if no package has that
    name, [Run] fails after this one call, naming the skill; otherwise the
    rest of the run is the run of [executeSkillWithTools] on the last
    package of that name, with the same client and the configuration with
    its default model, from the world the selection left behind. *)
Theorem Run_executes_selected userPrompt cfg (w : W)
    packages p w1 visited w2 msg rest w3 :
  let cfg' := goskills.with_default_model cfg in
  let client :=
    openai_NewClientWithConfig disc (goskills.openaiConfig_of disc cfg') in
  let skills := foldl goskills.file_skill ∅ packages in
  let req := goskills.selectSkill_request (cfg_Model cfg') userPrompt visited in
  let selection := EvChat req ({| Choices := msg :: rest |}, None) in
  let name := goskills.skill_name_of (Content msg) in
  let run := exec (goskills.Run os tool env disc userPrompt cfg) w in
  APIKey cfg <> EmptyString ->
  ParseSkillPackages disc (SkillsDir cfg) w = ((packages, None), w1) ->
  In (Some p) packages ->
  range_order disc skills w1 = (visited, w2) ->
  CreateChatCompletion client req w2
  = (({| Choices := msg :: rest |}, None), w3) ->
  match last_named name packages with
  | None =>
      run = (Some (EmptyString, Some (goskills.nonexistent_skill name)),
             {| world := w3; trace := [selection] |})
  | Some skill =>
      let inner :=
        exec (executeSkillWithTools os tool env client userPrompt skill cfg')
          w3 in
      run = (option_map execution_result inner.1,
             {| world := world inner.2; trace := selection :: trace inner.2 |})
  end.
Proof.
  cbv zeta. intros Hkey Hparse Hin Horder Hchat.
  rewrite Run_stages. apply String.eqb_neq in Hkey. rewrite Hkey.
  cbv zeta. rewrite Hparse. cbn [fst snd].
  destruct (size _ =? 0)%nat eqn:Hsize.
  { apply Nat.eqb_eq in Hsize. apply discovered_nothing in Hsize.
    rewrite Forall_forall in Hsize. apply list_elem_of_In in Hin.
    discriminate (Hsize _ Hin). }
  rewrite Horder. cbn [fst snd]. rewrite Hchat. cbn [fst snd Choices].
  rewrite foldl_file_skill, lookup_empty.
  destruct (last_named _ packages); reflexivity.
Qed.

End RunTheorems.

(** *** The entry point on scripted runs *)

Lemma discoverSkills_keeps_last_witness :
  exists skills,
    (exec (goskills.discoverSkills (demo_store demo_packages "lint") "skills")
       0%nat).1 = Some (skills, None) /\
    skills !! "lint" = Some lint_skill /\
    meta_Name (Meta lint_skill) = "lint" /\
    exists kept, skills !! meta_Name (Meta stale_lint) = Some kept.
Proof.
  destruct (discoverSkills_keeps_last (demo_store demo_packages "lint")
              "skills" 0%nat) as [_ (skills & Hrun & Hlookup & Hown & Hall)].
  exists skills. split; [exact Hrun|].
  assert (Hlint : skills !! "lint" = Some lint_skill).
  { rewrite (Hlookup "lint"). vm_compute. reflexivity. }
  split; [exact Hlint|]. split; [exact (proj1 (Hown _ _ Hlint))|].
  apply Hall. left. reflexivity.
Defined.

Lemma selected_name_unquoted_witness :
  goskills.skill_name_of quoted_demo = "demo" /\
  goskills.skill_name_of (bytes [39; 34; 39]%nat +:+ "x" +:+ bytes [34]%nat) = "x".
Proof.
  split.
  - refine (proj1 (proj2 (proj2 (selected_name_unquoted quoted_demo)))
              (bytes [34]%nat) "d"%char "em" "o"%char (bytes [34]%nat)
              _ _ _ _ _); vm_compute; reflexivity.
  - refine (proj2 (proj2 (proj2 (selected_name_unquoted
                                   (bytes [39; 34; 39]%nat +:+ "x"
                                    +:+ bytes [34]%nat))))
              (bytes [39; 34; 39]%nat) "x"%char (bytes [34]%nat)
              _ _ _ _); vm_compute; reflexivity.
Defined.

Lemma Run_asks_only_with_skills_witness :
  exec (goskills.Run bare_os plain_tools (unix_env "y")
          (demo_store demo_packages "lint") "lint my code"
          (entry_cfg EmptyString "gpt-4o")) 0%nat
  = (Some (EmptyString, Some "API key is not set"),
     {| world := 0%nat; trace := [] |}) /\
  (let run := exec (goskills.Run bare_os plain_tools (unix_env "y")
                      unreadable_store "lint my code"
                      (entry_cfg "key" "gpt-4o")) 0%nat in
   run.1 = Some (EmptyString,
                 Some ("failed to discover skills: "
                       +:+ "open skills: no such file or directory")) /\
   trace run.2 = []) /\
  (let run := exec (goskills.Run bare_os plain_tools (unix_env "y")
                      (demo_store [None; None] "lint") "lint my code"
                      (entry_cfg "key" "gpt-4o")) 0%nat in
   run.1 = Some (EmptyString, Some "no valid skills found") /\
   trace run.2 = []) /\
  exists req ans rest,
    trace (exec (goskills.Run bare_os plain_tools (unix_env "y")
                   (demo_store demo_packages "lint") "lint my code"
                   (entry_cfg "key" "gpt-4o")) 0%nat).2
    = EvChat req ans :: rest.
Proof.
  split; [|split; [|split]].
  - exact (proj1 (Run_asks_only_with_skills bare_os plain_tools (unix_env "y")
                    (demo_store demo_packages "lint") "lint my code"
                    (entry_cfg EmptyString "gpt-4o") 0%nat) eq_refl).
  - refine (proj1 (proj2 (Run_asks_only_with_skills bare_os plain_tools
                            (unix_env "y") unreadable_store "lint my code"
                            (entry_cfg "key" "gpt-4o") 0%nat)) _ _ _);
      [discriminate|reflexivity].
  - refine (proj1 (proj2 (proj2 (Run_asks_only_with_skills bare_os plain_tools
                                   (unix_env "y") (demo_store [None; None] "lint")
                                   "lint my code" (entry_cfg "key" "gpt-4o")
                                   0%nat))) _ _ _);
      [discriminate|reflexivity|repeat constructor].
  - refine (proj2 (proj2 (proj2 (Run_asks_only_with_skills bare_os plain_tools
                                   (unix_env "y")
                                   (demo_store demo_packages "lint")
                                   "lint my code" (entry_cfg "key" "gpt-4o")
                                   0%nat))) _ _ stale_lint _);
      [discriminate|reflexivity|left; reflexivity].
Defined.

Lemma Run_chat_budget_witness :
  let run := exec (goskills.Run bare_os plain_tools (unix_env "y")
                     (demo_store demo_packages quoted_demo) "hello"
                     (entry_cfg "key" EmptyString)) 0%nat in
  exists req ans rest,
    chats (trace run.2) = (req, ans) :: rest /\
    length rest = 1%nat /\
    plain_request 0 "gpt-4o" req /\
    exists later, trace run.2 = EvChat req ans :: later.
Proof.
  cbv zeta. eexists _, _, _. split; [vm_compute; reflexivity|].
  split; [reflexivity|].
  refine (proj1 (proj2 (proj2 (Run_chat_budget bare_os plain_tools
                                 (unix_env "y")
                                 (demo_store demo_packages quoted_demo) "hello"
                                 (entry_cfg "key" EmptyString) 0%nat)))
            _ _ _ _).
  vm_compute. reflexivity.
Defined.

Lemma Run_outcomes_witness :
  (let run := exec (goskills.Run bare_os plain_tools (unix_env "y")
                      (demo_store demo_packages quoted_demo) "hello"
                      (entry_cfg "key" EmptyString)) 0%nat in
   exists earlier req msg rest,
     trace run.2 = earlier ++ [EvChat req ({| Choices := msg :: rest |}, None)] /\
     earlier <> [] /\ ToolCalls msg = None /\ Content msg = "done") /\
  Run_error (goskills.nonexistent_skill "format").
Proof.
  split.
  - refine (proj2 (proj2 (Run_outcomes bare_os plain_tools (unix_env "y")
                            (demo_store demo_packages quoted_demo) "hello"
                            (entry_cfg "key" EmptyString) 0%nat)) "done" _).
    vm_compute. reflexivity.
  - refine (proj2 (proj1 (proj2 (Run_outcomes bare_os plain_tools (unix_env "y")
                                   (demo_store demo_packages "format") "hello"
                                   (entry_cfg "key" EmptyString) 0%nat))
                     EmptyString _ _)).
    vm_compute. reflexivity.
Defined.

Lemma Run_executes_selected_witness :
  let client := selecting_client quoted_demo in
  let inner :=
    exec (executeSkillWithTools bare_os plain_tools (unix_env "y") client
            "hello" demo_skill (entry_cfg "key" "gpt-4o")) 1%nat in
  let run := exec (goskills.Run bare_os plain_tools (unix_env "y")
                     (demo_store demo_packages quoted_demo) "hello"
                     (entry_cfg "key" EmptyString)) 0%nat in
  run.1 = option_map execution_result inner.1 /\
  world run.2 = world inner.2 /\
  exists selection, trace run.2 = selection :: trace inner.2.
Proof.
  cbv zeta.
  pose proof (Run_executes_selected bare_os plain_tools (unix_env "y")
                (demo_store demo_packages quoted_demo) "hello"
                (entry_cfg "key" EmptyString) 0%nat
                demo_packages stale_lint 0%nat
                (map_to_list (foldl goskills.file_skill ∅ demo_packages)) 0%nat
                (assistant quoted_demo None) [] 1%nat) as H.
  cbv zeta in H.
  specialize (H ltac:(discriminate) eq_refl ltac:(left; reflexivity) eq_refl
                eq_refl).
  change (last_named _ demo_packages) with (Some demo_skill) in H.
  cbv zeta in H. rewrite H. cbn [fst snd world trace].
  split; [reflexivity|]. split; [reflexivity|]. eexists. reflexivity.
Defined.

(** * The plan panel of the web page *)

Section PlanPanelFacts.

Import WebUI.

Context (template_class : string) (includes : string -> string -> bool)
  (step_number : string -> option Z).

Lemma show_status_tasks i s st : tasks (show_status i s st) = tasks st.
Proof. unfold show_status. now destruct (items st !! i). Qed.

Lemma show_status_current i s st :
  currentTaskIndex (show_status i s st) = currentTaskIndex st.
Proof. unfold show_status. now destruct (items st !! i). Qed.

Lemma show_status_lookup i s st k :
  items (show_status i s st) !! k =
  if decide (k = i)
  then (fun item => {| className := "plan-item " +:+ s;
                       task_desc := task_desc item;
                       task_meta := task_meta item;
                       icon_className := icon_of s |}) <$> items st !! i
  else items st !! k.
Proof.
  unfold show_status. destruct (items st !! i) as [item|] eqn:E; cbn [items].
  - destruct (decide (k = i)) as [->|Hne].
    + now rewrite lookup_insert_eq.
    + now rewrite lookup_insert_ne.
  - destruct (decide (k = i)) as [->|Hne]; [now rewrite E|reflexivity].
Qed.

Lemma status_of_class s :
  In s statuses -> "plan-item " +:+ s = "plan-item active" -> s = "active".
Proof.
  intros [<-|[<-|[<-|[]]]]; [reflexivity|discriminate|discriminate].
Qed.

Lemma show_status_consistent st i s :
  In s statuses ->
  (forall index, is_Some (items st !! index)
                 <-> 0 <= index < Z.of_nat (length (tasks st))) ->
  (currentTaskIndex st = -1 \/
   0 <= currentTaskIndex st < Z.of_nat (length (tasks st))) ->
  (forall k, k <> i -> shown_active st k -> k = currentTaskIndex st) ->
  (s = "active" -> i = currentTaskIndex st) ->
  (forall index item,
      items st !! index = Some item ->
      (className item = template_class /\ icon_className item = "far fa-circle")
      \/ exists status,
           In status statuses /\
           className item = "plan-item " +:+ status /\
           icon_className item = icon_of status) ->
  consistent template_class (show_status i s st).
Proof.
  intros Hs Hdom Hcur Hact Hi Hicon. split.
  - intros k. rewrite show_status_tasks, show_status_lookup, <- Hdom.
    destruct (decide (k = i)) as [->|_]; [|reflexivity].
    now rewrite fmap_is_Some.
  - now rewrite show_status_tasks, show_status_current.
  - intros k (item & Hk & Hclass). rewrite show_status_current.
    rewrite show_status_lookup in Hk.
    destruct (decide (k = i)) as [->|Hne].
    + destruct (items st !! i) as [old|]; [|discriminate Hk].
      cbn in Hk. injection Hk as <-. cbn [className] in Hclass.
      apply Hi. now apply status_of_class.
    + apply (Hact k Hne). now exists item.
  - intros k item Hk. rewrite show_status_lookup in Hk.
    destruct (decide (k = i)) as [->|Hne]; [|exact (Hicon _ _ Hk)].
    destruct (items st !! i) as [old|]; [|discriminate Hk].
    cbn in Hk. injection Hk as <-. right. exists s. auto.
Qed.

Lemma updateTaskStatus_again_consistent st i s :
  In s statuses -> s <> "active" ->
  consistent template_class st ->
  consistent template_class (updateTaskStatus_again i s st).
Proof.
  intros Hs Hne [Hdom Hcur Hact Hicon]. unfold updateTaskStatus_again.
  destruct (out_of_range i st); [now split|].
  apply show_status_consistent; auto. intros; contradiction.
Qed.

Lemma updateTaskStatus_plain st i s :
  String.eqb s "active" = false ->
  updateTaskStatus i s st = updateTaskStatus_again i s st.
Proof.
  intros Hs. unfold updateTaskStatus, updateTaskStatus_again. now rewrite Hs.
Qed.

Lemma in_range_item st i :
  consistent template_class st -> out_of_range i st = false ->
  is_Some (items st !! i).
Proof.
  intros [Hdom _ _ _] Hr. apply Hdom. unfold out_of_range in Hr.
  apply orb_false_elim in Hr as [H1 H2]. lia.
Qed.

Lemma updateTaskStatus_consistent st i s :
  In s statuses ->
  consistent template_class st ->
  consistent template_class (updateTaskStatus i s st).
Proof.
  intros Hs Hst. destruct (String.eqb s "active") eqn:Es.
  - apply String.eqb_eq in Es. subst s. unfold updateTaskStatus.
    destruct (out_of_range i st) eqn:Hr; [exact Hst|].
    rewrite String.eqb_refl.
    set (st1 := if negb (currentTaskIndex st =? -1)
                   && negb (currentTaskIndex st =? i)
                then updateTaskStatus_again (currentTaskIndex st) "completed" st
                else st).
    assert (H1 : consistent template_class st1 /\
                 tasks st1 = tasks st /\
                 forall k, k <> i -> ~ shown_active st1 k).
    { subst st1.
      destruct (currentTaskIndex st =? -1) eqn:Ec; cbn [negb andb].
      { apply Z.eqb_eq in Ec. split; [exact Hst|]. split; [reflexivity|].
        intros k _ Hk. pose proof (one_active _ _ Hst k Hk) as Hkc.
        destruct Hk as (item & Hk & _).
        assert (Hsome : is_Some (items st !! k)) by (now exists item).
        apply (items_of_tasks _ _ Hst) in Hsome. lia. }
      destruct (currentTaskIndex st =? i) eqn:Ei; cbn [negb].
      { apply Z.eqb_eq in Ei. split; [exact Hst|]. split; [reflexivity|].
        intros k Hne Hk. apply Hne. rewrite <- Ei.
        exact (one_active _ _ Hst k Hk). }
      split; [|split].
      - apply updateTaskStatus_again_consistent;
          [right; left; reflexivity|discriminate|exact Hst].
      - unfold updateTaskStatus_again.
        destruct (out_of_range (currentTaskIndex st) st);
          [reflexivity|apply show_status_tasks].
      - intros k _ (item & Hk & Hclass).
        apply Z.eqb_neq in Ec.
        destruct (current_in_range _ _ Hst) as [Hc|Hc]; [contradiction|].
        unfold updateTaskStatus_again, out_of_range in Hk.
        replace ((currentTaskIndex st <? 0)
                 || (currentTaskIndex st >=? Z.of_nat (length (tasks st))))
          with false in Hk
          by (symmetry; apply orb_false_intro; lia).
        rewrite show_status_lookup in Hk.
        destruct (decide (k = currentTaskIndex st)) as [->|Hne].
        + destruct (items st !! currentTaskIndex st); [|discriminate Hk].
          cbn in Hk. injection Hk as <-. discriminate Hclass.
        + apply Hne. apply (one_active _ _ Hst). now exists item. }
    destruct H1 as ([Hdom Hcur Hact Hicon] & Htasks & Hnone).
    assert (Hrange : 0 <= i < Z.of_nat (length (tasks st))).
    { unfold out_of_range in Hr. apply orb_false_elim in Hr as [? ?]. lia. }
    apply show_status_consistent; cbn [tasks currentTaskIndex items];
      [ left; reflexivity | exact Hdom | right; now rewrite Htasks
      | intros k Hne Hk; now apply Hnone in Hk | reflexivity | exact Hicon ].
  - rewrite updateTaskStatus_plain by exact Es.
    apply updateTaskStatus_again_consistent; auto.
    intros ->. discriminate Es.
Qed.

Lemma plan_items_lookup ts :
  forall index container k,
    plan_items template_class index ts container !! k =
    if decide (index <= k < index + Z.of_nat (length ts))
    then (fun task => {| className := template_class;
                         task_desc := task_description task;
                         task_meta := task_type task;
                         icon_className := "far fa-circle" |})
           <$> ts !! Z.to_nat (k - index)
    else container !! k.
Proof.
  induction ts as [|task rest IH]; intros index container k;
    cbn [plan_items length].
  - destruct (decide _) as [H|_]; [lia|reflexivity].
  - rewrite IH.
    destruct (decide (index + 1 <= k < index + 1 + Z.of_nat (length rest)))
      as [H|H].
    + destruct (decide (index <= k < index + Z.of_nat (S (length rest))))
        as [_|H']; [|lia].
      replace (Z.to_nat (k - index)) with (S (Z.to_nat (k - (index + 1))))
        by lia.
      reflexivity.
    + destruct (decide (index <= k < index + Z.of_nat (S (length rest))))
        as [H'|H'].
      * assert (k = index) as -> by lia.
        rewrite lookup_insert_eq, Z.sub_diag. reflexivity.
      * rewrite lookup_insert_ne by lia. reflexivity.
Qed.

Lemma renderPlan_consistent plan st :
  template_class <> "plan-item active" ->
  consistent template_class st ->
  consistent template_class (renderPlan template_class plan st).
Proof.
  intros Htemplate Hst. destruct plan as [ts|]; [|exact Hst].
  unfold renderPlan.
  destruct (length ts =? 0)%nat eqn:El.
  - apply Nat.eqb_eq in El. split; cbn [tasks currentTaskIndex items].
    + intros k. rewrite lookup_empty, El. split; [intros [? H]; discriminate H|lia].
    + now left.
    + intros k (item & Hk & _). cbn [items] in Hk.
      now rewrite lookup_empty in Hk.
    + intros k item Hk. now rewrite lookup_empty in Hk.
  - split; cbn [tasks currentTaskIndex items].
    + intros k. rewrite plan_items_lookup, lookup_empty.
      destruct (decide (0 <= k < 0 + Z.of_nat (length ts))) as [H|H].
      * rewrite fmap_is_Some. split; [lia|]. intros _.
        apply lookup_lt_is_Some. lia.
      * split; [intros [? H']; discriminate H'|lia].
    + now left.
    + intros k (item & Hk & Hclass). exfalso. cbn [items] in Hk.
      rewrite plan_items_lookup, lookup_empty in Hk.
      destruct (decide _); [|discriminate Hk].
      destruct (ts !! _); [|discriminate Hk].
      cbn in Hk. injection Hk as <-. cbn in Hclass. now apply Htemplate.
    + intros k item Hk.
      rewrite plan_items_lookup, lookup_empty in Hk.
      destruct (decide _); [|discriminate Hk].
      destruct (ts !! _); [|discriminate Hk].
      cbn in Hk. injection Hk as <-. left. auto.
Qed.

Lemma WebUI_loaded_consistent : consistent template_class loaded.
Proof.
  split; cbn.
  - intros k. rewrite lookup_empty. split; [intros [? H]; discriminate H|lia].
  - now left.
  - intros k (item & Hk & _). cbn in Hk. now rewrite lookup_empty in Hk.
  - intros k item Hk. now rewrite lookup_empty in Hk.
Qed.

Lemma handleEvent_consistent data st :
  template_class <> "plan-item active" ->
  consistent template_class st ->
  consistent template_class
    (handleEvent template_class includes step_number data st).
Proof.
  intros Htemplate Hst. destruct data as [content|plan| |text];
    cbn [handleEvent].
  - unfold handleLog.
    destruct (includes content _).
    { destruct (step_number content); [|exact Hst].
      apply updateTaskStatus_consistent; [left; reflexivity|exact Hst]. }
    destruct (includes content _).
    { apply updateTaskStatus_consistent; [right; left; reflexivity|exact Hst]. }
    destruct (includes content _); [|exact Hst].
    apply updateTaskStatus_consistent; [do 2 right; left; reflexivity|exact Hst].
  - now apply renderPlan_consistent.
  - exact Hst.
  - destruct (String.eqb text EmptyString);
      [exact Hst|apply WebUI_loaded_consistent].
Qed.

Lemma after_consistent (events : list PageEvent) :
  template_class <> "plan-item active" ->
  forall st,
    consistent template_class st ->
    consistent template_class
      (after template_class includes step_number events st).
Proof.
  intros Htemplate. unfold after.
  induction events as [|data rest IH]; intros st Hst; cbn [fold_left].
  - exact Hst.
  - apply IH. now apply handleEvent_consistent.
Qed.

(** Whatever arrives on the event stream and whenever requests are
    submitted, the plan panel stays consistent, provided the template does
    not itself show a task as running: there is one item per task of the
    plan; the current index is -1 or the index of a task; no item but the
    one of the current task is shown as running; and the icon of an item is
    the one of its class. *)
Theorem plan_panel_consistent (events : list PageEvent) :
  template_class <> "plan-item active" ->
  consistent template_class
    (after template_class includes step_number events loaded).
Proof.
  intros Htemplate. unfold after.
  assert (H : forall st, consistent template_class st ->
                         consistent template_class
                           (fold_left
                              (fun st data =>
                                 handleEvent template_class includes
                                   step_number data st) events st)).
  { induction events as [|data rest IH]; intros st Hst; cbn [fold_left].
    - exact Hst.
    - apply IH. now apply handleEvent_consistent. }
  apply H, WebUI_loaded_consistent.
Qed.

Lemma in_range_false st i :
  0 <= i < Z.of_nat (length (tasks st)) -> out_of_range i st = false.
Proof. intros H. unfold out_of_range. apply orb_false_intro; lia. Qed.

Lemma shows_shown st i s :
  is_Some (items st !! i) -> shows (show_status i s st) i s.
Proof.
  intros [item Hi]. unfold shows. rewrite show_status_lookup.
  destruct (decide (i = i)) as [_|H]; [|contradiction].
  rewrite Hi. eexists. split; [reflexivity|]. split; reflexivity.
Qed.

(** A step line moves the panel on.  A log line that carries the step mark
    and matches the step pattern with a number of the plan makes that task
    the current one and shows it as running; the task that was current
    before, if it was another one, is shown as completed, whatever it
    showed, a failure included; no other item changes.  A number outside the
    plan changes nothing. *)
Theorem step_line_moves_on content number st :
  consistent template_class st ->
  includes content step_mark = true ->
  step_number content = Some number ->
  let st' := handleLog includes step_number content st in
  let previous := currentTaskIndex st in
  (1 <= number <= Z.of_nat (length (tasks st)) ->
   currentTaskIndex st' = number - 1 /\
   tasks st' = tasks st /\
   shows st' (number - 1) "active" /\
   (previous <> -1 -> previous <> number - 1 ->
    shows st' previous "completed") /\
   (forall k, k <> number - 1 -> k <> previous ->
              items st' !! k = items st !! k)) /\
  (~ 1 <= number <= Z.of_nat (length (tasks st)) -> st' = st).
Proof.
  intros Hst Hmark Hnumber. cbv zeta. unfold handleLog.
  rewrite Hmark, Hnumber. unfold updateTaskStatus. split.
  - intros Hrange. rewrite in_range_false by lia. rewrite String.eqb_refl.
    set (st1 := if negb (currentTaskIndex st =? -1)
                   && negb (currentTaskIndex st =? number - 1)
                then updateTaskStatus_again (currentTaskIndex st) "completed" st
                else st).
    assert (H1 : tasks st1 = tasks st /\
                 (forall k, k <> currentTaskIndex st ->
                            items st1 !! k = items st !! k) /\
                 (forall k, is_Some (items st1 !! k)
                            <-> is_Some (items st !! k)) /\
                 (currentTaskIndex st <> -1 ->
                  currentTaskIndex st <> number - 1 ->
                  shows st1 (currentTaskIndex st) "completed")).
    { subst st1.
      destruct (currentTaskIndex st =? -1) eqn:Ec; cbn [negb andb].
      { apply Z.eqb_eq in Ec. repeat split; auto. contradiction. }
      destruct (currentTaskIndex st =? number - 1) eqn:Ei; cbn [negb].
      { apply Z.eqb_eq in Ei. repeat split; auto. contradiction. }
      apply Z.eqb_neq in Ec.
      destruct (current_in_range _ _ Hst) as [Hc|Hc]; [contradiction|].
      unfold updateTaskStatus_again. rewrite in_range_false by exact Hc.
      split; [apply show_status_tasks|]. split; [|split].
      - intros k Hk. rewrite show_status_lookup.
        destruct (decide _); [contradiction|reflexivity].
      - intros k. rewrite show_status_lookup.
        destruct (decide (k = currentTaskIndex st)) as [->|_]; [|reflexivity].
        now rewrite fmap_is_Some.
      - intros _ _. apply shows_shown. now apply (items_of_tasks _ _ Hst). }
    destruct H1 as (Htasks & Hother & Hsome & Hprev).
    set (st2 := {| tasks := tasks st1; currentTaskIndex := number - 1;
                   items := items st1 |}).
    assert (Hitem : is_Some (items st2 !! (number - 1))).
    { cbn [st2 items]. apply Hsome, (items_of_tasks _ _ Hst). lia. }
    split; [now rewrite show_status_current|].
    split; [now rewrite show_status_tasks|].
    split; [now apply shows_shown|]. split.
    + intros Hc Hne. destruct (Hprev Hc Hne) as (item & Hi & Hclass).
      exists item. rewrite show_status_lookup.
      destruct (decide _) as [E|_]; [congruence|].
      split; [exact Hi|exact Hclass].
    + intros k Hk Hp. rewrite show_status_lookup.
      destruct (decide _); [contradiction|]. now apply Hother.
  - intros Hout.
    replace (out_of_range (number - 1) st) with true; [reflexivity|].
    symmetry. unfold out_of_range. apply orb_true_iff.
    destruct (Z.ltb_spec (number - 1) 0); [now left|right].
    apply Z.geb_le. lia.
Qed.

(** A verdict is about the current task.  A log line without the step mark
    that carries the mark of completion, or else the mark of failure, shows
    the current task as completed, or as failed, and changes nothing else;
    before the first step (no current task) it changes nothing.  A line
    with the step mark that does not match the step pattern changes nothing
    either, whatever else it carries; nor does a line with none of the
    marks. *)
Theorem verdict_marks_current content st :
  consistent template_class st ->
  let st' := handleLog includes step_number content st in
  let verdict :=
    if includes content done_mark then Some "completed"
    else if includes content failed_mark then Some "failed" else None in
  (includes content step_mark = false ->
   forall status,
     verdict = Some status ->
     currentTaskIndex st' = currentTaskIndex st /\
     tasks st' = tasks st /\
     (currentTaskIndex st = -1 -> st' = st) /\
     (currentTaskIndex st <> -1 -> shows st' (currentTaskIndex st) status) /\
     (forall k, k <> currentTaskIndex st -> items st' !! k = items st !! k)) /\
  (includes content step_mark = false -> verdict = None -> st' = st) /\
  (includes content step_mark = true -> step_number content = None -> st' = st).
Proof.
  intros Hst. cbv zeta. unfold handleLog.
  assert (Hverdict : forall status,
             String.eqb status "active" = false ->
             let st' := updateTaskStatus (currentTaskIndex st) status st in
             currentTaskIndex st' = currentTaskIndex st /\
             tasks st' = tasks st /\
             (currentTaskIndex st = -1 -> st' = st) /\
             (currentTaskIndex st <> -1 ->
              shows st' (currentTaskIndex st) status) /\
             (forall k, k <> currentTaskIndex st ->
                        items st' !! k = items st !! k)).
  { intros status Hs. cbv zeta. rewrite updateTaskStatus_plain by exact Hs.
    unfold updateTaskStatus_again.
    destruct (current_in_range _ _ Hst) as [Hc|Hc].
    - replace (out_of_range (currentTaskIndex st) st) with true
        by (unfold out_of_range; now rewrite Hc).
      repeat split; auto. contradiction.
    - rewrite in_range_false by exact Hc.
      split; [apply show_status_current|]. split; [apply show_status_tasks|].
      split; [lia|]. split.
      + intros _. apply shows_shown. now apply (items_of_tasks _ _ Hst).
      + intros k Hk. rewrite show_status_lookup.
        destruct (decide _); [contradiction|reflexivity]. }
  split; [|split].
  - intros -> status Hstatus.
    destruct (includes content done_mark).
    { injection Hstatus as <-. now apply Hverdict. }
    destruct (includes content failed_mark); [|discriminate Hstatus].
    injection Hstatus as <-. now apply Hverdict.
  - intros -> Hnone.
    destruct (includes content done_mark); [discriminate Hnone|].
    destruct (includes content failed_mark); [discriminate Hnone|reflexivity].
  - intros -> ->. reflexivity.
Qed.

End PlanPanelFacts.

(** *** The plan panel on a scripted run *)

Lemma plan_panel_consistent_witness :
  WebUI.consistent "plan-item"
    (WebUI.after "plan-item" strings_Contains WebUI.read_step
       WebUI.failing_run WebUI.loaded).
Proof.
  apply (plan_panel_consistent "plan-item" strings_Contains WebUI.read_step
           WebUI.failing_run).
  discriminate.
Defined.

Lemma step_line_moves_on_witness :
  let st := WebUI.after "plan-item" strings_Contains WebUI.read_step
              (removelast WebUI.failing_run) WebUI.loaded in
  let st' := WebUI.after "plan-item" strings_Contains WebUI.read_step
               WebUI.failing_run WebUI.loaded in
  WebUI.shows st 0 "failed" /\
  WebUI.currentTaskIndex st' = 1 /\
  WebUI.shows st' 1 "active" /\
  WebUI.shows st' 0 "completed".
Proof.
  cbv zeta.
  assert (Hst : WebUI.consistent "plan-item"
                  (WebUI.after "plan-item" strings_Contains WebUI.read_step
                     (removelast WebUI.failing_run) WebUI.loaded)).
  { apply after_consistent; [discriminate|apply WebUI_loaded_consistent]. }
  destruct (proj1 (step_line_moves_on "plan-item" strings_Contains
                     WebUI.read_step (WebUI.step_line "2") 2
                     (WebUI.after "plan-item" strings_Contains WebUI.read_step
                        (removelast WebUI.failing_run) WebUI.loaded)
                     Hst ltac:(vm_compute; reflexivity)
                     ltac:(vm_compute; reflexivity))
              ltac:(vm_compute; split; discriminate))
    as (Hcur & _ & Hactive & Hprev & _).
  split.
  - eexists. split; [vm_compute; reflexivity|]. split; reflexivity.
  - split; [exact Hcur|]. split; [exact Hactive|].
    apply Hprev; vm_compute; discriminate.
Defined.

Lemma verdict_marks_current_witness :
  let st := WebUI.after "plan-item" strings_Contains WebUI.read_step
              (firstn 3 WebUI.failing_run) WebUI.loaded in
  WebUI.shows
    (WebUI.handleLog strings_Contains WebUI.read_step
       (WebUI.failed_mark +:+ ": timeout") st) 0 "failed" /\
  WebUI.handleLog strings_Contains WebUI.read_step
    (WebUI.done_mark +:+ " early") WebUI.loaded = WebUI.loaded.
Proof.
  cbv zeta. split.
  - refine (proj1 (proj2 (proj2 (proj2
              (proj1 (verdict_marks_current "plan-item" strings_Contains
                        WebUI.read_step (WebUI.failed_mark +:+ ": timeout")
                        (WebUI.after "plan-item" strings_Contains
                           WebUI.read_step (firstn 3 WebUI.failing_run)
                           WebUI.loaded) _) _ "failed" _)))) _).
    + apply after_consistent; [discriminate|apply WebUI_loaded_consistent].
    + vm_compute. reflexivity.
    + vm_compute. reflexivity.
    + vm_compute. discriminate.
  - refine (proj1 (proj2 (proj2
              (proj1 (verdict_marks_current "plan-item" strings_Contains
                        WebUI.read_step (WebUI.done_mark +:+ " early")
                        WebUI.loaded _) _ "completed" _))) _).
    + apply WebUI_loaded_consistent.
    + vm_compute. reflexivity.
    + vm_compute. reflexivity.
    + reflexivity.
Defined.
